(** * Strigil GUI: command builder, progress interpreter and job coordinator

    A shallow embedding of [src/strigil/gui.py] and of the command-building
    part of [src/web_scraper/gui.py].

    Text is [String.string]: a Python [str] is represented by its UTF-8
    bytes.  Substring tests and replacement agree with Python's on that
    representation; the digits of the regular expression [\d] are the
    decimal digits of Unicode, decoded from that representation; the
    whitespace of [str.strip] is the ASCII one.  Python integers are [Z]. *)

From Stdlib Require Import ZArith List String Ascii Bool Lia.
From Stdlib Require Import DecimalString.
From Stdlib Require DecimalZ DecimalPos.
Import ListNotations.
Open Scope string_scope.
Open Scope Z_scope.

(** ** Python primitives used by the GUI *)

Module Py.

(** [str(n)] for an [int]. *)
Definition str (n : Z) : string := NilZero.string_of_int (Z.to_int n).

(** [c.isspace()] on ASCII: tab, LF, VT, FF, CR, the separators
    0x1c-0x1f and the space. *)
Definition isspace (c : ascii) : bool :=
  let n := nat_of_ascii c in
  ((9 <=? n) && (n <=? 13) || (28 <=? n) && (n <=? 32))%nat.

(** An ASCII digit, as [str(n)] writes them. *)
Definition isdigit (c : ascii) : bool :=
  let n := nat_of_ascii c in ((48 <=? n) && (n <=? 57))%nat.

(** A [str] is held as its UTF-8 text.  The value of a byte: *)
Definition byte (c : ascii) : Z := Z.of_N (N_of_ascii c).

Definition continuation (c : ascii) : bool :=
  (128 <=? byte c) && (byte c <=? 191).

(** The code point that the text [s] starts with and the number of bytes
    that encode it; [None] for the empty text and for bytes that start no
    UTF-8 sequence, which the text of a [str] does not hold. *)
Definition utf8_head (s : string) : option (Z * nat) :=
  match s with
  | EmptyString => None
  | String c0 s0 =>
      let b0 := byte c0 in
      if b0 <? 128 then Some (b0, 1%nat)
      else if b0 <? 194 then None
      else
        match s0 with
        | EmptyString => None
        | String c1 s1 =>
            if negb (continuation c1) then None
            else if b0 <? 224 then
              Some ((b0 - 192) * 64 + (byte c1 - 128), 2%nat)
            else
              match s1 with
              | EmptyString => None
              | String c2 s2 =>
                  if negb (continuation c2) then None
                  else if b0 <? 240 then
                    Some ((b0 - 224) * 4096 + (byte c1 - 128) * 64
                          + (byte c2 - 128), 3%nat)
                  else
                    match s2 with
                    | EmptyString => None
                    | String c3 _ =>
                        if continuation c3 && (b0 <? 245) then
                          Some ((b0 - 240) * 262144 + (byte c1 - 128) * 4096
                                + (byte c2 - 128) * 64 + (byte c3 - 128), 4%nat)
                        else None
                    end
              end
        end
  end.

(** The decimal digits of Unicode (general category Nd), which [\d]
    matches in a [str] pattern: every digit zero is followed by its digits
    one to nine.  The zeros are those of the Unicode Character Database
    14.0, which Python 3.11 carries. *)
Definition decimal_zeros : list Z :=
  [48; 1632; 1776; 1984; 2406; 2534; 2662; 2790; 2918; 3046; 3174; 3302;
   3430; 3558; 3664; 3792; 3872; 4160; 4240; 6112; 6160; 6470; 6608; 6784;
   6800; 6992; 7088; 7232; 7248; 42528; 43216; 43264; 43472; 43504; 43600;
   44016; 65296; 66720; 68912; 69734; 69872; 69942; 70096; 70384; 70736;
   70864; 71248; 71360; 71472; 71904; 72016; 72784; 73040; 73120; 92768;
   92864; 93008; 120782; 120792; 120802; 120812; 120822; 123200; 123632;
   125264; 130032].

Definition is_decimal (cp : Z) : bool :=
  existsb (fun z => (z <=? cp) && (cp <=? z + 9)) decimal_zeros.

(** [\d] at the head of [s]: the number of bytes of the decimal digit
    that [s] starts with, and 0 when it starts with none. *)
Definition digit_len (s : string) : nat :=
  match utf8_head s with
  | Some (cp, n) => if is_decimal cp then n else O
  | None => O
  end.

Fixpoint lstrip (s : string) : string :=
  match s with
  | String c s' => if isspace c then lstrip s' else s
  | EmptyString => EmptyString
  end.

Fixpoint rstrip (s : string) : string :=
  match s with
  | String c s' =>
      match rstrip s' with
      | EmptyString => if isspace c then EmptyString else String c EmptyString
      | r => String c r
      end
  | EmptyString => EmptyString
  end.

(** [s.strip()] *)
Definition strip (s : string) : string := rstrip (lstrip s).

(** [sub in s] *)
Fixpoint contains (sub s : string) : bool :=
  String.prefix sub s
  || match s with
     | String _ s' => contains sub s'
     | EmptyString => false
     end.

(** [s.replace(old, new)] for a non-empty [old]: occurrences are replaced
    from the left and do not overlap.  [skip] counts the characters of a
    just-replaced occurrence that are still to be dropped. *)
Fixpoint replace_from (old new : string) (skip : nat) (s : string) : string :=
  match s with
  | EmptyString => EmptyString
  | String c s' =>
      match skip with
      | S k => replace_from old new k s'
      | O =>
          if String.prefix old s
          then new ++ replace_from old new (Nat.pred (String.length old)) s'
          else String c (replace_from old new O s')
      end
  end.

Definition replace (old new s : string) : string := replace_from old new O s.

(** [sep.join(parts)] *)
Fixpoint join (sep : string) (parts : list string) : string :=
  match parts with
  | [] => EmptyString
  | [p] => p
  | p :: ps => p ++ sep ++ join sep ps
  end.

(** The line feed that Python writes as a backslash followed by n. *)
Definition nl : string := String (ascii_of_nat 10) EmptyString.

(** [min(xs)] and [max(xs)]; [None] stands for the [ValueError] raised on
    an empty sequence. *)
Definition min (xs : list Z) : option Z :=
  match xs with
  | [] => None
  | x :: xs' => Some (fold_left Z.min xs' x)
  end.

Definition max (xs : list Z) : option Z :=
  match xs with
  | [] => None
  | x :: xs' => Some (fold_left Z.max xs' x)
  end.

End Py.

(** ** Image-size presets and their command-line arguments *)

Definition SIZE_SMALL_MAX : Z := 100 * 1024.
Definition SIZE_MEDIUM_MIN : Z := 100 * 1024.
Definition SIZE_MEDIUM_MAX : Z := 1024 * 1024.
Definition SIZE_LARGE_MIN : Z := 1024 * 1024.

(** [_size_to_arg] ([//] is floor division, [Z.div] on [Z]). *)
Definition _size_to_arg (n : Z) : string :=
  if n >=? 1024 * 1024 then Py.str (n / (1024 * 1024)) ++ "m"
  else if n >=? 1024 then Py.str (n / 1024) ++ "k"
  else Py.str n.

(** The two lists that [_image_size_args] fills from the checkboxes. *)
Definition size_lows (small medium large : bool) : list Z :=
  ((if small then [0] else [])
   ++ (if medium then [SIZE_MEDIUM_MIN] else [])
   ++ (if large then [SIZE_LARGE_MIN] else []))%list.

Definition size_highs (small medium large : bool) : list (option Z) :=
  ((if small then [Some SIZE_SMALL_MAX] else [])
   ++ (if medium then [Some SIZE_MEDIUM_MAX] else [])
   ++ (if large then [None] else []))%list.

Definition is_None {A} (o : option A) : bool :=
  match o with None => true | Some _ => false end.

(** [h for h in highs if h is not None] *)
Fixpoint not_None {A} (l : list (option A)) : list A :=
  match l with
  | [] => []
  | Some a :: l' => a :: not_None l'
  | None :: l' => not_None l'
  end.

(** The tail of [_image_size_args] and of the inlined copy in
    [web_scraper/gui.py], from [low = min(lows)] on.  The result is [None]
    when [min] or [max] raises. *)
Definition size_args_of (lows : list Z) (highs : list (option Z))
  : option (list string) :=
  match Py.min lows with
  | None => None
  | Some low =>
      match (if existsb is_None highs then Some None
             else option_map Some (Py.max (not_None highs))) with
      | None => None
      | Some high =>
          Some ((if low >? 0 then ["--min-image-size"; _size_to_arg low] else [])
                ++ match high with
                   | Some h => ["--max-image-size"; _size_to_arg h]
                   | None => []
                   end)%list
      end
  end.

(** [_image_size_args] of [strigil/gui.py]. *)
Definition _image_size_args (small medium large : bool) : option (list string) :=
  let lows := size_lows small medium large in
  let highs := size_highs small medium large in
  match lows with
  | [] => Some []
  | _ => size_args_of lows highs
  end.

(** The same computation as inlined in [run_scrape] of
    [web_scraper/gui.py]: the arguments are appended only [if lows]. *)
Definition web_scraper_size_args (small medium large : bool)
  : option (list string) :=
  let lows := size_lows small medium large in
  let highs := size_highs small medium large in
  match lows with
  | [] => Some []
  | _ => size_args_of lows highs
  end.

(** ** The command builder of [run_scrape] *)

(** [selected_types], filled in the order pdf, text, images. *)
Definition selected_types (pdf text images : bool) : list string :=
  ((if pdf then ["pdf"] else [])
   ++ (if text then ["text"] else [])
   ++ (if images then ["images"] else []))%list.

(** A list is truthy when it is not empty. *)
Definition truthy {A} (l : list A) : bool :=
  match l with [] => false | _ => true end.

Definition nonblank (s : string) : bool :=
  match s with EmptyString => false | _ => true end.

(** [types_args = ["--types"] + selected_types
      if selected_types and len(selected_types) < 3 else []] *)
Definition types_args (sel : list string) : list string :=
  if truthy sel && (Z.of_nat (List.length sel) <? 3)
  then "--types" :: sel else [].

(** The widget values read by [run_scrape].  [urls] is the list of
    stripped non-blank lines of the URL box.  [delay_var] is [str(delay)]
    for the float read from the spin box and [None] when reading it raises;
    [depth_var] and [workers_var] are [None] when [int(...)] raises.
    [base_cmd] is the interpreter or frozen-binary prefix. *)
Record widgets := {
  urls : list string;
  urls_mode_var : string;
  out_var : string;
  done_script_var : string;
  type_pdf_var : bool;
  type_text_var : bool;
  type_images_var : bool;
  size_small_var : bool;
  size_medium_var : bool;
  size_large_var : bool;
  delay_var : option string;
  depth_var : option Z;
  workers_var : option Z;
  js_var : bool;
  flaresolverr_var : bool;
  flaresolverr_url_var : string;
  crawl_var : bool;
  same_domain_var : bool;
  keep_awake_var : bool;
  base_cmd : list string
}.

Definition delay_of (w : widgets) : string :=
  match delay_var w with Some d => d | None => "0.5" end.

Definition depth_of (w : widgets) : Z :=
  match depth_var w with Some d => d | None => 2 end.

(** [common_args], given the already computed size arguments. *)
Definition common_args_with (w : widgets) (size_args : list string) : list string :=
  (base_cmd w
   ++ size_args
   ++ (if js_var w then ["--js"] else [])
   ++ (if flaresolverr_var w
       then let url_opt := Py.strip (flaresolverr_url_var w) in
            if nonblank url_opt then ["--flaresolverr"; url_opt]
            else ["--flaresolverr"]
       else [])
   ++ (if crawl_var w
       then ["--crawl"; "--max-depth"; Py.str (depth_of w)]
            ++ match workers_var w with
               | Some n => ["--workers"; Py.str (Z.max 1 (Z.min 12 n))]
               | None => []
               end
            ++ (if same_domain_var w then ["--same-domain-only"] else [])
       else [])
   ++ (if keep_awake_var w then ["--keep-awake"] else []))%list.

Definition common_args (w : widgets) : option (list string) :=
  option_map (common_args_with w)
    (_image_size_args (size_small_var w) (size_medium_var w) (size_large_var w)).

Definition done_script_of (w : widgets) : string := Py.strip (done_script_var w).

Definition out_dir_of (w : widgets) : string :=
  let o := Py.strip (out_var w) in if nonblank o then o else "output".

Definition types_args_of (w : widgets) : list string :=
  types_args (selected_types (type_pdf_var w) (type_text_var w) (type_images_var w)).

(** [build_cmd]; [common] is the closure variable [common_args]. *)
Definition build_cmd (w : widgets) (common : list string)
    (url_list : list string) (include_done_script : bool) : list string :=
  let c := (common ++ ["--url"] ++ url_list
            ++ ["--out-dir"; out_dir_of w; "--delay"; delay_of w]
            ++ types_args_of w)%list in
  if include_done_script && nonblank (done_script_of w)
  then (c ++ ["--done-script"; done_script_of w])%list
  else c.

(** [run_parallel = urls_mode_var.get() == "parallel" and len(urls) > 1] *)
Definition run_parallel (w : widgets) : bool :=
  String.eqb (urls_mode_var w) "parallel" && (1 <? Z.of_nat (List.length (urls w))).

(** [enumerate(urls)] *)
Fixpoint enumerate_from {A} (i : Z) (l : list A) : list (Z * A) :=
  match l with
  | [] => []
  | a :: l' => (i, a) :: enumerate_from (i + 1) l'
  end.

Definition enumerate {A} (l : list A) : list (Z * A) := enumerate_from 0 l.

(** The commands of a run: the one command of the sequential path, or the
    commands that the parallel workers build, one per [(idx, url)] of
    [enumerate(urls)]. *)
Inductive launch :=
| Sequential (cmd : list string)
| Parallel (cmds : list (Z * list string)).

Definition launch_of (w : widgets) (common : list string) : launch :=
  if run_parallel w
  then Parallel (map (fun iu => (fst iu, build_cmd w common [snd iu] false))
                     (enumerate (urls w)))
  else Sequential (build_cmd w common (urls w) true).

(** The [--types] handling of [web_scraper/gui.py]: [Some] of what is
    appended to [cmd], [None] when the run is refused. *)
Definition web_scraper_types_args (sel : list string) : option (list string) :=
  if truthy sel && (Z.of_nat (List.length sel) <? 3) then Some ("--types" :: sel)
  else if negb (truthy sel) then None
  else Some [].

(** ** The progress interpreter: [update_status] *)

(** The status bar and the counters [scrape_counts = [pdf, text, images]]
    that [update_status] closes over. *)
Record progress := {
  state_var : string;
  progress_var : string;
  count_pdf : Z;
  count_text : Z;
  count_images : Z
}.

Definition set_progress (msg : string) (finished : bool) (p : progress) : progress :=
  {| state_var := if finished then "Finished" else "Running";
     progress_var := msg;
     count_pdf := count_pdf p;
     count_text := count_text p;
     count_images := count_images p |}.

(** The f-string shared by the last four branches. *)
Definition counts_msg (p : progress) : string :=
  Py.str (count_pdf p) ++ " PDFs, " ++ Py.str (count_text p) ++ " texts, "
  ++ Py.str (count_images p) ++ " images".

Definition incr_pdf (p : progress) : progress :=
  {| state_var := state_var p; progress_var := progress_var p;
     count_pdf := count_pdf p + 1; count_text := count_text p;
     count_images := count_images p |}.

Definition incr_text (p : progress) : progress :=
  {| state_var := state_var p; progress_var := progress_var p;
     count_pdf := count_pdf p; count_text := count_text p + 1;
     count_images := count_images p |}.

Definition incr_images (p : progress) : progress :=
  {| state_var := state_var p; progress_var := progress_var p;
     count_pdf := count_pdf p; count_text := count_text p;
     count_images := count_images p + 1 |}.

(** The longest prefix of decimal digits, and what follows it.  [skip]
    counts the bytes of a digit just recognised that are still to be
    taken. *)
Fixpoint span_digits_from (skip : nat) (s : string) : string * string :=
  match s with
  | String c s' =>
      match (match skip with S k => S k | O => Py.digit_len s end) with
      | S k => let (d, r) := span_digits_from k s' in (String c d, r)
      | O => (EmptyString, s)
      end
  | EmptyString => (EmptyString, EmptyString)
  end.

Definition span_digits (s : string) : string * string := span_digits_from O s.

(** The regular expression [  \[(\d+)/(\d+)\]] matched at the start of [s];
    the result is the two groups.  A greedy [\d+] followed by a character
    that is not a digit can only stop at the end of the digit run. *)
Definition match_counter_here (s : string) : option (string * string) :=
  match s with
  | String " " (String " " (String "[" s1)) =>
      match span_digits s1 with
      | (String a d1, String "/" s2) =>
          match span_digits s2 with
          | (String b d2, String "]" _) => Some (String a d1, String b d2)
          | _ => None
          end
      | _ => None
      end
  | _ => None
  end.

(** [re.search]: the leftmost match. *)
Fixpoint search_counter (s : string) : option (string * string) :=
  match match_counter_here s with
  | Some m => Some m
  | None =>
      match s with
      | String _ s' => search_counter s'
      | EmptyString => None
      end
  end.

Definition update_status (line : string) (p : progress) : progress :=
  if Py.contains "Running:" line || Py.contains "Scrape:" line
     || Py.contains "Iteration" line then
    set_progress "Starting…" false p
  else if Py.contains "Found:" line then
    set_progress "Mapping done — downloading…" false p
  else if Py.contains "→ Downloading" line then
    set_progress "Downloading…" false p
  else if Py.contains "  [" line && Py.contains "/" line && Py.contains "] " line then
    match search_counter line with
    | Some (i, n) => set_progress (i ++ "/" ++ n ++ " assets") false p
    | None => p
    end
  else if Py.contains "  Text:" line then
    let p := incr_text p in set_progress (counts_msg p) false p
  else if Py.contains "  Image:" line then
    let p := incr_images p in set_progress (counts_msg p) false p
  else if Py.contains "  PDF:" line then
    let p := incr_pdf p in set_progress (counts_msg p) false p
  else if Py.contains "Done." line then
    set_progress (counts_msg p) true p
  else p.

(** The state in which [run_scrape] leaves the status bar and its fresh
    counters. *)
Definition progress0 : progress :=
  {| state_var := "Running"; progress_var := "—";
     count_pdf := 0; count_text := 0; count_images := 0 |}.

Definition feed (lines : list string) (p : progress) : progress :=
  fold_left (fun q l => update_status l q) lines p.

(** ** Process runners: the worker threads *)

(** A child process handle, and the text of a raised exception ([str(e)]). *)
Definition proc := nat.
Definition exn := string.

Inductive outcome (A : Type) :=
| Ret (a : A)
| Raise (e : exn).
Arguments Ret {A} a.
Arguments Raise {A} e.

(** What a child writes before closing its output; [read_error] is the
    exception with which the iteration over [proc.stdout] ends, if any.  A
    child that never closes its output shows in a run as a worker thread
    that never takes its next step. *)
Record stream := {
  lines : list string;
  read_error : option exn
}.

Inductive popen_result :=
| PopenRaises (e : exn)
| PopenOk (p : proc) (stdout : stream).

(** The operating system as the GUI sees it. *)
Record os := {
  popen : list string -> popen_result;      (* subprocess.Popen(cmd, ...) *)
  terminate_raises : proc -> option exn;    (* p.terminate() *)
  shell_raises : string -> option exn;      (* subprocess.run(cmd, shell=True) *)
  abspath : string -> string                (* os.path.abspath *)
}.

(** The atomic actions of a worker thread on the objects it shares with
    the UI thread.  [Spawn] records the [Popen] call itself. *)
Inductive op :=
| Spawn (cmd : list string)
| Put (ev : option string)               (* output_queue.put(ev) *)
| SetCurrentProc (p : option proc)       (* current_proc[0] = p *)
| AppendProc (p : proc).                 (* with procs_lock: current_procs.append(p) *)

(** A thread body: the actions it performs, then a value or an exception. *)
Definition thread (A : Type) : Type := list op * outcome A.

Module Thread.

Definition ret {A} (a : A) : thread A := ([], Ret a).

Definition bind {A B} (m : thread A) (k : A -> thread B) : thread B :=
  match m with
  | (t, Ret a) => let (t', r) := k a in ((t ++ t')%list, r)
  | (t, Raise e) => (t, Raise e)
  end.

Definition raise {A} (e : exn) : thread A := ([], Raise e).

Definition emit (o : op) : thread unit := ([o], Ret tt).

(** [try: body / except Exception as e: handler e] *)
Definition try_except (body : thread unit) (handler : exn -> thread unit)
  : thread unit :=
  match body with
  | (t, Ret a) => (t, Ret a)
  | (t, Raise e) => let (t', r) := handler e in ((t ++ t')%list, r)
  end.

(** [try: body / finally: fin]: [fin] always runs; an exception of [body]
    is raised again after it unless [fin] raises itself. *)
Definition finally (body fin : thread unit) : thread unit :=
  match body, fin with
  | (t, r), (t', Ret _) => ((t ++ t')%list, r)
  | (t, _), (t', Raise e) => ((t ++ t')%list, Raise e)
  end.

Fixpoint for_each {A} (l : list A) (body : A -> thread unit) : thread unit :=
  match l with
  | [] => ret tt
  | a :: l' => bind (body a) (fun _ => for_each l' body)
  end.

(** [for line in proc.stdout: body line] *)
Definition for_lines (out : stream) (body : string -> thread unit) : thread unit :=
  bind (for_each (lines out) body)
       (fun _ => match read_error out with
                 | Some e => raise e
                 | None => ret tt
                 end).

Definition Popen (E : os) (cmd : list string) : thread (proc * stream) :=
  bind (emit (Spawn cmd))
       (fun _ => match popen E cmd with
                 | PopenRaises e => raise e
                 | PopenOk p out => ret (p, out)
                 end).

End Thread.

Declare Scope thread_scope.
Delimit Scope thread_scope with thread.
Notation "x <- m ;; k" := (Thread.bind m (fun x => k))
  (at level 61, m at next level, right associativity) : thread_scope.
Notation "m ;; k" := (Thread.bind m (fun _ => k))
  (at level 61, right associativity) : thread_scope.

(** The prefix [f"[{idx + 1}/{num_urls}] "]. *)
Definition label (idx num_urls : Z) : string :=
  "[" ++ Py.str (idx + 1) ++ "/" ++ Py.str num_urls ++ "] ".

(** [parallel_worker(idx, url)]; [cmd] is [build_cmd([url])]. *)
Definition parallel_worker (E : os) (num_urls : Z) (idx : Z) (cmd : list string)
  : thread unit :=
  Thread.finally
    (Thread.try_except
       (po <- Thread.Popen E cmd ;;
        Thread.emit (AppendProc (fst po)) ;;
        let prefix := label idx num_urls in
        Thread.for_lines (snd po)
          (fun line => Thread.emit (Put (Some (prefix ++ line)))))%thread
       (fun e =>
          Thread.emit (Put (Some (label idx num_urls ++ "Error: " ++ e ++ Py.nl)))))
    (Thread.emit (Put None)).

(** [worker()] of the sequential path. *)
Definition worker (E : os) (cmd : list string) : thread unit :=
  (Thread.finally
     (Thread.try_except
        (po <- Thread.Popen E cmd ;;
         Thread.emit (SetCurrentProc (Some (fst po))) ;;
         Thread.for_lines (snd po) (fun line => Thread.emit (Put (Some line))))
        (fun e => Thread.emit (Put (Some ("Error: " ++ e ++ Py.nl)))))
     (Thread.emit (SetCurrentProc None)) ;;
   Thread.emit (Put None))%thread.

(** ** The UI thread: shared objects, handlers and timer callbacks *)

(** The callbacks handed to [root.after]. *)
Inductive callback :=
| CbLine (l : string)   (* lambda l=line: (append_log(l), update_status(l)) *)
| CbDoneScript          (* lambda: run_done_script_async(done_script, out_dir) *)
| CbButtons             (* lambda: (stop_btn_ref.config(DISABLED), btn.config(NORMAL)) *)
| CbPollParallel        (* lambda: poll_queue_parallel(btn) *)
| CbPoll.               (* lambda: poll_queue(btn) *)

(** The objects of [main] that the handlers read and write.  The last three
    fields are histories kept for the statements: the items taken from the
    queue by [get_nowait], the [terminate()] calls and the shell commands
    run, each oldest first. *)
Record gui := {
  output_queue : list (option string);   (* FIFO, head first; [None] is the sentinel *)
  current_proc : option proc;            (* current_proc[0] *)
  current_procs : list proc;
  status : progress;
  parallel_done_count : Z;
  log_text : list string;
  scrape_btn : bool;                     (* enabled? *)
  stop_btn : bool;
  after_calls : list callback;           (* scheduled, not yet run, in due order *)
  dequeued : list (option string);
  terminate_calls : list proc;
  shell_calls : list string
}.

(** The constants a run's closures capture. *)
Record run := {
  num_urls : Z;
  done_script : string;
  out_dir : string
}.

(** A handler: a state transformer that returns or raises. *)
Definition ui (A : Type) : Type := gui -> gui * outcome A.

Module UI.

Definition ret {A} (a : A) : ui A := fun g => (g, Ret a).

Definition bind {A B} (m : ui A) (k : A -> ui B) : ui B :=
  fun g => match m g with
           | (g', Ret a) => k a g'
           | (g', Raise e) => (g', Raise e)
           end.

Definition get {A} (f : gui -> A) : ui A := fun g => (g, Ret (f g)).

Definition modify (f : gui -> gui) : ui unit := fun g => (f g, Ret tt).

(** [try: body / except Exception: pass] *)
Definition try_pass (body : ui unit) : ui unit :=
  fun g => match body g with
           | (g', _) => (g', Ret tt)
           end.

Fixpoint for_each {A} (l : list A) (body : A -> ui unit) : ui unit :=
  match l with
  | [] => ret tt
  | a :: l' => bind (body a) (fun _ => for_each l' body)
  end.

End UI.

Declare Scope ui_scope.
Delimit Scope ui_scope with ui.
Notation "x <- m ;; k" := (UI.bind m (fun x => k))
  (at level 61, m at next level, right associativity) : ui_scope.
Notation "m ;; k" := (UI.bind m (fun _ => k))
  (at level 61, right associativity) : ui_scope.

(** Field updates. *)
Definition with_queue (q : list (option string)) (g : gui) : gui :=
  {| output_queue := q; current_proc := current_proc g;
     current_procs := current_procs g; status := status g;
     parallel_done_count := parallel_done_count g; log_text := log_text g;
     scrape_btn := scrape_btn g; stop_btn := stop_btn g;
     after_calls := after_calls g; dequeued := dequeued g;
     terminate_calls := terminate_calls g; shell_calls := shell_calls g |}.

Definition with_current_proc (p : option proc) (g : gui) : gui :=
  {| output_queue := output_queue g; current_proc := p;
     current_procs := current_procs g; status := status g;
     parallel_done_count := parallel_done_count g; log_text := log_text g;
     scrape_btn := scrape_btn g; stop_btn := stop_btn g;
     after_calls := after_calls g; dequeued := dequeued g;
     terminate_calls := terminate_calls g; shell_calls := shell_calls g |}.

Definition with_current_procs (ps : list proc) (g : gui) : gui :=
  {| output_queue := output_queue g; current_proc := current_proc g;
     current_procs := ps; status := status g;
     parallel_done_count := parallel_done_count g; log_text := log_text g;
     scrape_btn := scrape_btn g; stop_btn := stop_btn g;
     after_calls := after_calls g; dequeued := dequeued g;
     terminate_calls := terminate_calls g; shell_calls := shell_calls g |}.

Definition with_status (p : progress) (g : gui) : gui :=
  {| output_queue := output_queue g; current_proc := current_proc g;
     current_procs := current_procs g; status := p;
     parallel_done_count := parallel_done_count g; log_text := log_text g;
     scrape_btn := scrape_btn g; stop_btn := stop_btn g;
     after_calls := after_calls g; dequeued := dequeued g;
     terminate_calls := terminate_calls g; shell_calls := shell_calls g |}.

Definition with_done_count (n : Z) (g : gui) : gui :=
  {| output_queue := output_queue g; current_proc := current_proc g;
     current_procs := current_procs g; status := status g;
     parallel_done_count := n; log_text := log_text g;
     scrape_btn := scrape_btn g; stop_btn := stop_btn g;
     after_calls := after_calls g; dequeued := dequeued g;
     terminate_calls := terminate_calls g; shell_calls := shell_calls g |}.

Definition with_log (l : list string) (g : gui) : gui :=
  {| output_queue := output_queue g; current_proc := current_proc g;
     current_procs := current_procs g; status := status g;
     parallel_done_count := parallel_done_count g; log_text := l;
     scrape_btn := scrape_btn g; stop_btn := stop_btn g;
     after_calls := after_calls g; dequeued := dequeued g;
     terminate_calls := terminate_calls g; shell_calls := shell_calls g |}.

Definition with_buttons (scrape stop : bool) (g : gui) : gui :=
  {| output_queue := output_queue g; current_proc := current_proc g;
     current_procs := current_procs g; status := status g;
     parallel_done_count := parallel_done_count g; log_text := log_text g;
     scrape_btn := scrape; stop_btn := stop;
     after_calls := after_calls g; dequeued := dequeued g;
     terminate_calls := terminate_calls g; shell_calls := shell_calls g |}.

Definition with_after (cs : list callback) (g : gui) : gui :=
  {| output_queue := output_queue g; current_proc := current_proc g;
     current_procs := current_procs g; status := status g;
     parallel_done_count := parallel_done_count g; log_text := log_text g;
     scrape_btn := scrape_btn g; stop_btn := stop_btn g;
     after_calls := cs; dequeued := dequeued g;
     terminate_calls := terminate_calls g; shell_calls := shell_calls g |}.

Definition with_dequeued (d : list (option string)) (g : gui) : gui :=
  {| output_queue := output_queue g; current_proc := current_proc g;
     current_procs := current_procs g; status := status g;
     parallel_done_count := parallel_done_count g; log_text := log_text g;
     scrape_btn := scrape_btn g; stop_btn := stop_btn g;
     after_calls := after_calls g; dequeued := d;
     terminate_calls := terminate_calls g; shell_calls := shell_calls g |}.

Definition with_terminate_calls (t : list proc) (g : gui) : gui :=
  {| output_queue := output_queue g; current_proc := current_proc g;
     current_procs := current_procs g; status := status g;
     parallel_done_count := parallel_done_count g; log_text := log_text g;
     scrape_btn := scrape_btn g; stop_btn := stop_btn g;
     after_calls := after_calls g; dequeued := dequeued g;
     terminate_calls := t; shell_calls := shell_calls g |}.

Definition with_shell_calls (c : list string) (g : gui) : gui :=
  {| output_queue := output_queue g; current_proc := current_proc g;
     current_procs := current_procs g; status := status g;
     parallel_done_count := parallel_done_count g; log_text := log_text g;
     scrape_btn := scrape_btn g; stop_btn := stop_btn g;
     after_calls := after_calls g; dequeued := dequeued g;
     terminate_calls := terminate_calls g; shell_calls := c |}.

(** [output_queue.put(ev)]: the queue is unbounded, so this never blocks
    or raises. *)
Definition put (ev : option string) (g : gui) : gui :=
  with_queue (output_queue g ++ [ev]) g.

(** [root.after(_, cb)] *)
Definition after (cb : callback) (g : gui) : gui :=
  with_after (after_calls g ++ [cb]) g.

Definition append_log (line : string) (g : gui) : gui :=
  with_log (log_text g ++ [line]) g.

(** [p.terminate()] *)
Definition terminate (E : os) (p : proc) : ui unit :=
  fun g => (with_terminate_calls (terminate_calls g ++ [p]) g,
            match terminate_raises E p with
            | Some e => Raise e
            | None => Ret tt
            end).

(** [subprocess.run(cmd, shell=True, check=False)] *)
Definition shell_run (E : os) (cmd : string) : ui unit :=
  fun g => (with_shell_calls (shell_calls g ++ [cmd]) g,
            match shell_raises E cmd with
            | Some e => Raise e
            | None => Ret tt
            end).

(** [run_done_script_async(script, out)] *)
Definition run_done_script_async (E : os) (script out : string) : ui unit :=
  if negb (nonblank script) then UI.ret tt
  else
    let cmd := Py.replace "{out_dir}" (abspath E out) (Py.strip script) in
    UI.try_pass (shell_run E cmd).

(** [do_stop()] *)
Definition do_stop (E : os) : ui unit :=
  (procs <- UI.get current_procs ;;
   UI.modify (with_current_procs []) ;;
   UI.for_each procs (fun p => UI.try_pass (terminate E p)) ;;
   cp <- UI.get current_proc ;;
   match cp with
   | Some p =>
       UI.try_pass (terminate E p) ;;
       UI.modify (put None)
   | None => UI.ret tt
   end ;;
   UI.modify (fun g =>
     with_status {| state_var := "Stopped"; progress_var := "—";
                    count_pdf := count_pdf (status g);
                    count_text := count_text (status g);
                    count_images := count_images (status g) |} g))%ui.

(** The loop of [poll_queue]: [get_nowait] until the queue is empty or the
    sentinel is taken.  [q] is the content of the queue, which the loop
    consumes; the result tells whether the sentinel was seen. *)
Fixpoint poll_loop (q : list (option string)) (g : gui) : gui * bool :=
  match q with
  | [] => (g, false)
  | ev :: q' =>
      let g := with_dequeued (dequeued g ++ [ev]) (with_queue q' g) in
      match ev with
      | None => (g, true)
      | Some line => poll_loop q' (after (CbLine line) g)
      end
  end.

Definition poll_queue : ui unit :=
  fun g =>
    let (g', saw_done) := poll_loop (output_queue g) g in
    (if saw_done then after CbButtons g' else after CbPoll g', Ret tt).

(** The loop of [poll_queue_parallel]. *)
Fixpoint poll_loop_parallel (n : Z) (q : list (option string)) (g : gui) : gui :=
  match q with
  | [] => g
  | ev :: q' =>
      let g := with_dequeued (dequeued g ++ [ev]) (with_queue q' g) in
      match ev with
      | None =>
          let g := with_done_count (parallel_done_count g + 1) g in
          if parallel_done_count g >=? n then g else poll_loop_parallel n q' g
      | Some line => poll_loop_parallel n q' (after (CbLine line) g)
      end
  end.

Definition poll_queue_parallel (R : run) : ui unit :=
  fun g =>
    let g := poll_loop_parallel (num_urls R) (output_queue g) g in
    if parallel_done_count g >=? num_urls R then
      (after CbButtons
         (if nonblank (done_script R) then after CbDoneScript g else g), Ret tt)
    else (after CbPollParallel g, Ret tt).

Definition run_callback (E : os) (R : run) (cb : callback) : ui unit :=
  match cb with
  | CbLine l =>
      UI.modify (fun g => with_status (update_status l (status g)) (append_log l g))
  | CbDoneScript => run_done_script_async E (done_script R) (out_dir R)
  | CbButtons => UI.modify (with_buttons true false)
  | CbPollParallel => poll_queue_parallel R
  | CbPoll => poll_queue
  end.

Definition log_size_filter (w : widgets) (g : gui) : gui :=
  let parts := ((if size_small_var w then ["Small (< 100 KB)"] else [])
                ++ (if size_medium_var w then ["Medium (100 KB–1 MB)"] else [])
                ++ (if size_large_var w then ["Large (> 1 MB)"] else []))%list in
  append_log ("Size: " ++ (if truthy parts then Py.join ", " parts else "none")
              ++ Py.nl) g.

Definition idle : progress :=
  {| state_var := "Idle"; progress_var := "—";
     count_pdf := 0; count_text := 0; count_images := 0 |}.

(** [run_scrape]: the new state of the UI thread, the bodies of the threads
    it starts and the constants its closures capture.  Saving the URLs to
    disk is left out.  The call of the poll function that ends [run_scrape]
    runs while the threads just started already run, so it is kept as the
    next action of the UI thread, ahead of the scheduled callbacks. *)
Definition run_scrape (E : os) (w : widgets)
  : ui (list (thread unit) * option run) :=
  fun g =>
    if negb (truthy (urls w)) then
      (append_log ("Error: At least one URL is required." ++ Py.nl) g, Ret ([], None))
    else
      let g := with_status progress0 (with_buttons false (stop_btn g) g) in
      if negb (truthy (selected_types (type_pdf_var w) (type_text_var w)
                                      (type_images_var w))) then
        (with_buttons true (stop_btn g)
           (with_status idle
              (append_log ("Error: Select at least one file type." ++ Py.nl) g)),
         Ret ([], None))
      else
        match common_args w with
        | None => (g, Raise "ValueError")
        | Some common =>
            let n := Z.of_nat (List.length (urls w)) in
            let R := {| num_urls := n; done_script := done_script_of w;
                        out_dir := out_dir_of w |} in
            match launch_of w common with
            | Parallel cmds =>
                let g := with_done_count 0 (with_current_procs [] g) in
                let g := log_size_filter w g in
                let g := append_log ("Running " ++ Py.str n ++ " URLs in parallel."
                                     ++ Py.nl ++ Py.nl) g in
                let g := with_buttons (scrape_btn g) true g in
                (with_after (CbPollParallel :: after_calls g) g,
                 Ret (map (fun ic => parallel_worker E n (fst ic) (snd ic)) cmds,
                      Some R))
            | Sequential cmd =>
                let g := log_size_filter w g in
                let g := append_log ("Running: " ++ Py.join " " cmd
                                     ++ Py.nl ++ Py.nl) g in
                let g := with_buttons (scrape_btn g) true g in
                (with_after (CbPoll :: after_calls g) g,
                 Ret ([worker E cmd], Some R))
            end
        end.

(** ** The running system: UI thread and worker threads interleaved *)

(** What a worker thread does to the shared objects. *)
Definition apply_op (o : op) (g : gui) : gui :=
  match o with
  | Spawn _ => g
  | Put ev => put ev g
  | SetCurrentProc p => with_current_proc p g
  | AppendProc p => with_current_procs (current_procs g ++ [p]) g
  end.

Definition apply_ops (t : list op) (g : gui) : gui :=
  fold_left (fun g o => apply_op o g) t g.

(** The UI state and what each worker thread still has to do. *)
Record sys := {
  ui_st : gui;
  threads : list (list op)
}.

(** One step of a run with closure constants [R]: a worker performs its
    next action, the UI thread runs its next callback, or the user presses
    Stop.  A poll is one step: items put while it drains the queue are
    either seen by it, as if put before, or not, as if put after. *)
Inductive step (E : os) (R : run) : sys -> sys -> Prop :=
| step_thread : forall g ts1 o rest ts2,
    step E R {| ui_st := g; threads := ts1 ++ (o :: rest) :: ts2 |}
             {| ui_st := apply_op o g; threads := ts1 ++ rest :: ts2 |}
| step_callback : forall g ts cb cs,
    after_calls g = cb :: cs ->
    step E R {| ui_st := g; threads := ts |}
             {| ui_st := fst (run_callback E R cb (with_after cs g)); threads := ts |}
| step_stop : forall g ts,
    step E R {| ui_st := g; threads := ts |}
             {| ui_st := fst (do_stop E g); threads := ts |}.

Inductive steps (E : os) (R : run) : sys -> sys -> Prop :=
| steps_refl : forall s, steps E R s s
| steps_snoc : forall s s' s'', steps E R s s' -> step E R s' s'' -> steps E R s s''.

(** The number of sentinels in a list of queue items. *)
Definition sentinels (l : list (option string)) : Z :=
  Z.of_nat (List.length (filter is_None l)).

(** The items a thread body puts on the queue, in order. *)
Fixpoint puts (t : list op) : list (option string) :=
  match t with
  | [] => []
  | Put ev :: t' => ev :: puts t'
  | _ :: t' => puts t'
  end.

(** The commands a thread body spawns. *)
Fixpoint spawns (t : list op) : list (list string) :=
  match t with
  | [] => []
  | Spawn cmd :: t' => cmd :: spawns t'
  | _ :: t' => spawns t'
  end.

(** ** The rules as the specification words them *)

Module Spec.

(** The three size ranges with their byte boundaries: Small [0, 100 KiB),
    Medium [100 KiB, 1 MiB], Large [1 MiB, unbounded). *)
Inductive size_range := Small | Medium | Large.

Definition lower (r : size_range) : Z :=
  match r with
  | Small => 0
  | Medium => 100 * 1024
  | Large => 1024 * 1024
  end.

Definition upper (r : size_range) : option Z :=
  match r with
  | Small => Some (100 * 1024)
  | Medium => Some (1024 * 1024)
  | Large => None
  end.

Definition selection (small medium large : bool) : list size_range :=
  ((if small then [Small] else [])
   ++ (if medium then [Medium] else [])
   ++ (if large then [Large] else []))%list.

(** [lo] is the smallest selected lower bound. *)
Definition smallest_lower (sel : list size_range) (lo : Z) : Prop :=
  (exists r, In r sel /\ lower r = lo) /\ (forall r, In r sel -> lo <= lower r).

(** [hi] is unbounded if Large is selected, and the largest selected upper
    bound otherwise. *)
Definition largest_upper (sel : list size_range) (hi : option Z) : Prop :=
  match hi with
  | None => In Large sel
  | Some h =>
      ~ In Large sel
      /\ (exists r, In r sel /\ upper r = Some h)
      /\ (forall r b, In r sel -> upper r = Some b -> b <= h)
  end.

(** Multiples of 1 MiB as [<n>m], multiples of 1 KiB as [<n>k], else raw
    digits. *)
Definition size_to_arg (n : Z) : string :=
  if n mod (1024 * 1024) =? 0 then Py.str (n / (1024 * 1024)) ++ "m"
  else if n mod 1024 =? 0 then Py.str (n / 1024) ++ "k"
  else Py.str n.

(** The argument pair for the interval [lo, hi]: no lower bound when it is
    0, no upper bound when it is unbounded. *)
Definition size_args (lo : Z) (hi : option Z) : list string :=
  ((if lo =? 0 then [] else ["--min-image-size"; size_to_arg lo])
   ++ match hi with
      | Some h => ["--max-image-size"; size_to_arg h]
      | None => []
      end)%list.

(** The supported content types, and a strict subset of them. *)
Definition all_types : list string := ["pdf"; "text"; "images"].

Definition strict_subset (sel : list string) : Prop :=
  incl sel all_types /\ exists t, In t all_types /\ ~ In t sel.

(** The eight patterns of the progress interpreter, in priority order. *)
Inductive pattern :=
| MappingStart
| DiscoveryDone
| DownloadBegins
| Counter (i n : string)
| SavedText
| SavedImage
| SavedPdf
| DoneMarker.

(** First match wins; pattern 4 is a line that contains a counter token. *)
Definition classify (line : string) : option pattern :=
  if Py.contains "Running:" line || Py.contains "Scrape:" line
     || Py.contains "Iteration" line then Some MappingStart
  else if Py.contains "Found:" line then Some DiscoveryDone
  else if Py.contains "→ Downloading" line then Some DownloadBegins
  else
    match search_counter line with
    | Some (i, n) => Some (Counter i n)
    | None =>
        if Py.contains "  Text:" line then Some SavedText
        else if Py.contains "  Image:" line then Some SavedImage
        else if Py.contains "  PDF:" line then Some SavedPdf
        else if Py.contains "Done." line then Some DoneMarker
        else None
    end.

Definition apply (o : option pattern) (p : progress) : progress :=
  match o with
  | Some MappingStart => set_progress "Starting…" false p
  | Some DiscoveryDone => set_progress "Mapping done — downloading…" false p
  | Some DownloadBegins => set_progress "Downloading…" false p
  | Some (Counter i n) => set_progress (i ++ "/" ++ n ++ " assets") false p
  | Some SavedText => let p := incr_text p in set_progress (counts_msg p) false p
  | Some SavedImage => let p := incr_images p in set_progress (counts_msg p) false p
  | Some SavedPdf => let p := incr_pdf p in set_progress (counts_msg p) false p
  | Some DoneMarker => set_progress (counts_msg p) true p
  | None => p
  end.

Definition update_status (line : string) (p : progress) : progress :=
  apply (classify line) p.

End Spec.

(** The pre-check of the fourth branch of [update_status]. *)
Definition counter_precheck (line : string) : bool :=
  Py.contains "  [" line && Py.contains "/" line && Py.contains "] " line.

(** The error line of a worker, present when reading the output raised. *)
Definition error_line (prefix : string) (err : option exn) : list op :=
  match err with
  | Some e => [Put (Some (prefix ++ "Error: " ++ e ++ Py.nl))]
  | None => []
  end.

(** The lines a worker puts before its sentinel. *)
Definition worker_lines (prefix : string) (r : popen_result) : list string :=
  match r with
  | PopenRaises e => [prefix ++ "Error: " ++ e ++ Py.nl]
  | PopenOk _ out =>
      (map (fun line => (prefix ++ line)%string) (lines out)
       ++ match read_error out with
          | Some e => [(prefix ++ "Error: " ++ e ++ Py.nl)%string]
          | None => []
          end)%list
  end.

(** The constants that the closures of a run of [run_scrape] capture. *)
Definition run_of (w : widgets) : run :=
  {| num_urls := Z.of_nat (List.length (urls w));
     done_script := done_script_of w;
     out_dir := out_dir_of w |}.

(** The number of scheduled done-script callbacks. *)
Definition is_done_script (cb : callback) : bool :=
  match cb with CbDoneScript => true | _ => false end.

Definition pending_scripts (cs : list callback) : nat :=
  List.length (filter is_done_script cs).

(** The worker threads that the parallel branch of [run_scrape] starts. *)
Definition parallel_workers (E : os) (w : widgets) (common : list string)
  : list (thread unit) :=
  map (fun ic => parallel_worker E (Z.of_nat (List.length (urls w))) (fst ic) (snd ic))
      (map (fun iu => (fst iu, build_cmd w common [snd iu] false))
           (enumerate (urls w))).

(** The status bar as [do_stop] leaves it. *)
Definition stopped (g : gui) : progress :=
  {| state_var := "Stopped"; progress_var := "—";
     count_pdf := count_pdf (status g);
     count_text := count_text (status g);
     count_images := count_images (status g) |}.

(** The shell command that [run_done_script_async] runs for a run. *)
Definition script_cmd (E : os) (R : run) : string :=
  Py.replace "{out_dir}" (abspath E (out_dir R)) (Py.strip (done_script R)).

(** The completion callbacks that the last poll of a parallel run
    schedules. *)
Definition completion_calls (R : run) : list callback :=
  ((if nonblank (done_script R) then [CbDoneScript] else []) ++ [CbButtons])%list.


(** The states of a parallel run, relative to the histories [d0] and [sh0]
    at its launch: [d] is what the run has taken from the queue. *)
Inductive run_phase (E : os) (R : run) (sh0 : list string) (d : list (option string))
  (g : gui) : Prop :=
| Polling (ls : list string) :
    sentinels d < num_urls R ->
    after_calls g = (map CbLine ls ++ [CbPollParallel])%list ->
    scrape_btn g = false ->
    shell_calls g = sh0 ->
    run_phase E R sh0 d g
| Completed (ls : list string) :
    sentinels d = num_urls R ->
    after_calls g = (map CbLine ls ++ completion_calls R)%list ->
    scrape_btn g = false ->
    shell_calls g = sh0 ->
    run_phase E R sh0 d g
| ScriptRun :
    sentinels d = num_urls R ->
    nonblank (done_script R) = true ->
    after_calls g = [CbButtons] ->
    scrape_btn g = false ->
    shell_calls g = (sh0 ++ [script_cmd E R])%list ->
    run_phase E R sh0 d g
| Finished :
    sentinels d = num_urls R ->
    after_calls g = [] ->
    scrape_btn g = true ->
    stop_btn g = false ->
    shell_calls g
    = (sh0 ++ if nonblank (done_script R) then [script_cmd E R] else [])%list ->
    run_phase E R sh0 d g.

Definition run_inv (E : os) (R : run) (d0 : list (option string))
    (sh0 : list string) (g : gui) : Prop :=
  exists d,
    dequeued g = (d0 ++ d)%list
    /\ parallel_done_count g = sentinels d
    /\ run_phase E R sh0 d g.

(** An operating system and a UI state used to instantiate the statements
    below: spawning an empty command fails, any other child writes two
    lines; the done script fails. *)
Definition sample_os : os :=
  {| popen := fun cmd =>
       match cmd with
       | [] => PopenRaises "no command"
       | _ => PopenOk 7%nat {| lines := ["Found: 1 items" ++ Py.nl;
                                         "  PDF: a.pdf" ++ Py.nl];
                               read_error := None |}
       end;
     terminate_raises := fun _ => Some "ProcessLookupError";
     shell_raises := fun _ => Some "OSError";
     abspath := fun p => "/home/u/" ++ p |}.

Definition fresh_gui : gui :=
  {| output_queue := []; current_proc := None; current_procs := [];
     status := idle; parallel_done_count := 0; log_text := [];
     scrape_btn := true; stop_btn := false; after_calls := [];
     dequeued := []; terminate_calls := []; shell_calls := [] |}.

(** A configuration used to instantiate the statements below. *)
Definition sample_widgets : widgets :=
  {| urls := ["http://a"; "http://b"];
     urls_mode_var := "parallel";
     out_var := "out";
     done_script_var := " notify {out_dir} ";
     type_pdf_var := true;
     type_text_var := false;
     type_images_var := true;
     size_small_var := false;
     size_medium_var := true;
     size_large_var := true;
     delay_var := Some "0.5";
     depth_var := Some 2;
     workers_var := Some 4;
     js_var := true;
     flaresolverr_var := false;
     flaresolverr_url_var := "";
     crawl_var := true;
     same_domain_var := true;
     keep_awake_var := false;
     base_cmd := ["python"; "-m"; "strigil.cli"] |}.

(** ** Auxiliary notions for the further properties *)

(** Every character of [s] satisfies [P]. *)
Fixpoint all_chars (P : ascii -> bool) (s : string) : bool :=
  match s with
  | EmptyString => true
  | String c s' => P c && all_chars P s'
  end.

(** [d] is the text of one decimal digit. *)
Definition is_digit (d : string) : bool :=
  ((0 <? String.length d) && (Py.digit_len d =? String.length d))%nat.

(** A run of decimal digits. *)
Inductive decimal_run : string -> Prop :=
| run_nil : decimal_run EmptyString
| run_cons : forall d s,
    is_digit d = true -> decimal_run s -> decimal_run (d ++ s).

(** A character of a decimal rendering: a digit or the minus sign. *)
Definition is_decimal_char (c : ascii) : bool :=
  Py.isdigit c || Ascii.eqb c "-".

(** The flags of the crawl group of [common_args]. *)
Definition crawl_flags : list string :=
  ["--crawl"; "--max-depth"; "--workers"; "--same-domain-only"].

(** The sum of the three counters of the status bar. *)
Definition total (p : progress) : Z := count_pdf p + count_text p + count_images p.






(** ** The last-used URLs file: [_load_last_urls] and [_save_last_urls] *)

Module LastUrls.

Definition CR : ascii := ascii_of_nat 13.
Definition LF : ascii := ascii_of_nat 10.

(** What a text-mode write does to the line feeds: on Windows each becomes
    a carriage return and a line feed. *)
Fixpoint encode_newlines (windows : bool) (s : string) : string :=
  match s with
  | EmptyString => EmptyString
  | String c s' =>
      if windows && Ascii.eqb c LF
      then String CR (String LF (encode_newlines windows s'))
      else String c (encode_newlines windows s')
  end.

(** What a text-mode read does: a carriage return, with the line feed that
    follows it if there is one, becomes a line feed. *)
Fixpoint universal_newlines (s : string) : string :=
  match s with
  | EmptyString => EmptyString
  | String c s' =>
      if Ascii.eqb c CR then
        match s' with
        | String d s'' =>
            if Ascii.eqb d LF then String LF (universal_newlines s'')
            else String LF (universal_newlines s')
        | EmptyString => String LF EmptyString
        end
      else String c (universal_newlines s')
  end.

(** The file [~/.strigil/last_urls.txt]: absent, present but raising
    [OSError] when read, present with bytes that are not UTF-8, or present
    with the given content. *)
Inductive file_state :=
| Absent
| Unreadable
| Undecodable
| Present (content : string).

Definition default_url : string := "https://example.com".

(** [_load_last_urls()]: [OSError] is caught; a decoding error is a
    [ValueError] and escapes. *)
Definition _load_last_urls (f : file_state) : outcome string :=
  match f with
  | Absent => Ret default_url
  | Unreadable => Ret default_url
  | Undecodable => Raise "UnicodeDecodeError"
  | Present content =>
      let text := Py.strip (universal_newlines content) in
      if nonblank text then Ret text else Ret default_url
  end.

(** How the attempt to create the directory and write the file ends: it
    succeeds, or it raises [OSError] and leaves the file in some state. *)
Inductive write_outcome :=
| WriteOk
| WriteFails (remains : file_state).

(** [_save_last_urls(text)]: the new state of the file; nothing is
    raised. *)
Definition _save_last_urls (windows : bool) (wr : write_outcome) (text : string)
    (f : file_state) : file_state :=
  if negb (nonblank text) || negb (nonblank (Py.strip text)) then f
  else
    match wr with
    | WriteOk => Present (encode_newlines windows (Py.strip text))
    | WriteFails remains => remains
    end.

Definition no_cr (c : ascii) : bool := negb (Ascii.eqb c CR).

End LastUrls.

(** ** [apply_suggested] *)

(** The callback of the "Suggest likely choices" checkbox; [0.5] is the
    delay it sets, as [run_scrape] renders it. *)
Definition apply_suggested (suggest_var : bool) (w : widgets) : widgets :=
  if negb suggest_var then w
  else
    {| urls := urls w;
       urls_mode_var := urls_mode_var w;
       out_var := out_var w;
       done_script_var := done_script_var w;
       type_pdf_var := true;
       type_text_var := true;
       type_images_var := true;
       size_small_var := false;
       size_medium_var := true;
       size_large_var := true;
       delay_var := Some "0.5";
       depth_var := Some 2;
       workers_var := workers_var w;
       js_var := true;
       flaresolverr_var := flaresolverr_var w;
       flaresolverr_url_var := flaresolverr_url_var w;
       crawl_var := true;
       same_domain_var := true;
       keep_awake_var := keep_awake_var w;
       base_cmd := base_cmd w |}.

(** ** Dependency checks: [web_scraper/_deps.py] *)

Module Deps.

Definition AUTO_INSTALL_ENV : string := "BASIC_SCRAPER_AUTO_INSTALL_DEPS".

Definition REQUIRED : list (string * string) :=
  [("httpx", "httpx"); ("bs4", "beautifulsoup4"); ("lxml", "lxml")].

Definition OPTIONAL : list (string * string) :=
  [("playwright", "playwright"); ("tqdm", "tqdm");
   ("readability", "readability-lxml")].

Definition INSTALL_CMD : string := "pip install basic-scraper".
Definition INSTALL_CMD_SOURCE : string := "pip install -e .".
Definition OPTIONAL_EXTRAS : string :=
  "pip install basic-scraper[js,progress,readability]".

(** The exceptions the module distinguishes; [sys.exit(code)] raises
    [SystemExit]; [Other] is any exception no handler of the module names. *)
Inductive exc :=
| CalledProcessError (msg : string)
| FileNotFoundError (msg : string)
| TimeoutExpired
| SystemExit (code : Z)
| Other (msg : string).

(** How a child process ends: exit status 0, another exit status, the
    executable is missing, or [subprocess.run] raises something else.  The
    texts are those of [str(e)]. *)
Inductive exit_outcome :=
| Exit0
| ExitNonZero (msg : string)
| NotFound (msg : string)
| Crash (msg : string).

(** The process environment. *)
Record env := {
  importable : string -> bool;              (* _import(name) *)
  environ : string -> option string;        (* os.environ.get *)
  executable : string;                      (* sys.executable *)
  run_process : list string -> exit_outcome;
  exceeds_timeout : list string -> bool     (* runs for more than 300 s *)
}.

Inductive result (A : Type) :=
| Returns (a : A)
| Raises (e : exc).
Arguments Returns {A} a.
Arguments Raises {A} e.

(** What the module has written to the standard error stream and the
    commands it has run, oldest first. *)
Record trace := {
  stderr : list string;
  ran : list (list string)
}.

Definition prog (A : Type) : Type := trace -> trace * result A.

Definition ret {A} (a : A) : prog A := fun t => (t, Returns a).

Definition bind {A B} (m : prog A) (k : A -> prog B) : prog B :=
  fun t => match m t with
           | (t', Returns a) => k a t'
           | (t', Raises e) => (t', Raises e)
           end.

Definition raise {A} (e : exc) : prog A := fun t => (t, Raises e).

(** [sys.exit(code)] *)
Definition exit {A} (code : Z) : prog A := raise (SystemExit code).

(** [print(line, file=sys.stderr)] *)
Definition print (line : string) : prog unit :=
  fun t => ({| stderr := (stderr t ++ [line])%list; ran := ran t |}, Returns tt).

(** [try: body / except <the exceptions that catches accepts> as e: handler e] *)
Definition try_except {A} (body : prog A) (catches : exc -> bool)
    (handler : exc -> prog A) : prog A :=
  fun t => match body t with
           | (t', Returns a) => (t', Returns a)
           | (t', Raises e) => if catches e then handler e t' else (t', Raises e)
           end.

Definition started (cmd : list string) : prog unit :=
  fun t => ({| stderr := stderr t; ran := (ran t ++ [cmd])%list |}, Returns tt).

(** [subprocess.run(cmd, check=True)] *)
Definition run_checked (E : env) (cmd : list string) : prog unit :=
  bind (started cmd)
       (fun _ => match run_process E cmd with
                 | Exit0 => ret tt
                 | ExitNonZero msg => raise (CalledProcessError msg)
                 | NotFound msg => raise (FileNotFoundError msg)
                 | Crash msg => raise (Other msg)
                 end).

(** [subprocess.run(cmd, capture_output=True, timeout=300)]: the exit
    status is not checked. *)
Definition run_with_timeout (E : env) (cmd : list string) : prog unit :=
  bind (started cmd)
       (fun _ => match run_process E cmd with
                 | NotFound msg => raise (FileNotFoundError msg)
                 | Crash msg => raise (Other msg)
                 | Exit0 | ExitNonZero _ =>
                     if exceeds_timeout E cmd then raise TimeoutExpired else ret tt
                 end).

(** [str(e)] *)
Definition message (e : exc) : string :=
  match e with
  | CalledProcessError msg | FileNotFoundError msg | Other msg => msg
  | TimeoutExpired => "TimeoutExpired"
  | SystemExit code => Py.str code
  end.

(** [s.lower()] on the ASCII letters.  No other letter lowers to a string
    of the three accepted values. *)
Definition lower_char (c : ascii) : ascii :=
  let n := nat_of_ascii c in
  if ((65 <=? n) && (n <=? 90))%nat then ascii_of_nat (n + 32) else c.

Fixpoint lower (s : string) : string :=
  match s with
  | EmptyString => EmptyString
  | String c s' => String (lower_char c) (lower s')
  end.

(** [os.environ.get(AUTO_INSTALL_ENV, "").lower() in ("1", "true", "yes")] *)
Definition opted_in (E : env) : bool :=
  let v := lower (match environ E AUTO_INSTALL_ENV with
                  | Some v => v
                  | None => EmptyString
                  end) in
  existsb (String.eqb v) ["1"; "true"; "yes"].

(** [[pip_name for mod_name, pip_name in table if not _import(mod_name)]] *)
Definition missing_of (E : env) (table : list (string * string)) : list string :=
  map snd (filter (fun mp => negb (importable E (fst mp))) table).

Definition pip_install (E : env) (missing : list string) : list string :=
  ([executable E; "-m"; "pip"; "install"; "-q"] ++ missing)%list.

Definition is_install_failure (e : exc) : bool :=
  match e with
  | CalledProcessError _ | FileNotFoundError _ => true
  | _ => false
  end.

Definition is_browser_failure (e : exc) : bool :=
  match e with
  | CalledProcessError _ | FileNotFoundError _ | TimeoutExpired => true
  | _ => false
  end.

Declare Scope deps_scope.
Delimit Scope deps_scope with deps.
Notation "m ;; k" := (bind m (fun _ => k))
  (at level 61, right associativity) : deps_scope.

(** [_try_auto_install(missing)] *)
Definition _try_auto_install (E : env) (missing : list string) : prog bool :=
  if negb (opted_in E) then ret false
  else
    (print "Auto-installing dependencies..." ;;
     try_except
       (run_checked E (pip_install E missing) ;;
        print "Dependencies installed. Run the command again." ;;
        exit 0)
       is_install_failure
       (fun e =>
          print ("Auto-install failed: " ++ message e ++ ". Install manually.") ;;
          exit 1))%deps.

(** [check_required()] *)
Definition check_required (E : env) : prog bool :=
  let missing := missing_of E REQUIRED in
  if negb (truthy missing) then ret true
  else
    (_try_auto_install E missing ;;
     print "Missing required dependencies." ;;
     print "" ;;
     print "  Install from PyPI:" ;;
     print ("    " ++ INSTALL_CMD) ;;
     print "" ;;
     print "  Or install from source (project directory):" ;;
     print ("    " ++ INSTALL_CMD_SOURCE) ;;
     print "" ;;
     print "  Or set env to auto-install and re-run:" ;;
     print ("    " ++ AUTO_INSTALL_ENV ++ "=1 scrape --url ...") ;;
     print "" ;;
     print ("  Missing: " ++ Py.join ", " missing) ;;
     exit 1)%deps.

Definition playwright_install (E : env) : list string :=
  [executable E; "-m"; "playwright"; "install"].

(** [_try_auto_install_optional()] *)
Definition _try_auto_install_optional (E : env) : prog unit :=
  if negb (opted_in E) then ret tt
  else
    let missing := missing_of E OPTIONAL in
    if negb (truthy missing) then ret tt
    else
      (print "Auto-installing optional dependencies..." ;;
       try_except
         (run_checked E (pip_install E missing) ;;
          if existsb (String.eqb "playwright") missing
          then
            try_except
              (run_with_timeout E (playwright_install E))
              is_browser_failure
              (fun _ =>
                 print "Playwright browsers: run 'playwright install' if you need JS rendering.")
          else ret tt)
         is_install_failure
         (fun e =>
            print ("Auto-install optional failed: " ++ message e
                   ++ ". Install manually: " ++ OPTIONAL_EXTRAS)))%deps.

(** [ensure_optional()] *)
Definition ensure_optional (E : env) : prog unit := _try_auto_install_optional E.


(** An environment used to instantiate the statements below: [lxml] and
    [playwright] are missing, installing is opted in and succeeds. *)
Definition sample_env : env :=
  {| importable := fun m => negb (String.eqb m "lxml" || String.eqb m "playwright");
     environ := fun k => if String.eqb k AUTO_INSTALL_ENV then Some "TRUE" else None;
     executable := "python";
     run_process := fun _ => Exit0;
     exceeds_timeout := fun _ => true |}.

Definition empty_trace : trace := {| stderr := []; ran := [] |}.

End Deps.

(** ** The window of the basic scraper: [web_scraper/gui.py] *)

Module WebScraper.

(** What [run_scrape] reads.  [delay_var] is [str(delay)] for the float read
    from the spin box and [None] when reading it raises; [depth_var] is
    [None] when [int(...)] raises.  [frozen] is [getattr(sys, "frozen",
    False)], [executable] is [sys.executable] and [scrape_bin] the path
    that [os.path.join] returns for the bundled binary. *)
Record widgets := {
  url_var : string;
  out_var : string;
  type_pdf_var : bool;
  type_text_var : bool;
  type_images_var : bool;
  size_small_var : bool;
  size_medium_var : bool;
  size_large_var : bool;
  delay_var : option string;
  depth_var : option Z;
  crawl_var : bool;
  same_domain_var : bool;
  frozen : bool;
  executable : string;
  scrape_bin : string
}.

(** The callbacks handed to [root.after]. *)
Inductive callback :=
| CbLine (l : string)   (* lambda l=line: append_log(l) *)
| CbButton              (* lambda: btn.config(state=tk.NORMAL) *)
| CbPoll.               (* lambda: poll_queue(btn) *)

(** The objects of [main] that [run_scrape] and its closures read and
    write. *)
Record window := {
  output_queue : list (option string);   (* FIFO, head first; [None] is the sentinel *)
  log_text : list string;
  scrape_btn : bool;                     (* enabled? *)
  after_calls : list callback            (* scheduled, not yet run, in due order *)
}.

Definition with_queue (q : list (option string)) (g : window) : window :=
  {| output_queue := q; log_text := log_text g;
     scrape_btn := scrape_btn g; after_calls := after_calls g |}.

Definition with_log (l : list string) (g : window) : window :=
  {| output_queue := output_queue g; log_text := l;
     scrape_btn := scrape_btn g; after_calls := after_calls g |}.

Definition with_button (b : bool) (g : window) : window :=
  {| output_queue := output_queue g; log_text := log_text g;
     scrape_btn := b; after_calls := after_calls g |}.

Definition with_after (cs : list callback) (g : window) : window :=
  {| output_queue := output_queue g; log_text := log_text g;
     scrape_btn := scrape_btn g; after_calls := cs |}.

(** [output_queue.put(ev)] *)
Definition put (ev : option string) (g : window) : window :=
  with_queue (output_queue g ++ [ev]) g.

(** [root.after(_, cb)] *)
Definition after (cb : callback) (g : window) : window :=
  with_after (after_calls g ++ [cb]) g.

Definition append_log (line : string) (g : window) : window :=
  with_log (log_text g ++ [line]) g.

Definition url_of (w : widgets) : string := Py.strip (url_var w).

Definition delay_of (w : widgets) : string :=
  match delay_var w with Some d => d | None => "1.0" end.

Definition depth_of (w : widgets) : Z :=
  match depth_var w with Some d => d | None => 2 end.

Definition out_dir_of (w : widgets) : string :=
  let o := Py.strip (out_var w) in if nonblank o then o else "output".

(** [cmd] as it is after [cmd.extend(["--out-dir", ..., "--delay", ...])]. *)
Definition cmd_head (w : widgets) : list string :=
  ((if frozen w then [scrape_bin w; "--url"; url_of w]
    else [executable w; "-m"; "web_scraper.cli"; "--url"; url_of w])
   ++ ["--out-dir"; out_dir_of w; "--delay"; delay_of w])%list.

(** What the [if crawl_var.get():] block appends. *)
Definition crawl_args (w : widgets) : list string :=
  if crawl_var w
  then (["--crawl"; "--max-depth"; Py.str (depth_of w)]
        ++ (if same_domain_var w then ["--same-domain-only"] else []))%list
  else [].

(** [worker()]; [proc.stdout] is a pipe, so [if proc.stdout:] holds. *)
Definition worker (E : os) (cmd : list string) : thread unit :=
  (Thread.try_except
     (po <- Thread.Popen E cmd ;;
      Thread.for_lines (snd po) (fun line => Thread.emit (Put (Some line))))
     (fun e => Thread.emit (Put (Some ("Error: " ++ e ++ Py.nl)))) ;;
   Thread.emit (Put None))%thread.

(** The loop of [poll_queue]: [get_nowait] until the queue is empty or the
    sentinel is taken; the result tells whether the sentinel was seen. *)
Fixpoint poll_loop (q : list (option string)) (g : window) : window * bool :=
  match q with
  | [] => (g, false)
  | ev :: q' =>
      let g := with_queue q' g in
      match ev with
      | None => (g, true)
      | Some line => poll_loop q' (after (CbLine line) g)
      end
  end.

(** [poll_queue(btn)] *)
Definition poll_queue (g : window) : window :=
  let (g', saw_done) := poll_loop (output_queue g) g in
  if saw_done then after CbButton g' else after CbPoll g'.

Definition run_callback (cb : callback) (g : window) : window :=
  match cb with
  | CbLine l => append_log l g
  | CbButton => with_button true g
  | CbPoll => poll_queue g
  end.

(** [run_scrape(scrape_btn_ref)]: the new state of the window and the
    bodies of the threads it starts.  The call of [poll_queue] that ends
    [run_scrape] runs while the thread just started already runs, so it is
    kept as the next action of the UI thread, ahead of the scheduled
    callbacks. *)
Definition run_scrape (E : os) (w : widgets) (g : window)
  : window * outcome (list (thread unit)) :=
  if negb (nonblank (url_of w)) then
    (append_log ("Error: URL is required." ++ Py.nl) g, Ret [])
  else
    let g := with_button false g in
    match web_scraper_types_args
            (selected_types (type_pdf_var w) (type_text_var w) (type_images_var w)) with
    | None =>
        (with_button true
           (append_log ("Error: Select at least one file type." ++ Py.nl) g),
         Ret [])
    | Some types =>
        match web_scraper_size_args (size_small_var w) (size_medium_var w)
                (size_large_var w) with
        | None => (g, Raise "ValueError")
        | Some sizes =>
            let cmd := (cmd_head w ++ types ++ sizes ++ crawl_args w)%list in
            let g := append_log ("Running: " ++ Py.join " " cmd ++ Py.nl ++ Py.nl) g in
            (with_after (CbPoll :: after_calls g) g, Ret [worker E cmd])
        end
    end.

(** What the worker thread does to the queue; it shares nothing else with
    the UI thread. *)
Definition apply_op (o : op) (g : window) : window :=
  match o with
  | Put ev => put ev g
  | Spawn _ | SetCurrentProc _ | AppendProc _ => g
  end.

(** The window and what the worker thread still has to do. *)
Record sys := {
  ui_st : window;
  worker_st : list op
}.

(** One step of a run: the worker performs its next action, or the UI
    thread runs its next callback.  A poll is one step: items put while it
    drains the queue are either seen by it, as if put before, or not, as if
    put after.  A child that never closes its output shows as a worker that
    never takes its next step. *)
Inductive step : sys -> sys -> Prop :=
| step_worker : forall g o rest,
    step {| ui_st := g; worker_st := o :: rest |}
         {| ui_st := apply_op o g; worker_st := rest |}
| step_callback : forall g t cb cs,
    after_calls g = cb :: cs ->
    step {| ui_st := g; worker_st := t |}
         {| ui_st := run_callback cb (with_after cs g); worker_st := t |}.

Inductive steps : sys -> sys -> Prop :=
| steps_refl : forall s, steps s s
| steps_snoc : forall s s' s'', steps s s' -> step s' s'' -> steps s s''.

(** The states of a run whose child writes the lines [all], relative to
    the log [log0] at its launch: while polling, what is logged, then what
    is scheduled for the log, then the lines queued or still to be put make
    up [all], and the sentinel comes last; once the sentinel is taken the
    button callback follows the scheduled lines; the button is enabled
    again when all is logged. *)
Inductive run_phase (log0 all : list string) (s : sys) : Prop :=
| Polling (logged ls pending : list string) :
    log_text (ui_st s) = (log0 ++ logged)%list ->
    after_calls (ui_st s) = (map CbLine ls ++ [CbPoll])%list ->
    (output_queue (ui_st s) ++ puts (worker_st s))%list
    = (map Some pending ++ [None])%list ->
    (logged ++ ls ++ pending)%list = all ->
    scrape_btn (ui_st s) = false ->
    run_phase log0 all s
| Draining (logged ls : list string) :
    log_text (ui_st s) = (log0 ++ logged)%list ->
    after_calls (ui_st s) = (map CbLine ls ++ [CbButton])%list ->
    output_queue (ui_st s) = [] ->
    puts (worker_st s) = [] ->
    (logged ++ ls)%list = all ->
    scrape_btn (ui_st s) = false ->
    run_phase log0 all s
| Finished :
    log_text (ui_st s) = (log0 ++ all)%list ->
    after_calls (ui_st s) = [] ->
    output_queue (ui_st s) = [] ->
    puts (worker_st s) = [] ->
    scrape_btn (ui_st s) = true ->
    run_phase log0 all s.

(** A window and a configuration used to instantiate the statements
    below. *)
Definition fresh_window : window :=
  {| output_queue := []; log_text := []; scrape_btn := true; after_calls := [] |}.

Definition sample_widgets : widgets :=
  {| url_var := " https://example.com ";
     out_var := "  ";
     type_pdf_var := true;
     type_text_var := false;
     type_images_var := true;
     size_small_var := false;
     size_medium_var := true;
     size_large_var := true;
     delay_var := None;
     depth_var := Some 3;
     crawl_var := true;
     same_domain_var := true;
     frozen := false;
     executable := "python";
     scrape_bin := "scrape" |}.

End WebScraper.

(** ** A sequential run left to itself *)




(** * Properties *)

(** ** The size-argument formatter *)

Lemma size_to_arg_mib (n : Z) :
  1024 * 1024 <= n -> _size_to_arg n = Py.str (n / (1024 * 1024)) ++ "m".
Proof.
  intros H. unfold _size_to_arg. rewrite Z.geb_leb.
  destruct (Z.leb_spec (1024 * 1024) n); [reflexivity | lia].
Qed.

Lemma size_to_arg_kib (n : Z) :
  1024 <= n < 1024 * 1024 -> _size_to_arg n = Py.str (n / 1024) ++ "k".
Proof.
  intros H. unfold _size_to_arg. rewrite !Z.geb_leb.
  destruct (Z.leb_spec (1024 * 1024) n); [lia |].
  destruct (Z.leb_spec 1024 n); [reflexivity | lia].
Qed.

Lemma size_to_arg_raw (n : Z) : n < 1024 -> _size_to_arg n = Py.str n.
Proof.
  intros H. unfold _size_to_arg. rewrite !Z.geb_leb.
  destruct (Z.leb_spec (1024 * 1024) n); [lia |].
  destruct (Z.leb_spec 1024 n); [lia | reflexivity].
Qed.

(** C8, as stated, fails: 1.5 MiB is a multiple of 1 KiB and not of 1 MiB,
    so the rule of the claim renders it ["1536k"], while [_size_to_arg]
    renders it ["1m"]. *)
Lemma size_to_arg_multiples_rule_fails :
  ~ (forall n, 0 <= n -> _size_to_arg n = Spec.size_to_arg n).
Proof.
  intros H. specialize (H 1572864 ltac:(lia)).
  vm_compute in H. discriminate H.
Qed.

(** C8 (amended): for a non-negative byte count [n], [_size_to_arg] renders
    the floor of [n / 1 MiB] followed by [m] when [n >= 1 MiB], the floor of
    [n / 1 KiB] followed by [k] when [1 KiB <= n < 1 MiB], and the decimal
    digits of [n] when [n < 1 KiB].  It agrees with the rule "multiples of
    1 MiB as <n>m, multiples of 1 KiB as <n>k, else raw digits" when [n] is
    positive and is a multiple of the unit that its magnitude selects. *)
Theorem size_to_arg_thresholds (n : Z) :
  0 <= n ->
  (1024 * 1024 <= n -> _size_to_arg n = Py.str (n / (1024 * 1024)) ++ "m")
  /\ (1024 <= n < 1024 * 1024 -> _size_to_arg n = Py.str (n / 1024) ++ "k")
  /\ (n < 1024 -> _size_to_arg n = Py.str n)
  /\ (0 < n ->
      (1024 * 1024 <= n -> n mod (1024 * 1024) = 0) ->
      (1024 <= n < 1024 * 1024 -> n mod 1024 = 0) ->
      _size_to_arg n = Spec.size_to_arg n).
Proof.
  intros Hn. repeat split.
  - apply size_to_arg_mib.
  - apply size_to_arg_kib.
  - apply size_to_arg_raw.
  - intros Hpos Hm Hk. unfold Spec.size_to_arg.
    destruct (Z.le_gt_cases (1024 * 1024) n) as [Hbig | Hsmall].
    + rewrite (size_to_arg_mib n Hbig).
      rewrite (Hm Hbig). reflexivity.
    + assert (Hmod : n mod (1024 * 1024) = n) by (apply Z.mod_small; lia).
      rewrite Hmod.
      destruct (Z.eqb_spec n 0) as [-> | _]; [lia |].
      destruct (Z.le_gt_cases 1024 n) as [Hmid | Hlow].
      * rewrite (size_to_arg_kib n (conj Hmid Hsmall)).
        rewrite (Hk (conj Hmid Hsmall)). reflexivity.
      * rewrite (size_to_arg_raw n Hlow).
        rewrite (Z.mod_small n 1024) by lia.
        destruct (Z.eqb_spec n 0) as [-> | _]; [lia | reflexivity].
Qed.

Lemma size_to_arg_thresholds_witness :
  0 <= 102400
  /\ _size_to_arg 102400 = "100k"
  /\ _size_to_arg 102400 = Spec.size_to_arg 102400.
Proof.
  split; [lia |].
  destruct (size_to_arg_thresholds 102400 ltac:(lia)) as (_ & Hk & _ & Hs).
  split.
  - rewrite Hk by lia. reflexivity.
  - apply Hs; [lia | lia | intros _; reflexivity].
Defined.

(** ** The image-size arguments *)

Ltac in_cases :=
  repeat match goal with
         | H : In _ _ |- _ => simpl in H
         | H : _ \/ _ |- _ => destruct H
         | H : False |- _ => destruct H
         | H : Spec.upper _ = Some _ |- _ => simpl in H
         end; subst; simpl in *; try congruence; try discriminate.

Ltac pick_range :=
  first [ exists Spec.Small; split; [simpl; tauto | reflexivity]
        | exists Spec.Medium; split; [simpl; tauto | reflexivity]
        | exists Spec.Large; split; [simpl; tauto | reflexivity] ].

Ltac bound_cases :=
  intros; in_cases;
  repeat match goal with
         | H : Some _ = Some _ |- _ => inversion H; clear H
         end; subst; lia.

(** For every non-empty selection of the size checkboxes the computed pair
    is that of the union interval, in both GUIs. *)
Lemma image_size_args_rule :
  (forall small medium large,
      Spec.selection small medium large <> [] ->
      exists lo hi,
        Spec.smallest_lower (Spec.selection small medium large) lo
        /\ Spec.largest_upper (Spec.selection small medium large) hi
        /\ _image_size_args small medium large = Some (Spec.size_args lo hi)
        /\ web_scraper_size_args small medium large = Some (Spec.size_args lo hi))
  /\ _image_size_args false true false
     = Some ["--min-image-size"; "100k"; "--max-image-size"; "1m"]
  /\ _image_size_args true false true = Some []
  /\ _image_size_args false false false = Some [].
Proof.
  split; [| split; [| split]; reflexivity].
  intros small medium large Hne.
  destruct small, medium, large;
    try (exfalso; apply Hne; reflexivity); clear Hne;
    [ exists 0, None | exists 0, (Some (1024 * 1024)) | exists 0, None
    | exists 0, (Some (100 * 1024)) | exists (100 * 1024), None
    | exists (100 * 1024), (Some (1024 * 1024)) | exists (1024 * 1024), None ];
    (split; [split; [pick_range | bound_cases] |]);
    (split; [| split; reflexivity]);
    simpl; auto;
    (split; [intros H; in_cases | split; [pick_range | bound_cases]]).
Qed.

(** C10: with no size checkbox selected no size argument is emitted, no
    exception is raised, and the result is that of selecting all three. *)
Theorem image_size_args_none_selected :
  _image_size_args false false false = Some []
  /\ _image_size_args false false false = _image_size_args true true true.
Proof. split; reflexivity. Qed.

(** ** The [--types] argument *)

Ltac missing_type :=
  first [ exists "pdf"; split; [simpl; tauto | simpl; intuition discriminate]
        | exists "text"; split; [simpl; tauto | simpl; intuition discriminate]
        | exists "images"; split; [simpl; tauto | simpl; intuition discriminate] ].

Lemma types_args_cases (pdf text images : bool) :
  selected_types pdf text images <> [] ->
  (Spec.strict_subset (selected_types pdf text images)
   /\ types_args (selected_types pdf text images)
      = "--types" :: selected_types pdf text images)
  \/ (selected_types pdf text images = Spec.all_types
      /\ types_args (selected_types pdf text images) = []).
Proof.
  intros Hne.
  destruct pdf, text, images;
    try (exfalso; apply Hne; reflexivity); clear Hne;
    try (right; split; reflexivity);
    left; (split; [| reflexivity]);
    (split; [intros x Hx; simpl in *; tauto | missing_type]).
Qed.

Lemma all_types_not_strict : ~ Spec.strict_subset Spec.all_types.
Proof. intros [_ (t & Hin & Hnot)]. contradiction. Qed.

Lemma build_cmd_shape (w : widgets) (common us : list string) (d : bool) :
  exists tail,
    build_cmd w common us d
    = (common ++ "--url" :: us
       ++ ["--out-dir"; out_dir_of w; "--delay"; delay_of w]
       ++ types_args_of w ++ tail)%list
    /\ tail = (if d && nonblank (done_script_of w)
               then ["--done-script"; done_script_of w] else []).
Proof.
  unfold build_cmd.
  destruct (d && nonblank (done_script_of w)); eexists; split; try reflexivity.
  - rewrite <- !app_assoc. reflexivity.
  - rewrite !app_nil_r. reflexivity.
Qed.

Lemma types_args_spec (sel : list string) :
  (Spec.strict_subset sel /\ types_args sel = "--types" :: sel)
  \/ (sel = Spec.all_types /\ types_args sel = []) ->
  (Spec.strict_subset sel <-> types_args sel = "--types" :: sel)
  /\ (Spec.strict_subset sel <-> In "--types" (types_args sel))
  /\ (sel = Spec.all_types -> types_args sel = []).
Proof.
  intros [[Hs Ht] | [Ha Ht]].
  - split; [| split].
    + split; [intros _; exact Ht | intros _; exact Hs].
    + split; [intros _; rewrite Ht; left; reflexivity | intros _; exact Hs].
    + intros Hall. rewrite Hall in Hs. destruct (all_types_not_strict Hs).
  - assert (Hn : ~ Spec.strict_subset sel)
      by (rewrite Ha; apply all_types_not_strict).
    split; [| split].
    + split; [intros Hs; contradiction | intros H; rewrite Ht in H; discriminate H].
    + split; [intros Hs; contradiction | rewrite Ht; intros []].
    + intros _. exact Ht.
Qed.

Lemma web_scraper_types_args_same (sel : list string) :
  sel <> [] -> web_scraper_types_args sel = Some (types_args sel).
Proof.
  intros Hne. unfold web_scraper_types_args, types_args.
  destruct (truthy sel && (Z.of_nat (Datatypes.length sel) <? 3)) eqn:Hc;
    [reflexivity |].
  destruct sel; [congruence | reflexivity].
Qed.

(** C7: for a non-empty selection of content types, [--types] followed by
    the selected types is emitted exactly when the selection is a strict
    subset of the three supported types; with all three selected nothing is
    emitted.  The argv of [build_cmd] carries these arguments after the
    delay, and [web_scraper/gui.py] appends the same. *)
Theorem types_args_iff_strict_subset (w : widgets) :
  let sel := selected_types (type_pdf_var w) (type_text_var w) (type_images_var w) in
  sel <> [] ->
  (Spec.strict_subset sel <-> types_args sel = "--types" :: sel)
  /\ (Spec.strict_subset sel <-> In "--types" (types_args sel))
  /\ (sel = Spec.all_types -> types_args sel = [])
  /\ web_scraper_types_args sel = Some (types_args sel)
  /\ forall common us d,
      exists tail,
        build_cmd w common us d
        = (common ++ "--url" :: us
           ++ ["--out-dir"; out_dir_of w; "--delay"; delay_of w]
           ++ types_args sel ++ tail)%list
        /\ tail = (if d && nonblank (done_script_of w)
                   then ["--done-script"; done_script_of w] else []).
Proof.
  intros sel Hne.
  destruct (types_args_spec sel (types_args_cases _ _ _ Hne)) as (H1 & H2 & H3).
  split; [exact H1 |]. split; [exact H2 |]. split; [exact H3 |].
  split.
  - apply web_scraper_types_args_same. exact Hne.
  - intros. apply build_cmd_shape.
Qed.

Lemma types_args_iff_strict_subset_witness :
  selected_types true false true <> []
  /\ types_args (selected_types true false true) = ["--types"; "pdf"; "images"].
Proof.
  split; [discriminate |].
  destruct (types_args_iff_strict_subset sample_widgets ltac:(discriminate))
    as (H & _).
  apply H. split; [intros x Hx; simpl in *; tauto | missing_type].
Defined.

(** ** The progress interpreter *)

Lemma feed_four_lines (p : progress) :
  count_pdf p = 0 -> count_text p = 0 -> count_images p = 0 ->
  feed ["Found: 12 items"; "  PDF: a.pdf"; "  Image: b.jpg"; "  Text: c.txt"] p
  = {| state_var := "Running"; progress_var := "1 PDFs, 1 texts, 1 images";
       count_pdf := 1; count_text := 1; count_images := 1 |}.
Proof.
  destruct p as [sv pv a b c]. simpl. intros -> -> ->.
  vm_compute. reflexivity.
Qed.

Lemma update_status_agrees (line : string) (p : progress) :
  (counter_precheck line = true <-> search_counter line <> None) ->
  update_status line p = Spec.update_status line p.
Proof.
  intros H. unfold update_status, Spec.update_status, Spec.classify.
  unfold counter_precheck in H.
  destruct (Py.contains "Running:" line || Py.contains "Scrape:" line
            || Py.contains "Iteration" line); [reflexivity |].
  destruct (Py.contains "Found:" line); [reflexivity |].
  destruct (Py.contains "→ Downloading" line); [reflexivity |].
  destruct (Py.contains "  [" line && Py.contains "/" line && Py.contains "] " line).
  - destruct (search_counter line) as [[i n] |]; [reflexivity |].
    exfalso. apply (proj1 H); reflexivity.
  - destruct (search_counter line) as [[i n] |].
    + assert (false = true) by (apply (proj2 H); discriminate). discriminate.
    + destruct (Py.contains "  Text:" line); [reflexivity |].
      destruct (Py.contains "  Image:" line); [reflexivity |].
      destruct (Py.contains "  PDF:" line); [reflexivity |].
      destruct (Py.contains "Done." line); reflexivity.
Qed.

Lemma update_status_unmatched (line : string) (p : progress) :
  Spec.classify line = None -> update_status line p = p.
Proof.
  unfold update_status, Spec.classify.
  destruct (Py.contains "Running:" line || Py.contains "Scrape:" line
            || Py.contains "Iteration" line); [discriminate |].
  destruct (Py.contains "Found:" line); [discriminate |].
  destruct (Py.contains "→ Downloading" line); [discriminate |].
  destruct (search_counter line) as [[i n] |]; [discriminate |].
  destruct (Py.contains "  [" line && Py.contains "/" line && Py.contains "] " line);
    [reflexivity |].
  destruct (Py.contains "  Text:" line); [discriminate |].
  destruct (Py.contains "  Image:" line); [discriminate |].
  destruct (Py.contains "  PDF:" line); [discriminate |].
  destruct (Py.contains "Done." line); [discriminate | reflexivity].
Qed.

(** C6: the patterns are not tried with first match winning on every
    line.  The two lines below carry no counter token, so the first pattern
    that matches them is the saved-text one, which counts one text and sets
    the phase to the three counts.  [update_status] enters its fourth
    branch on them, because they contain ["  ["], ["/"] and ["] "], finds
    no token there and leaves the [elif] chain: it changes nothing.  The
    scenario of the four lines itself ends in the phase of the claim. *)
Theorem update_status_drops_saved_text (p : progress) :
  Spec.classify "  [a/b]   Text: c.txt" = Some Spec.SavedText
  /\ Spec.update_status "  [a/b]   Text: c.txt" p
     = set_progress (counts_msg (incr_text p)) false (incr_text p)
  /\ update_status "  [a/b]   Text: c.txt" p = p
  /\ Spec.classify "  Text: out/a  [1] .txt" = Some Spec.SavedText
  /\ update_status "  Text: out/a  [1] .txt" p = p
  /\ count_text (feed ["  PDF: a.pdf"; "  [a/b]   Text: c.txt"] progress0) = 0
  /\ progress_var
       (feed ["Found: 12 items"; "  PDF: a.pdf"; "  Image: b.jpg"; "  Text: c.txt"]
             progress0)
     = "1 PDFs, 1 texts, 1 images".
Proof.
  split; [vm_compute; reflexivity |].
  split; [reflexivity |].
  split; [reflexivity |].
  split; [vm_compute; reflexivity |].
  split; [reflexivity |].
  split; [vm_compute; reflexivity |].
  rewrite feed_four_lines; reflexivity.
Qed.

(** ** The worker threads *)

Lemma for_each_emit {A} (f : A -> op) (l : list A) :
  Thread.for_each l (fun a => Thread.emit (f a)) = (map f l, Ret tt).
Proof.
  induction l as [| a l IH]; [reflexivity |].
  cbn [Thread.for_each map]. rewrite IH. reflexivity.
Qed.

Lemma parallel_worker_trace (E : os) (n idx : Z) (cmd : list string) :
  parallel_worker E n idx cmd
  = (match popen E cmd with
     | PopenRaises e =>
         [Spawn cmd; Put (Some (label idx n ++ "Error: " ++ e ++ Py.nl)%string);
          Put None]
     | PopenOk p out =>
         [Spawn cmd; AppendProc p]
         ++ map (fun line => Put (Some (label idx n ++ line)%string)) (lines out)
         ++ error_line (label idx n) (read_error out) ++ [Put None]
     end%list, Ret tt).
Proof.
  unfold parallel_worker, Thread.Popen, Thread.for_lines.
  destruct (popen E cmd) as [e | p out]; simpl; [reflexivity |].
  rewrite for_each_emit.
  destruct (read_error out) as [e |]; simpl.
  - rewrite <- !app_assoc. reflexivity.
  - rewrite !app_nil_r. reflexivity.
Qed.

Lemma worker_trace (E : os) (cmd : list string) :
  worker E cmd
  = (match popen E cmd with
     | PopenRaises e =>
         [Spawn cmd; Put (Some ("Error: " ++ e ++ Py.nl)%string);
          SetCurrentProc None; Put None]
     | PopenOk p out =>
         [Spawn cmd; SetCurrentProc (Some p)]
         ++ map (fun line => Put (Some line)) (lines out)
         ++ error_line "" (read_error out) ++ [SetCurrentProc None; Put None]
     end%list, Ret tt).
Proof.
  unfold worker, Thread.Popen, Thread.for_lines.
  destruct (popen E cmd) as [e | p out]; simpl; [reflexivity |].
  rewrite for_each_emit.
  destruct (read_error out) as [e |]; simpl;
    rewrite ?app_nil_r, <- ?app_assoc; reflexivity.
Qed.

Lemma puts_app (t1 t2 : list op) : puts (t1 ++ t2) = (puts t1 ++ puts t2)%list.
Proof.
  induction t1 as [| o t1 IH]; simpl; [reflexivity |].
  destruct o; simpl; rewrite IH; reflexivity.
Qed.

Lemma puts_map_put (f : string -> string) (l : list string) :
  puts (map (fun line => Put (Some (f line))) l) = map Some (map f l).
Proof. induction l as [| a l IH]; simpl; [reflexivity | rewrite IH; reflexivity]. Qed.

Lemma spawns_app (t1 t2 : list op) :
  spawns (t1 ++ t2) = (spawns t1 ++ spawns t2)%list.
Proof.
  induction t1 as [| o t1 IH]; simpl; [reflexivity |].
  destruct o; simpl; rewrite IH; reflexivity.
Qed.

Lemma spawns_map_put (f : string -> option string) (l : list string) :
  spawns (map (fun line => Put (f line)) l) = [].
Proof. induction l as [| a l IH]; simpl; [reflexivity | exact IH]. Qed.

Lemma sentinels_app (a b : list (option string)) :
  sentinels (a ++ b) = sentinels a + sentinels b.
Proof.
  unfold sentinels. rewrite filter_app, length_app. lia.
Qed.

Lemma sentinels_lines (l : list string) : sentinels (map Some l) = 0.
Proof.
  unfold sentinels. induction l as [| a l IH]; simpl; [reflexivity | exact IH].
Qed.

Lemma parallel_worker_puts (E : os) (n idx : Z) (cmd : list string) :
  puts (fst (parallel_worker E n idx cmd))
  = (map Some (worker_lines (label idx n) (popen E cmd)) ++ [None])%list.
Proof.
  rewrite parallel_worker_trace. simpl.
  destruct (popen E cmd) as [e | p out]; simpl; [reflexivity |].
  rewrite puts_app, (puts_map_put (fun line => label idx n ++ line)), puts_app.
  rewrite map_app, <- app_assoc.
  destruct (read_error out); reflexivity.
Qed.

Lemma worker_puts (E : os) (cmd : list string) :
  puts (fst (worker E cmd))
  = (map Some (worker_lines "" (popen E cmd)) ++ [None])%list.
Proof.
  rewrite worker_trace. simpl.
  destruct (popen E cmd) as [e | p out]; simpl; [reflexivity |].
  rewrite puts_app, (puts_map_put (fun line => line)), puts_app.
  rewrite map_app, <- app_assoc, !map_id.
  destruct (read_error out); reflexivity.
Qed.

Lemma parallel_worker_spawns (E : os) (n idx : Z) (cmd : list string) :
  spawns (fst (parallel_worker E n idx cmd)) = [cmd].
Proof.
  rewrite parallel_worker_trace. simpl.
  destruct (popen E cmd) as [e | p out]; simpl; [reflexivity |].
  rewrite spawns_app, (spawns_map_put (fun line => Some (label idx n ++ line))).
  destruct (read_error out); reflexivity.
Qed.

(** C3: every worker, of the parallel and of the sequential path, puts
    exactly one sentinel on the queue, as its last item, whatever the child
    writes, however reading it ends, and when spawning raises; no exception
    escapes the worker.  When spawning raises, the items are exactly one
    line carrying the message, then the sentinel. *)
Theorem worker_one_sentinel (E : os) (n idx : Z) (cmd : list string) :
  (exists ls, puts (fst (parallel_worker E n idx cmd)) = map Some ls ++ [None])%list
  /\ sentinels (puts (fst (parallel_worker E n idx cmd))) = 1
  /\ snd (parallel_worker E n idx cmd) = Ret tt
  /\ (exists ls, puts (fst (worker E cmd)) = map Some ls ++ [None])%list
  /\ sentinels (puts (fst (worker E cmd))) = 1
  /\ snd (worker E cmd) = Ret tt
  /\ forall e,
      popen E cmd = PopenRaises e ->
      puts (fst (parallel_worker E n idx cmd))
      = [Some (label idx n ++ "Error: " ++ e ++ Py.nl); None]
      /\ puts (fst (worker E cmd)) = [Some ("Error: " ++ e ++ Py.nl); None].
Proof.
  repeat split.
  - eexists. apply parallel_worker_puts.
  - rewrite parallel_worker_puts, sentinels_app, sentinels_lines. reflexivity.
  - rewrite parallel_worker_trace. reflexivity.
  - eexists. apply worker_puts.
  - rewrite worker_puts, sentinels_app, sentinels_lines. reflexivity.
  - rewrite worker_trace. reflexivity.
  - rewrite parallel_worker_puts, H. reflexivity.
  - rewrite worker_puts, H. reflexivity.
Qed.

Lemma worker_one_sentinel_witness :
  popen sample_os [] = PopenRaises "no command"
  /\ puts (fst (parallel_worker sample_os 2 0 []))
     = [Some ("[1/2] Error: no command" ++ Py.nl); None]
  /\ puts (fst (worker sample_os [])) = [Some ("Error: no command" ++ Py.nl); None].
Proof.
  split; [reflexivity |].
  destruct (worker_one_sentinel sample_os 2 0 []) as (_ & _ & _ & _ & _ & _ & H).
  exact (H "no command" eq_refl).
Defined.

(** ** The stop handler *)

Ltac gui_eq :=
  repeat match goal with
         | g : gui |- _ => destruct g
         end;
  cbv [put after append_log with_queue with_current_proc
       with_current_procs with_status with_done_count with_log with_buttons
       with_after with_dequeued with_terminate_calls with_shell_calls
       output_queue current_proc current_procs status parallel_done_count
       log_text scrape_btn stop_btn after_calls dequeued terminate_calls
       shell_calls fst snd] in *;
  subst;
  rewrite <- ?app_assoc, ?app_nil_r, ?Z.add_0_r; cbn [app];
  try reflexivity.

Lemma for_each_terminate (E : os) (procs : list proc) (g : gui) :
  UI.for_each procs (fun p => UI.try_pass (terminate E p)) g
  = (with_terminate_calls (terminate_calls g ++ procs) g, Ret tt).
Proof.
  revert g. induction procs as [| p procs IH]; intros g.
  - gui_eq.
  - cbn [UI.for_each]. unfold UI.bind at 1. unfold UI.try_pass at 1.
    unfold terminate at 1. rewrite IH. gui_eq.
Qed.

(** What [do_stop] does, in closed form: it never raises. *)
Lemma do_stop_eq (E : os) (g : gui) :
  do_stop E g
  = (with_status (stopped g)
       (match current_proc g with
        | Some p =>
            put None
              (with_terminate_calls (terminate_calls g ++ current_procs g ++ [p])
                 (with_current_procs [] g))
        | None =>
            with_terminate_calls (terminate_calls g ++ current_procs g)
              (with_current_procs [] g)
        end), Ret tt).
Proof.
  unfold do_stop, UI.bind, UI.get, UI.modify.
  rewrite for_each_terminate.
  destruct g as [q cp cps st c lg sb tb ac dq tc sc]. cbn.
  destruct cp as [p |]; cbn.
  - unfold UI.try_pass, terminate. cbn. rewrite <- app_assoc. reflexivity.
  - reflexivity.
Qed.

Lemma do_stop_no_raise (E : os) (g : gui) : snd (do_stop E g) = Ret tt.
Proof. rewrite do_stop_eq. reflexivity. Qed.

Lemma do_stop_queue (E : os) (g : gui) :
  output_queue (fst (do_stop E g))
  = (output_queue g ++ match current_proc g with
                       | Some _ => [None]
                       | None => []
                       end)%list.
Proof.
  rewrite do_stop_eq. destruct g as [q cp cps st c lg sb tb ac dq tc sc].
  destruct cp; cbn; [reflexivity | rewrite app_nil_r; reflexivity].
Qed.

Lemma do_stop_current_proc (E : os) (g : gui) :
  current_proc (fst (do_stop E g)) = current_proc g.
Proof.
  rewrite do_stop_eq. destruct g as [q cp cps st c lg sb tb ac dq tc sc].
  destruct cp; reflexivity.
Qed.

(** A second stop changes nothing once no sequential child is registered. *)
Lemma do_stop_twice_unregistered (E : os) (g : gui) :
  current_proc g = None ->
  do_stop E (fst (do_stop E g)) = do_stop E g.
Proof.
  intros H. rewrite !do_stop_eq.
  destruct g as [q cp cps st c lg sb tb ac dq tc sc]. cbn in H. subst cp.
  cbn. rewrite !app_nil_r. reflexivity.
Qed.

(** While the sequential child is still registered every stop puts one more
    sentinel on the queue. *)
Lemma do_stop_twice_registered (E : os) (g : gui) (p : proc) :
  current_proc g = Some p ->
  output_queue (fst (do_stop E (fst (do_stop E g))))
  = (output_queue (fst (do_stop E g)) ++ [None])%list.
Proof.
  intros H. rewrite (do_stop_queue E (fst (do_stop E g))).
  rewrite do_stop_current_proc, H. reflexivity.
Qed.

(** C5 (the code departs from it): in the sequential path, with the child
    registered in [current_proc] and Stop pressed twice before the reader
    thread clears the registration, the second [do_stop] does not leave the
    queue as the first left it: it puts another sentinel.  Neither call
    raises. *)
Theorem do_stop_twice_enqueues_again :
  let g := with_current_proc (Some 7%nat) (with_buttons false true fresh_gui) in
  let g1 := fst (do_stop sample_os g) in
  let g2 := fst (do_stop sample_os g1) in
  output_queue g1 = [None]
  /\ output_queue g2 = [None; None]
  /\ g2 <> g1
  /\ snd (do_stop sample_os g) = Ret tt
  /\ snd (do_stop sample_os g1) = Ret tt.
Proof.
  cbv zeta. repeat split; try reflexivity.
  intros H. apply (f_equal output_queue) in H. vm_compute in H. discriminate H.
Qed.

(** ** The poll loops *)

Lemma poll_loop_to_sentinel (ls : list string) (rest : list (option string))
    (g : gui) :
  poll_loop (map Some ls ++ None :: rest) g
  = (with_dequeued (dequeued g ++ map Some ls ++ [None])
       (with_queue rest
          (with_after (after_calls g ++ map CbLine ls) g)), true).
Proof.
  revert g. induction ls as [| l ls IH]; intros g.
  - gui_eq.
  - cbn [map app poll_loop]. rewrite IH. gui_eq.
Qed.

Lemma poll_loop_no_sentinel (ls : list string) (g : gui) :
  poll_loop (map Some ls) g
  = (with_dequeued (dequeued g ++ map Some ls)
       (with_queue (match ls with [] => output_queue g | _ => [] end)
          (with_after (after_calls g ++ map CbLine ls) g)), false).
Proof.
  revert g. induction ls as [| l ls IH]; intros g.
  - gui_eq.
  - cbn [map poll_loop]. rewrite IH. destruct ls; gui_eq.
Qed.

(** [poll_queue] on a queue whose first sentinel follows the lines [ls]:
    the lines are scheduled for the log, the sentinel is taken, the run is
    reported done and what follows the sentinel stays queued. *)
Lemma poll_queue_sees_sentinel (ls : list string) (rest : list (option string))
    (g : gui) :
  output_queue g = (map Some ls ++ None :: rest)%list ->
  poll_queue g
  = (with_dequeued (dequeued g ++ map Some ls ++ [None])
       (with_queue rest
          (with_after (after_calls g ++ map CbLine ls ++ [CbButtons]) g)), Ret tt).
Proof.
  intros H. unfold poll_queue. rewrite H, poll_loop_to_sentinel. gui_eq.
Qed.

(** ** Worker actions on the shared state *)

Lemma apply_ops_app (t1 t2 : list op) (g : gui) :
  apply_ops (t1 ++ t2) g = apply_ops t2 (apply_ops t1 g).
Proof. unfold apply_ops. apply fold_left_app. Qed.

Lemma apply_ops_queue (t : list op) (g : gui) :
  output_queue (apply_ops t g) = (output_queue g ++ puts t)%list.
Proof.
  revert g. induction t as [| o t IH]; intros g.
  - cbn. rewrite app_nil_r. reflexivity.
  - change (apply_ops (o :: t) g) with (apply_ops t (apply_op o g)).
    rewrite IH. destruct o; cbn; rewrite <- ?app_assoc; reflexivity.
Qed.

(** A worker touches neither the timer callbacks, nor the buttons, nor the
    counters and histories of the UI thread. *)
Lemma apply_op_frame (o : op) (g : gui) :
  after_calls (apply_op o g) = after_calls g
  /\ dequeued (apply_op o g) = dequeued g
  /\ parallel_done_count (apply_op o g) = parallel_done_count g
  /\ scrape_btn (apply_op o g) = scrape_btn g
  /\ stop_btn (apply_op o g) = stop_btn g
  /\ shell_calls (apply_op o g) = shell_calls g.
Proof. destruct o; repeat split. Qed.

Lemma apply_ops_frame (t : list op) (g : gui) :
  after_calls (apply_ops t g) = after_calls g
  /\ dequeued (apply_ops t g) = dequeued g
  /\ parallel_done_count (apply_ops t g) = parallel_done_count g
  /\ scrape_btn (apply_ops t g) = scrape_btn g
  /\ stop_btn (apply_ops t g) = stop_btn g
  /\ shell_calls (apply_ops t g) = shell_calls g.
Proof.
  revert g. induction t as [| o t IH]; intros g; [repeat split |].
  change (apply_ops (o :: t) g) with (apply_ops t (apply_op o g)).
  destruct (IH (apply_op o g)) as (H1 & H2 & H3 & H4 & H5 & H6).
  destruct (apply_op_frame o g) as (K1 & K2 & K3 & K4 & K5 & K6).
  repeat split; congruence.
Qed.

Lemma do_stop_frame (E : os) (g : gui) :
  after_calls (fst (do_stop E g)) = after_calls g
  /\ dequeued (fst (do_stop E g)) = dequeued g
  /\ parallel_done_count (fst (do_stop E g)) = parallel_done_count g
  /\ scrape_btn (fst (do_stop E g)) = scrape_btn g
  /\ stop_btn (fst (do_stop E g)) = stop_btn g
  /\ shell_calls (fst (do_stop E g)) = shell_calls g.
Proof.
  rewrite do_stop_eq. destruct g as [q cp cps st c lg sb tb ac dq tc sc].
  destruct cp; repeat split.
Qed.

Lemma apply_puts_current_proc (cp : option proc) (ls : list string) (g : gui) :
  current_proc
    (apply_ops (SetCurrentProc cp :: map (fun l => Put (Some l)) ls) g) = cp.
Proof.
  change (apply_ops (SetCurrentProc cp :: ?t) g)
    with (apply_ops t (with_current_proc cp g)).
  assert (H : forall g', current_proc
                (apply_ops (map (fun l => Put (Some l)) ls) g') = current_proc g').
  { induction ls as [| l ls IH]; intros g'; [reflexivity |].
    cbn [map]. change (apply_ops (?o :: ?t) g') with (apply_ops t (apply_op o g')).
    rewrite IH. reflexivity. }
  rewrite H. reflexivity.
Qed.

(** ** The size arguments never raise *)

Lemma image_size_args_total (small medium large : bool) :
  exists a, _image_size_args small medium large = Some a.
Proof. destruct small, medium, large; eexists; reflexivity. Qed.

Lemma common_args_total (w : widgets) : exists common, common_args w = Some common.
Proof.
  unfold common_args.
  destruct (image_size_args_total (size_small_var w) (size_medium_var w)
              (size_large_var w)) as [a Ha].
  rewrite Ha. eexists. reflexivity.
Qed.

(** ** Launching a run *)

Lemma truthy_nonempty {A} (l : list A) : l <> [] -> truthy l = true.
Proof. destruct l; [congruence | reflexivity]. Qed.

Lemma run_scrape_sequential (E : os) (w : widgets) (g : gui) :
  urls w <> [] ->
  selected_types (type_pdf_var w) (type_text_var w) (type_images_var w) <> [] ->
  run_parallel w = false ->
  exists common g',
    common_args w = Some common
    /\ run_scrape E w g
       = (g', Ret ([worker E (build_cmd w common (urls w) true)], Some (run_of w)))
    /\ output_queue g' = output_queue g
    /\ after_calls g' = CbPoll :: after_calls g.
Proof.
  intros Hu Ht Hp. destruct (common_args_total w) as [common Hc].
  exists common. unfold run_scrape, launch_of.
  rewrite Hc, Hp, (truthy_nonempty _ Hu), (truthy_nonempty _ Ht).
  cbn [negb]. eexists. split; [reflexivity |].
  split; [reflexivity |]. split; reflexivity.
Qed.

(** ** Stop while the sequential child is registered *)

(** C9: when Stop is pressed while the sequential child is registered in
    [current_proc] (it was spawned, the lines [before] are queued, its
    stream is still open), the queue receives two sentinels for the one
    job: one from [do_stop], one from the reader thread when the stream
    closes.  The poll that reports the run done takes the first; the second
    stays queued, and the first poll of a following sequential run takes it
    and reports that run done before its own worker has done anything. *)
Theorem stop_while_running_two_sentinels
    (E : os) (cmd : list string) (p : proc) (before later : list string)
    (err : option exn) (g : gui) :
  popen E cmd = PopenOk p {| lines := before ++ later; read_error := err |} ->
  output_queue g = [] ->
  after_calls g = [] ->
  let pre := ([Spawn cmd; SetCurrentProc (Some p)]
              ++ map (fun l => Put (Some l)) before)%list in
  let post := (map (fun l => Put (Some l)) later
               ++ error_line "" err ++ [SetCurrentProc None; Put None])%list in
  let g1 := apply_ops pre g in
  let g2 := fst (do_stop E g1) in
  let g3 := apply_ops post g2 in
  let g4 := fst (poll_queue g3) in
  fst (worker E cmd) = (pre ++ post)%list
  /\ current_proc g1 = Some p
  /\ output_queue g3
     = (map Some before ++ [None] ++ puts post)%list
  /\ sentinels (puts (fst (worker E cmd))) = 1
  /\ sentinels (output_queue g3) = 2
  /\ after_calls g4 = (map CbLine before ++ [CbButtons])%list
  /\ output_queue g4 = puts post
  /\ sentinels (output_queue g4) = 1
  /\ forall (w : widgets) (g' : gui),
      urls w <> [] ->
      selected_types (type_pdf_var w) (type_text_var w) (type_images_var w) <> [] ->
      run_parallel w = false ->
      output_queue g' = output_queue g4 ->
      after_calls g' = [] ->
      exists common g5,
        run_scrape E w g'
        = (g5, Ret ([worker E (build_cmd w common (urls w) true)], Some (run_of w)))
        /\ after_calls g5 = [CbPoll]
        /\ let g6 := fst (run_callback E (run_of w) CbPoll (with_after [] g5)) in
           In CbButtons (after_calls g6)
           /\ ~ In CbPoll (after_calls g6)
           /\ sentinels (output_queue g6) = 0.
Proof.
  intros Hpo Hq Hac pre post g1 g2 g3 g4.
  assert (Hpost : exists ls, puts post = (map Some ls ++ [None])%list).
  { exists (later ++ match err with
                     | Some e => [("Error: " ++ e ++ Py.nl)%string]
                     | None => []
                     end)%list.
    unfold post. rewrite puts_app, (puts_map_put (fun l => l)), map_id, puts_app.
    rewrite map_app, <- app_assoc. destruct err; reflexivity. }
  destruct Hpost as [ls Hls].
  assert (Hw : fst (worker E cmd) = (pre ++ post)%list).
  { rewrite worker_trace, Hpo. unfold pre, post. cbn [fst lines read_error].
    rewrite map_app, <- !app_assoc. reflexivity. }
  assert (Hcp : current_proc g1 = Some p).
  { unfold g1, pre. cbn [app].
    change (apply_ops (Spawn cmd :: ?t) g) with (apply_ops t g).
    apply apply_puts_current_proc. }
  assert (Hq3 : output_queue g3 = (map Some before ++ [None] ++ puts post)%list).
  { unfold g3. rewrite apply_ops_queue. unfold g2. rewrite do_stop_queue, Hcp.
    unfold g1. rewrite apply_ops_queue, Hq. unfold pre.
    rewrite puts_app, (puts_map_put (fun l => l)), map_id.
    cbn [puts app]. rewrite <- !app_assoc. reflexivity. }
  assert (Hac3 : after_calls g3 = []).
  { unfold g3. rewrite (proj1 (apply_ops_frame post g2)).
    unfold g2. rewrite (proj1 (do_stop_frame E g1)).
    unfold g1. rewrite (proj1 (apply_ops_frame pre g)). exact Hac. }
  assert (Hpoll := poll_queue_sees_sentinel before (puts post) g3 Hq3).
  split; [exact Hw |]. split; [exact Hcp |]. split; [exact Hq3 |].
  split; [rewrite worker_puts, sentinels_app, sentinels_lines; reflexivity |].
  split.
  { rewrite Hq3, Hls, !sentinels_app, !sentinels_lines. reflexivity. }
  split; [unfold g4; rewrite Hpoll; cbn; rewrite Hac3; reflexivity |].
  split; [unfold g4; rewrite Hpoll; reflexivity |].
  split.
  { unfold g4. rewrite Hpoll. cbn. rewrite Hls, sentinels_app, sentinels_lines.
    reflexivity. }
  intros w g' Hu Ht Hp Hq' Hac'.
  destruct (run_scrape_sequential E w g' Hu Ht Hp) as (common & g5 & _ & Hrun & Hq5 & Hac5).
  exists common, g5. split; [exact Hrun |].
  rewrite Hac' in Hac5. split; [exact Hac5 |].
  assert (Hq6 : output_queue (with_after [] g5) = (map Some ls ++ None :: [])%list).
  { cbn. rewrite Hq5, Hq'. unfold g4. rewrite Hpoll. cbn. exact Hls. }
  cbv zeta. cbn [run_callback].
  rewrite (poll_queue_sees_sentinel ls [] (with_after [] g5) Hq6). cbn.
  split; [| split].
  - apply in_or_app. right. left. reflexivity.
  - intros Hin. apply in_app_or in Hin. destruct Hin as [Hin | [Hin | []]].
    + apply in_map_iff in Hin. destruct Hin as (x & Hx & _). discriminate Hx.
    + discriminate Hin.
  - reflexivity.
Qed.

Lemma stop_while_running_two_sentinels_witness :
  let before := ["Found: 1 items" ++ Py.nl] in
  let later := ["  PDF: a.pdf" ++ Py.nl] in
  let pre := [Spawn ["strigil"]; SetCurrentProc (Some 7%nat);
              Put (Some ("Found: 1 items" ++ Py.nl))] in
  let post := [Put (Some ("  PDF: a.pdf" ++ Py.nl)); SetCurrentProc None; Put None] in
  popen sample_os ["strigil"]
  = PopenOk 7%nat {| lines := (before ++ later)%list; read_error := None |}
  /\ output_queue fresh_gui = []
  /\ after_calls fresh_gui = []
  /\ sentinels
       (output_queue
          (apply_ops post (fst (do_stop sample_os (apply_ops pre fresh_gui))))) = 2.
Proof.
  cbv zeta. split; [reflexivity |]. split; [reflexivity |]. split; [reflexivity |].
  exact (proj1 (proj2 (proj2 (proj2 (proj2
    (stop_while_running_two_sentinels sample_os ["strigil"] 7%nat
       ["Found: 1 items" ++ Py.nl] ["  PDF: a.pdf" ++ Py.nl] None fresh_gui
       eq_refl eq_refl eq_refl)))))).
Defined.

(** ** The poll loop of the parallel path *)

Lemma sentinels_cons_None (l : list (option string)) :
  sentinels (None :: l) = 1 + sentinels l.
Proof. unfold sentinels. cbn [filter is_None List.length]. lia. Qed.

Lemma sentinels_cons_Some (s : string) (l : list (option string)) :
  sentinels (Some s :: l) = sentinels l.
Proof. reflexivity. Qed.

Lemma sentinels_nonneg (l : list (option string)) : 0 <= sentinels l.
Proof. unfold sentinels. lia. Qed.

(** One run of the loop takes a prefix [taken] of the queue: the lines in
    it are scheduled for the log, the sentinels in it are counted, and the
    loop stops early only when the count reaches [n]. *)
Lemma poll_loop_parallel_spec (n : Z) (q : list (option string)) (g : gui) :
  output_queue g = q ->
  parallel_done_count g < n ->
  exists taken rest,
    q = (taken ++ rest)%list
    /\ poll_loop_parallel n q g
       = with_done_count (parallel_done_count g + sentinels taken)
           (with_dequeued (dequeued g ++ taken)
              (with_queue rest
                 (with_after (after_calls g ++ map CbLine (not_None taken)) g)))
    /\ parallel_done_count g + sentinels taken <= n
    /\ (parallel_done_count g + sentinels taken < n -> rest = []).
Proof.
  revert g. induction q as [| ev q IH]; intros g Hq Hlt.
  - exists [], []. split; [reflexivity |]. split; [gui_eq |].
    change (sentinels []) with 0. split; [lia | reflexivity].
  - destruct ev as [line |].
    + cbn [poll_loop_parallel].
      destruct (IH (after (CbLine line)
                      (with_dequeued (dequeued g ++ [Some line]) (with_queue q g))))
        as (taken & rest & Hsplit & Heq & Hle & Hrest); [reflexivity | exact Hlt |].
      clear IH. exists (Some line :: taken), rest.
      split; [cbn [app]; rewrite Hsplit; reflexivity |].
      split; [rewrite Heq; clear; gui_eq |].
      rewrite sentinels_cons_Some. split; assumption.
    + cbn [poll_loop_parallel].
      set (g2 := with_done_count _ _).
      assert (Hc2 : parallel_done_count g2 = parallel_done_count g + 1)
        by reflexivity.
      rewrite Hc2.
      destruct (parallel_done_count g + 1 >=? n) eqn:Hge.
      * clear IH. exists [None], q. split; [reflexivity |].
        rewrite sentinels_cons_None. change (sentinels []) with 0.
        rewrite Z.geb_leb in Hge. apply Z.leb_le in Hge.
        split; [| split; [lia | intros; lia]].
        unfold g2. clear. gui_eq.
      * rewrite Z.geb_leb in Hge. apply Z.leb_gt in Hge.
        destruct (IH g2) as (taken & rest & Hsplit & Heq & Hle & Hrest);
          [reflexivity | rewrite Hc2; exact Hge |].
        clear IH. exists (None :: taken), rest.
        split; [cbn [app]; rewrite Hsplit; reflexivity |].
        rewrite sentinels_cons_None. rewrite Hc2 in Hle, Hrest.
        split; [| split; [lia | intros; apply Hrest; lia]].
        rewrite Heq. unfold g2. clear. gui_eq. f_equal. lia.
Qed.

(** ** The invariant of a parallel run *)

Section ParallelRun.

Variable E : os.
Variable R : run.
Variable d0 : list (option string).
Variable sh0 : list string.

Lemma run_inv_frame (g g' : gui) :
  after_calls g' = after_calls g
  /\ dequeued g' = dequeued g
  /\ parallel_done_count g' = parallel_done_count g
  /\ scrape_btn g' = scrape_btn g
  /\ stop_btn g' = stop_btn g
  /\ shell_calls g' = shell_calls g ->
  run_inv E R d0 sh0 g -> run_inv E R d0 sh0 g'.
Proof.
  intros (H1 & H2 & H3 & H4 & H5 & H6) (d & Hd & Hc & Hph).
  exists d. rewrite H2, H3. split; [exact Hd |]. split; [exact Hc |].
  destruct Hph as [ls Hs Ha Hb Hsh | ls Hs Ha Hb Hsh | Hs Hn Ha Hb Hsh
                  | Hs Ha Hb Hst Hsh].
  - apply (Polling E R sh0 d g' ls); congruence.
  - apply (Completed E R sh0 d g' ls); congruence.
  - apply ScriptRun; congruence.
  - apply Finished; congruence.
Qed.

Lemma run_done_script_async_eq (g : gui) :
  nonblank (done_script R) = true ->
  run_done_script_async E (done_script R) (out_dir R) g
  = (with_shell_calls (shell_calls g ++ [script_cmd E R]) g, Ret tt).
Proof.
  intros H. unfold run_done_script_async. rewrite H. cbn [negb].
  unfold UI.try_pass, shell_run, script_cmd.
  destruct (shell_raises E
              (Py.replace "{out_dir}" (abspath E (out_dir R))
                 (Py.strip (done_script R)))); reflexivity.
Qed.

Lemma run_inv_callback (g : gui) (cb : callback) (cs : list callback) :
  after_calls g = cb :: cs ->
  run_inv E R d0 sh0 g ->
  run_inv E R d0 sh0 (fst (run_callback E R cb (with_after cs g))).
Proof.
  intros Hac (d & Hd & Hc & Hph).
  destruct Hph as [ls Hs Ha Hb Hsh | ls Hs Ha Hb Hsh | Hs Hn Ha Hb Hsh
                  | Hs Ha Hb Hst Hsh].
  - (* polling *)
    rewrite Hac in Ha. destruct ls as [| l ls]; cbn [map app] in Ha.
    + injection Ha as -> ->. cbn [run_callback]. unfold poll_queue_parallel.
      destruct (poll_loop_parallel_spec (num_urls R) (output_queue g)
                  (with_after [] g) eq_refl)
        as (taken & rest & Hsplit & Heq & Hle & Hrest).
      { change (parallel_done_count (with_after [] g))
          with (parallel_done_count g). rewrite Hc. exact Hs. }
      change (output_queue (with_after [] g)) with (output_queue g).
      rewrite Heq. clear Heq.
      change (parallel_done_count (with_after [] g))
        with (parallel_done_count g) in *.
      change (parallel_done_count (with_done_count ?c _)) with c.
      rewrite Hc in *. rewrite <- sentinels_app in *.
      exists (d ++ taken)%list.
      destruct (sentinels (d ++ taken) >=? num_urls R) eqn:Hge;
        rewrite Z.geb_leb in Hge.
      * apply Z.leb_le in Hge.
        destruct (nonblank (done_script R)) eqn:Hn; cbn [fst];
          (split; [cbn; rewrite Hd, <- app_assoc; reflexivity |]);
          (split; [reflexivity |]);
          (apply (Completed E R sh0 _ _ (not_None taken));
           [ lia
           | unfold completion_calls; rewrite Hn; cbn; rewrite <- ?app_assoc;
             reflexivity
           | exact Hb
           | exact Hsh ]).
      * apply Z.leb_gt in Hge.
        split; [cbn; rewrite Hd, <- app_assoc; reflexivity |].
        split; [reflexivity |].
        apply (Polling E R sh0 _ _ (not_None taken));
          [exact Hge | reflexivity | exact Hb | exact Hsh].
    + injection Ha as -> ->. exists d. cbn [run_callback].
      split; [exact Hd |]. split; [exact Hc |].
      apply (Polling E R sh0 d _ ls); [exact Hs | reflexivity | exact Hb | exact Hsh].
  - (* completed, callbacks pending *)
    rewrite Hac in Ha. destruct ls as [| l ls]; cbn [map app] in Ha.
    + unfold completion_calls in Ha. exists d.
      destruct (nonblank (done_script R)) eqn:Hn; cbn [app] in Ha;
        injection Ha as -> ->.
      * cbn [run_callback]. rewrite (run_done_script_async_eq _ Hn).
        split; [exact Hd |]. split; [exact Hc |].
        apply ScriptRun; [exact Hs | exact Hn | reflexivity | exact Hb |].
        cbn. rewrite Hsh. reflexivity.
      * cbn [run_callback]. split; [exact Hd |]. split; [exact Hc |].
        apply Finished; [exact Hs | reflexivity | reflexivity | reflexivity |].
        rewrite Hn, app_nil_r. exact Hsh.
    + injection Ha as -> ->. exists d. cbn [run_callback].
      split; [exact Hd |]. split; [exact Hc |].
      apply (Completed E R sh0 d _ ls);
        [exact Hs | reflexivity | exact Hb | exact Hsh].
  - (* the script has run *)
    rewrite Hac in Ha. injection Ha as -> ->. exists d. cbn [run_callback].
    split; [exact Hd |]. split; [exact Hc |].
    apply Finished; [exact Hs | reflexivity | reflexivity | reflexivity |].
    rewrite Hn. exact Hsh.
  - rewrite Hac in Ha. discriminate Ha.
Qed.

Lemma run_inv_step (s s' : sys) :
  step E R s s' -> run_inv E R d0 sh0 (ui_st s) -> run_inv E R d0 sh0 (ui_st s').
Proof.
  intros Hstep Hinv. destruct Hstep as [g ts1 o rest ts2 | g ts cb cs Hac | g ts];
    cbn [ui_st] in *.
  - apply (run_inv_frame g); [apply apply_op_frame | exact Hinv].
  - apply run_inv_callback; assumption.
  - apply (run_inv_frame g); [apply do_stop_frame | exact Hinv].
Qed.

Lemma run_inv_steps (s s' : sys) :
  steps E R s s' -> run_inv E R d0 sh0 (ui_st s) -> run_inv E R d0 sh0 (ui_st s').
Proof.
  induction 1 as [s | s s' s'' Hsteps IH Hstep]; intros Hinv; [exact Hinv |].
  apply (run_inv_step s' s'' Hstep). apply IH. exact Hinv.
Qed.

End ParallelRun.

(** ** Launching a parallel run *)

Lemma run_parallel_urls (w : widgets) :
  run_parallel w = true -> 1 < Z.of_nat (List.length (urls w)) /\ urls w <> [].
Proof.
  unfold run_parallel. intros H. apply andb_prop in H. destruct H as [_ H].
  apply Z.ltb_lt in H. split; [exact H |].
  intros Hnil. rewrite Hnil in H. cbn in H. lia.
Qed.

Lemma run_scrape_parallel (E : os) (w : widgets) (g : gui) :
  selected_types (type_pdf_var w) (type_text_var w) (type_images_var w) <> [] ->
  run_parallel w = true ->
  exists common g',
    common_args w = Some common
    /\ run_scrape E w g = (g', Ret (parallel_workers E w common, Some (run_of w)))
    /\ after_calls g' = CbPollParallel :: after_calls g
    /\ parallel_done_count g' = 0
    /\ scrape_btn g' = false
    /\ dequeued g' = dequeued g
    /\ shell_calls g' = shell_calls g.
Proof.
  intros Ht Hp. destruct (run_parallel_urls w Hp) as [_ Hu].
  destruct (common_args_total w) as [common Hc].
  exists common. unfold run_scrape, launch_of.
  rewrite Hc, Hp, (truthy_nonempty _ Hu), (truthy_nonempty _ Ht).
  cbn [negb]. eexists. split; [reflexivity |].
  split; [reflexivity |]. repeat split.
Qed.

Lemma run_inv_launch (E : os) (w : widgets) (g g' : gui) :
  run_parallel w = true ->
  after_calls g = [] ->
  after_calls g' = CbPollParallel :: after_calls g ->
  parallel_done_count g' = 0 ->
  scrape_btn g' = false ->
  dequeued g' = dequeued g ->
  shell_calls g' = shell_calls g ->
  run_inv E (run_of w) (dequeued g) (shell_calls g) g'.
Proof.
  intros Hp Hac Hac' Hc Hb Hd Hsh. exists [].
  split; [rewrite app_nil_r; exact Hd |]. split; [exact Hc |].
  apply (Polling E (run_of w) _ _ g' []).
  - change (sentinels []) with 0. cbn [num_urls run_of].
    destruct (run_parallel_urls w Hp). lia.
  - rewrite Hac', Hac. reflexivity.
  - exact Hb.
  - exact Hsh.
Qed.


Lemma length_enumerate_from {A} (l : list A) (k : Z) :
  List.length (enumerate_from k l) = List.length l.
Proof.
  revert k. induction l as [| x l IH]; intros k; cbn; [reflexivity |].
  rewrite IH. reflexivity.
Qed.


Lemma parallel_workers_length (E : os) (w : widgets) (common : list string) :
  List.length (parallel_workers E w common) = List.length (urls w).
Proof.
  unfold parallel_workers, enumerate.
  rewrite !length_map. apply length_enumerate_from.
Qed.

Lemma worker_lines_prefix (prefix : string) (r : popen_result) (ev : string) :
  In ev (worker_lines prefix r) -> exists rest, ev = prefix ++ rest.
Proof.
  destruct r as [e | p out]; cbn [worker_lines]; intros H.
  - destruct H as [<- | []]. eexists. reflexivity.
  - apply in_app_or in H. destruct H as [H | H].
    + apply in_map_iff in H. destruct H as (x & <- & _). eexists. reflexivity.
    + destruct (read_error out); [| destruct H].
      destruct H as [<- | []]. eexists. reflexivity.
Qed.

Lemma parallel_worker_labels (E : os) (n idx : Z) (cmd : list string) (ev : string) :
  In (Some ev) (puts (fst (parallel_worker E n idx cmd))) ->
  exists rest, ev = label idx n ++ rest.
Proof.
  rewrite parallel_worker_puts. intros H. apply in_app_or in H.
  destruct H as [H | [H | []]]; [| discriminate H].
  apply in_map_iff in H. destruct H as (x & Hx & Hin). injection Hx as ->.
  destruct (worker_lines_prefix _ _ _ Hin) as [rest ->].
  exists rest. reflexivity.
Qed.



(** ** A schedule that completes a parallel run *)

Lemma steps_trans (E : os) (R : run) (s1 s2 s3 : sys) :
  steps E R s1 s2 -> steps E R s2 s3 -> steps E R s1 s3.
Proof.
  intros H12 H23. induction H23 as [s | s s' s'' H IH Hstep]; [exact H12 |].
  apply (steps_snoc E R s1 s' s''); [apply IH; exact H12 | exact Hstep].
Qed.

Lemma steps_one (E : os) (R : run) (s s' : sys) : step E R s s' -> steps E R s s'.
Proof. intros H. apply (steps_snoc E R s s s'); [apply steps_refl | exact H]. Qed.

(** One worker runs to its end. *)
Lemma steps_thread (E : os) (R : run) (t : list op) (g : gui)
    (ts1 ts2 : list (list op)) :
  steps E R {| ui_st := g; threads := (ts1 ++ t :: ts2)%list |}
            {| ui_st := apply_ops t g; threads := (ts1 ++ [] :: ts2)%list |}.
Proof.
  revert g. induction t as [| o t IH]; intros g; [apply steps_refl |].
  apply (steps_trans E R _ {| ui_st := apply_op o g; threads := (ts1 ++ t :: ts2)%list |}).
  - apply steps_one. apply step_thread.
  - apply IH.
Qed.

(** All workers run to their ends, one after the other. *)
Lemma steps_all_threads (E : os) (R : run) (ts done : list (list op)) (g : gui) :
  steps E R {| ui_st := g; threads := (done ++ ts)%list |}
            {| ui_st := apply_ops (List.concat ts) g;
               threads := (done ++ map (fun _ => []) ts)%list |}.
Proof.
  revert g done. induction ts as [| t ts IH]; intros g done; [apply steps_refl |].
  cbn [List.concat map]. rewrite apply_ops_app.
  apply (steps_trans E R _ {| ui_st := apply_ops t g;
                              threads := (done ++ [] :: ts)%list |}).
  - apply steps_thread.
  - specialize (IH (apply_ops t g) (done ++ [[]])%list).
    rewrite <- !app_assoc in IH. exact IH.
Qed.

Lemma puts_concat_sentinels (ts : list (list op)) :
  (forall t, In t ts -> sentinels (puts t) = 1) ->
  sentinels (puts (List.concat ts)) = Z.of_nat (List.length ts).
Proof.
  induction ts as [| t ts IH]; intros H; [reflexivity |].
  cbn [List.concat List.length]. rewrite puts_app, sentinels_app.
  rewrite (H t (or_introl eq_refl)), IH by (intros t' Ht'; apply H; right; exact Ht').
  lia.
Qed.

(** The scheduled callbacks of a completed run are run one by one: the
    lines reach the log, the done script runs, the buttons are reset. *)
Lemma steps_drain (E : os) (R : run) (ts : list (list op)) (ls : list string)
    (g : gui) :
  after_calls g = (map CbLine ls ++ completion_calls R)%list ->
  exists g',
    steps E R {| ui_st := g; threads := ts |} {| ui_st := g'; threads := ts |}
    /\ after_calls g' = []
    /\ scrape_btn g' = true
    /\ stop_btn g' = false
    /\ dequeued g' = dequeued g
    /\ shell_calls g'
       = (shell_calls g
          ++ if nonblank (done_script R) then [script_cmd E R] else [])%list.
Proof.
  revert g. induction ls as [| l ls IH]; intros g Hac.
  - cbn [map app] in Hac. unfold completion_calls in Hac.
    destruct (nonblank (done_script R)) eqn:Hn; cbn [app] in Hac.
    + eexists. split.
      * eapply steps_snoc; [apply steps_one; apply (step_callback E R g ts _ _ Hac) |].
        apply (step_callback E R _ ts CbButtons []).
        cbn [run_callback]. rewrite (run_done_script_async_eq E R _ Hn).
        reflexivity.
      * cbn [run_callback]. rewrite (run_done_script_async_eq E R _ Hn).
        repeat split.
    + eexists. split.
      * apply steps_one. apply (step_callback E R g ts _ _ Hac).
      * cbn [run_callback]. repeat split. cbn. rewrite app_nil_r. reflexivity.
  - cbn [map app] in Hac.
    destruct (IH (fst (run_callback E R (CbLine l)
                         (with_after (map CbLine ls ++ completion_calls R) g))))
      as (g' & Hsteps & H1 & H2 & H3 & H4 & H5); [reflexivity |].
    exists g'. split.
    + eapply steps_trans; [| exact Hsteps].
      apply steps_one. apply (step_callback E R g ts _ _ Hac).
    + repeat split; assumption.
Qed.

(** A poll that finds the missing sentinels in the queue completes the
    run. *)
Lemma poll_queue_parallel_completes (R : run) (g : gui) :
  after_calls g = [] ->
  parallel_done_count g < num_urls R ->
  num_urls R <= parallel_done_count g + sentinels (output_queue g) ->
  exists ls,
    after_calls (fst (poll_queue_parallel R g))
    = (map CbLine ls ++ completion_calls R)%list
    /\ shell_calls (fst (poll_queue_parallel R g)) = shell_calls g.
Proof.
  intros Hac Hlt Hge. unfold poll_queue_parallel.
  destruct (poll_loop_parallel_spec (num_urls R) (output_queue g) g eq_refl Hlt)
    as (taken & rest & Hsplit & Heq & Hle & Hrest).
  rewrite Heq. clear Heq.
  change (parallel_done_count (with_done_count ?c _)) with c.
  assert (Hn : parallel_done_count g + sentinels taken = num_urls R).
  { destruct (Z.eq_dec (parallel_done_count g + sentinels taken) (num_urls R))
      as [Heq | Hne]; [exact Heq |].
    assert (Hr : rest = []) by (apply Hrest; lia).
    rewrite Hr, app_nil_r in Hsplit. rewrite Hsplit in Hge. lia. }
  rewrite Hn.
  assert (Hrefl : (num_urls R >=? num_urls R) = true)
    by (rewrite Z.geb_leb; apply Z.leb_refl).
  rewrite Hrefl. exists (not_None taken). unfold completion_calls.
  destruct (nonblank (done_script R)); cbn; rewrite Hac; cbn;
    rewrite <- ?app_assoc; split; reflexivity.
Qed.

(** The schedule in which every worker runs to its end and the UI thread
    then runs its callbacks until none is left completes the run: the
    buttons are reset and the done script, if configured, has run once. *)
Lemma parallel_run_can_complete (E : os) (w : widgets) (g : gui) :
  run_parallel w = true ->
  selected_types (type_pdf_var w) (type_text_var w) (type_images_var w) <> [] ->
  after_calls g = [] ->
  exists common g1 s,
    run_scrape E w g = (g1, Ret (parallel_workers E w common, Some (run_of w)))
    /\ steps E (run_of w)
         {| ui_st := g1; threads := map fst (parallel_workers E w common) |} s
    /\ after_calls (ui_st s) = []
    /\ scrape_btn (ui_st s) = true
    /\ stop_btn (ui_st s) = false
    /\ shell_calls (ui_st s)
       = (shell_calls g
          ++ if nonblank (done_script_of w)
             then [script_cmd E (run_of w)] else [])%list.
Proof.
  intros Hp Ht Hac.
  destruct (run_scrape_parallel E w g Ht Hp)
    as (common & g1 & Hc & Hrun & Hac1 & Hcnt & Hb & Hd & Hsh).
  set (R := run_of w). set (ts := map fst (parallel_workers E w common)).
  set (g2 := apply_ops (List.concat ts) g1).
  destruct (apply_ops_frame (List.concat ts) g1) as (F1 & F2 & F3 & F4 & F5 & F6).
  fold g2 in F1, F2, F3, F4, F5, F6.
  assert (Hq2 : num_urls R <= sentinels (output_queue g2)).
  { unfold g2. rewrite apply_ops_queue, sentinels_app.
    rewrite puts_concat_sentinels.
    - unfold ts. rewrite length_map, parallel_workers_length. cbn.
      pose proof (sentinels_nonneg (output_queue g1)). lia.
    - intros t Hin. unfold ts in Hin. apply in_map_iff in Hin.
      destruct Hin as (th & <- & Hth). unfold parallel_workers in Hth.
      apply in_map_iff in Hth. destruct Hth as (ic & <- & _).
      rewrite parallel_worker_puts, sentinels_app, sentinels_lines. reflexivity. }
  assert (Hac2 : after_calls g2 = [CbPollParallel])
    by (rewrite F1, Hac1, Hac; reflexivity).
  set (g3 := fst (run_callback E R CbPollParallel (with_after [] g2))).
  destruct (poll_queue_parallel_completes R (with_after [] g2)) as (ls & Hac3 & Hsh3).
  { reflexivity. }
  { change (parallel_done_count (with_after [] g2)) with (parallel_done_count g2).
    rewrite F3, Hcnt. destruct (run_parallel_urls w Hp). cbn. lia. }
  { change (parallel_done_count (with_after [] g2)) with (parallel_done_count g2).
    change (output_queue (with_after [] g2)) with (output_queue g2).
    rewrite F3, Hcnt. lia. }
  change (fst (poll_queue_parallel R (with_after [] g2))) with g3 in Hac3, Hsh3.
  destruct (steps_drain E R (map (fun _ => []) ts) ls g3 Hac3)
    as (g4 & Hsteps & H1 & H2 & H3 & H4 & H5).
  exists common, g1, {| ui_st := g4; threads := map (fun _ => []) ts |}.
  split; [exact Hrun |]. split.
  - apply (steps_trans E R _ {| ui_st := g2; threads := map (fun _ => []) ts |}).
    + apply (steps_all_threads E R ts [] g1).
    + apply (steps_trans E R _ {| ui_st := g3; threads := map (fun _ => []) ts |});
        [| exact Hsteps].
      apply steps_one. apply (step_callback E R g2 _ _ _ Hac2).
  - cbn [ui_st]. split; [exact H1 |]. split; [exact H2 |]. split; [exact H3 |].
    rewrite H5, Hsh3. change (shell_calls (with_after [] g2)) with (shell_calls g2).
    rewrite F6, Hsh. reflexivity.
Qed.

(** ** Completion of a parallel run *)



(** ** The done script *)

Lemma rstrip_idempotent (s : string) : Py.rstrip (Py.rstrip s) = Py.rstrip s.
Proof.
  induction s as [| c s IH]; [reflexivity |].
  cbn [Py.rstrip]. destruct (Py.rstrip s) as [| a r] eqn:Hr.
  - destruct (Py.isspace c) eqn:Hc; [reflexivity |].
    cbn [Py.rstrip]. rewrite Hc. reflexivity.
  - change (Py.rstrip (String c (String a r)))
      with (match Py.rstrip (String a r) with
            | EmptyString => if Py.isspace c then EmptyString else String c EmptyString
            | r' => String c r'
            end).
    rewrite IH. reflexivity.
Qed.

Lemma lstrip_head (s : string) :
  Py.lstrip s = EmptyString
  \/ exists c r, Py.lstrip s = String c r /\ Py.isspace c = false.
Proof.
  induction s as [| c s IH]; [left; reflexivity |].
  cbn [Py.lstrip]. destruct (Py.isspace c) eqn:Hc; [exact IH |].
  right. exists c, s. split; [reflexivity | exact Hc].
Qed.

Lemma rstrip_head (c : ascii) (r : string) :
  Py.isspace c = false -> exists r', Py.rstrip (String c r) = String c r'.
Proof.
  intros Hc. cbn [Py.rstrip]. destruct (Py.rstrip r).
  - rewrite Hc. eexists. reflexivity.
  - eexists. reflexivity.
Qed.

Lemma strip_idempotent (s : string) : Py.strip (Py.strip s) = Py.strip s.
Proof.
  unfold Py.strip. destruct (lstrip_head s) as [H | (c & r & H & Hc)]; rewrite H.
  - reflexivity.
  - destruct (rstrip_head c r Hc) as [r' Hr]. rewrite Hr.
    cbn [Py.lstrip]. rewrite Hc, <- Hr. apply rstrip_idempotent.
Qed.

Lemma filter_done_script_lines (ls : list string) :
  filter is_done_script (map CbLine ls) = [].
Proof. induction ls as [| l ls IH]; [reflexivity | exact IH]. Qed.

Lemma run_inv_script (E : os) (R : run) (d0 : list (option string))
    (sh0 : list string) (g : gui) :
  nonblank (done_script R) = true ->
  run_inv E R d0 sh0 g ->
  exists (d : list (option string)) (ran : bool),
    dequeued g = (d0 ++ d)%list
    /\ shell_calls g = (sh0 ++ if ran then [script_cmd E R] else [])%list
    /\ pending_scripts (after_calls g)
       = (if (sentinels d =? num_urls R) && negb ran then 1%nat else 0%nat)
    /\ (ran = true -> sentinels d = num_urls R)
    /\ (after_calls g = [] -> ran = true).
Proof.
  intros Hn (d & Hd & Hc & Hph). exists d. unfold pending_scripts.
  destruct Hph as [ls Hs Ha Hb Hsh | ls Hs Ha Hb Hsh | Hs _ Ha Hb Hsh
                  | Hs Ha Hb Hst Hsh].
  - exists false. split; [exact Hd |].
    split; [rewrite app_nil_r; exact Hsh |]. split; [| split].
    + rewrite Ha, filter_app, filter_done_script_lines.
      assert (Hne : (sentinels d =? num_urls R) = false) by (apply Z.eqb_neq; lia).
      rewrite Hne. reflexivity.
    + discriminate.
    + intros H. rewrite H in Ha. destruct ls; discriminate Ha.
  - exists false. split; [exact Hd |].
    split; [rewrite app_nil_r; exact Hsh |]. split; [| split].
    + rewrite Ha, filter_app, filter_done_script_lines.
      unfold completion_calls. rewrite Hn, Hs, Z.eqb_refl. reflexivity.
    + discriminate.
    + intros H. rewrite H in Ha. unfold completion_calls in Ha.
      rewrite Hn in Ha. destruct ls; discriminate Ha.
  - exists true. split; [exact Hd |]. split; [exact Hsh |]. split; [| split].
    + rewrite Ha, andb_false_r. reflexivity.
    + intros _. exact Hs.
    + reflexivity.
  - exists true. split; [exact Hd |].
    split; [rewrite Hn in Hsh; exact Hsh |]. split; [| split].
    + rewrite Ha, andb_false_r. reflexivity.
    + intros _. exact Hs.
    + reflexivity.
Qed.

Lemma build_cmd_with_done_script (w : widgets) (common us : list string) :
  nonblank (done_script_of w) = true ->
  build_cmd w common us true
  = (build_cmd w common us false ++ ["--done-script"; done_script_of w])%list.
Proof. intros H. unfold build_cmd. rewrite H. reflexivity. Qed.

Lemma build_cmd_per_url (w : widgets) (common : list string) (u : string) :
  build_cmd w common [u] false
  = (common ++ ["--url"; u; "--out-dir"; out_dir_of w; "--delay"; delay_of w]
     ++ types_args_of w)%list.
Proof. reflexivity. Qed.

Lemma parallel_workers_spawn (E : os) (w : widgets) (common : list string)
    (t : thread unit) :
  In t (parallel_workers E w common) ->
  exists u, spawns (fst t) = [build_cmd w common [u] false].
Proof.
  unfold parallel_workers. intros H. apply in_map_iff in H.
  destruct H as (ic & <- & Hic). apply in_map_iff in Hic.
  destruct Hic as (iu & <- & _). exists (snd iu). apply parallel_worker_spawns.
Qed.

Lemma script_cmd_of (E : os) (w : widgets) :
  script_cmd E (run_of w)
  = Py.replace "{out_dir}" (abspath E (out_dir_of w)) (done_script_of w).
Proof.
  unfold script_cmd. cbn [run_of done_script out_dir].
  unfold done_script_of. rewrite strip_idempotent. reflexivity.
Qed.

(** C4: with a non-blank done-script template, the one command of the
    sequential path ends with [--done-script] and the template.  The
    commands of the parallel path carry no done-script argument; in every
    interleaving of a parallel run the script is scheduled only once [N]
    sentinels have been taken, it is scheduled or has run exactly once from
    then on, never twice, and it has run once when the callbacks have all
    run, which the run can reach.  The command is the template with
    [{out_dir}] replaced by the absolute output directory, and running it
    returns normally, with the same state, whether or not the shell
    raises. *)
Theorem done_script_once (E : os) (w : widgets) (g : gui) :
  nonblank (done_script_of w) = true ->
  selected_types (type_pdf_var w) (type_text_var w) (type_images_var w) <> [] ->
  after_calls g = [] ->
  exists common,
    common_args w = Some common
    /\ (urls w <> [] ->
        run_parallel w = false ->
        exists g1,
          run_scrape E w g
          = (g1, Ret ([worker E (build_cmd w common (urls w) true)],
                      Some (run_of w)))
          /\ build_cmd w common (urls w) true
             = (build_cmd w common (urls w) false
                ++ ["--done-script"; done_script_of w])%list)
    /\ (forall u,
          build_cmd w common [u] false
          = (common ++ ["--url"; u; "--out-dir"; out_dir_of w; "--delay"; delay_of w]
             ++ types_args_of w)%list)
    /\ (run_parallel w = true ->
        exists g1,
          run_scrape E w g
          = (g1, Ret (parallel_workers E w common, Some (run_of w)))
          /\ (forall t,
                In t (parallel_workers E w common) ->
                exists u, spawns (fst t) = [build_cmd w common [u] false])
          /\ (forall s,
                steps E (run_of w)
                  {| ui_st := g1;
                     threads := map fst (parallel_workers E w common) |} s ->
                exists (d : list (option string)) (ran : bool),
                  dequeued (ui_st s) = (dequeued g ++ d)%list
                  /\ shell_calls (ui_st s)
                     = (shell_calls g
                        ++ if ran then [script_cmd E (run_of w)] else [])%list
                  /\ pending_scripts (after_calls (ui_st s))
                     = (if (sentinels d =? Z.of_nat (List.length (urls w)))
                           && negb ran
                        then 1%nat else 0%nat)
                  /\ (ran = true -> sentinels d = Z.of_nat (List.length (urls w)))
                  /\ (after_calls (ui_st s) = [] -> ran = true))
          /\ exists s,
              steps E (run_of w)
                {| ui_st := g1;
                   threads := map fst (parallel_workers E w common) |} s
              /\ after_calls (ui_st s) = []
              /\ shell_calls (ui_st s)
                 = (shell_calls g ++ [script_cmd E (run_of w)])%list)
    /\ script_cmd E (run_of w)
       = Py.replace "{out_dir}" (abspath E (out_dir_of w)) (done_script_of w)
    /\ forall g',
        run_done_script_async E (done_script_of w) (out_dir_of w) g'
        = (with_shell_calls (shell_calls g' ++ [script_cmd E (run_of w)]) g',
           Ret tt).
Proof.
  intros Hn Ht Hac. destruct (common_args_total w) as [common Hc].
  exists common. split; [exact Hc |]. split; [| split; [| split; [| split]]].
  - intros Hu Hp.
    destruct (run_scrape_sequential E w g Hu Ht Hp)
      as (common' & g1 & Hc' & Hrun & _).
    rewrite Hc in Hc'. injection Hc' as <-.
    exists g1. split; [exact Hrun |].
    apply build_cmd_with_done_script. exact Hn.
  - intros u. apply build_cmd_per_url.
  - intros Hp.
    destruct (run_scrape_parallel E w g Ht Hp)
      as (common' & g1 & Hc' & Hrun & Hac1 & Hcnt & Hb & Hd & Hsh).
    rewrite Hc in Hc'. injection Hc' as <-.
    exists g1. split; [exact Hrun |].
    split; [apply parallel_workers_spawn |]. split.
    + intros s Hsteps.
      apply (run_inv_script E (run_of w) (dequeued g) (shell_calls g) _ Hn).
      apply (run_inv_steps E (run_of w) _ _ _ _ Hsteps). cbn [ui_st].
      apply run_inv_launch; assumption.
    + destruct (parallel_run_can_complete E w g Hp Ht Hac)
        as (common' & g1' & s & Hrun' & Hsteps & Ha & _ & _ & Hs).
      rewrite Hrun in Hrun'. injection Hrun' as <- Hw.
      assert (Hcm : parallel_workers E w common' = parallel_workers E w common)
        by (symmetry; exact Hw).
      rewrite Hcm in Hsteps. exists s. split; [exact Hsteps |].
      split; [exact Ha |]. rewrite Hs, Hn. reflexivity.
  - apply script_cmd_of.
  - intros g'. apply (run_done_script_async_eq E (run_of w) g' Hn).
Qed.

Lemma done_script_once_witness :
  nonblank (done_script_of sample_widgets) = true
  /\ after_calls fresh_gui = []
  /\ script_cmd sample_os (run_of sample_widgets) = "notify /home/u/out"
  /\ shell_raises sample_os "notify /home/u/out" = Some "OSError"
  /\ run_done_script_async sample_os (done_script_of sample_widgets)
       (out_dir_of sample_widgets) fresh_gui
     = (with_shell_calls ["notify /home/u/out"] fresh_gui, Ret tt).
Proof.
  split; [reflexivity |]. split; [reflexivity |].
  split; [reflexivity |]. split; [reflexivity |].
  destruct (done_script_once sample_os sample_widgets fresh_gui
              eq_refl ltac:(discriminate) eq_refl)
    as (common & _ & _ & _ & _ & _ & H).
  exact (H fresh_gui).
Defined.

(** ** The size arguments in the command *)

(** C1: for every non-empty selection of the size checkboxes the command
    builder emits the pair of the union interval: [lo] the smallest
    selected lower bound, [hi] the largest selected upper bound or
    unbounded when Large is selected, the minimum left out when it is 0 and
    the maximum when it is unbounded.  The pair follows the interpreter
    prefix in [common_args], hence in every command that [build_cmd]
    returns, before [--url]; in [web_scraper/gui.py] it follows the
    [--types] arguments of the command that the worker runs.  Medium only
    gives ["100k"] and ["1m"]; Small with Large gives no argument, and so
    does the empty selection. *)
Theorem image_size_args_union :
  (forall small medium large,
      Spec.selection small medium large <> [] ->
      exists lo hi,
        Spec.smallest_lower (Spec.selection small medium large) lo
        /\ Spec.largest_upper (Spec.selection small medium large) hi
        /\ _image_size_args small medium large = Some (Spec.size_args lo hi)
        /\ web_scraper_size_args small medium large = Some (Spec.size_args lo hi)
        /\ (forall w us d,
               size_small_var w = small ->
               size_medium_var w = medium ->
               size_large_var w = large ->
               exists common rest,
                 common_args w = Some common
                 /\ common_args_with w [] = (base_cmd w ++ rest)%list
                 /\ common = (base_cmd w ++ Spec.size_args lo hi ++ rest)%list
                 /\ exists tail,
                     build_cmd w common us d
                     = (base_cmd w ++ Spec.size_args lo hi ++ rest
                        ++ "--url" :: us ++ tail)%list)
        /\ (forall E w g,
               WebScraper.size_small_var w = small ->
               WebScraper.size_medium_var w = medium ->
               WebScraper.size_large_var w = large ->
               nonblank (WebScraper.url_of w) = true ->
               selected_types (WebScraper.type_pdf_var w) (WebScraper.type_text_var w)
                              (WebScraper.type_images_var w) <> [] ->
               exists g',
                 WebScraper.run_scrape E w g
                 = (g', Ret [WebScraper.worker E
                               (WebScraper.cmd_head w
                                ++ types_args
                                     (selected_types (WebScraper.type_pdf_var w)
                                        (WebScraper.type_text_var w)
                                        (WebScraper.type_images_var w))
                                ++ Spec.size_args lo hi
                                ++ WebScraper.crawl_args w)%list])))
  /\ _image_size_args false true false
     = Some ["--min-image-size"; "100k"; "--max-image-size"; "1m"]
  /\ _image_size_args true false true = Some []
  /\ _image_size_args false false false = Some [].
Proof.
  split; [| split; [| split]; reflexivity].
  intros small medium large Hne.
  destruct (proj1 image_size_args_rule small medium large Hne)
    as (lo & hi & Hlo & Hhi & Hs & Hw).
  exists lo, hi. split; [exact Hlo |]. split; [exact Hhi |].
  split; [exact Hs |]. split; [exact Hw |]. split.
  - intros w us d <- <- <-.
    eexists _, _. split.
    + unfold common_args. rewrite Hs. cbn [option_map]. reflexivity.
    + split; [unfold common_args_with; cbn [app]; reflexivity |].
      split; [reflexivity |].
      destruct (build_cmd_shape w (common_args_with w (Spec.size_args lo hi)) us d)
        as (tail & Hb & _).
      eexists. rewrite Hb. unfold common_args_with.
      rewrite <- !app_assoc. cbn [app]. reflexivity.
  - intros E w g <- <- <- Hu Hsel.
    unfold WebScraper.run_scrape.
    rewrite Hu, (web_scraper_types_args_same _ Hsel), Hw.
    eexists. reflexivity.
Qed.

Lemma image_size_args_union_witness :
  Spec.selection false true true <> []
  /\ exists common,
      common_args sample_widgets = Some common
      /\ build_cmd sample_widgets common ["http://a"] false
         = ["python"; "-m"; "strigil.cli";
            "--min-image-size"; "100k"; "--js";
            "--crawl"; "--max-depth"; "2"; "--workers"; "4"; "--same-domain-only";
            "--url"; "http://a"; "--out-dir"; "out"; "--delay"; "0.5";
            "--types"; "pdf"; "images"].
Proof.
  split; [discriminate |].
  destruct (proj1 image_size_args_union false true true ltac:(discriminate))
    as (lo & hi & _ & _ & _ & _ & H & _).
  destruct (H sample_widgets ["http://a"] false eq_refl eq_refl eq_refl)
    as (common & rest & Hc & _ & _ & _).
  exists common. split; [exact Hc |].
  vm_compute in Hc. injection Hc as <-. reflexivity.
Defined.

(** * Further properties of the code *)

(** ** Validation in [run_scrape] *)


(** ** Which size arguments appear *)

(** X2: [_image_size_args] never raises; [--min-image-size] appears exactly
    when Small is unchecked and something is checked, [--max-image-size]
    exactly when Large is unchecked and something is checked.  So with
    Small and Large both checked the Medium checkbox has no effect: the
    collapsed interval covers the medium sizes either way. *)
Theorem image_size_args_flags (small medium large : bool) :
  exists args,
    _image_size_args small medium large = Some args
    /\ (In "--min-image-size" args <-> small = false /\ medium || large = true)
    /\ (In "--max-image-size" args <-> large = false /\ small || medium = true)
    /\ (small = true -> large = true ->
        _image_size_args small medium large = _image_size_args true true true).
Proof.
  destruct small, medium, large; eexists; (split; [reflexivity |]);
    cbn; repeat split; intros; try reflexivity; try discriminate;
    try (intuition discriminate); try tauto;
    intuition (try discriminate; try reflexivity).
Qed.

(** ** The stop handler *)

(** What [do_stop] leaves as it was, and what it changes. *)
Lemma do_stop_changes (E : os) (g : gui) :
  let g' := fst (do_stop E g) in
  snd (do_stop E g) = Ret tt
  /\ terminate_calls g'
     = (terminate_calls g ++ current_procs g
        ++ match current_proc g with Some p => [p] | None => [] end)%list
  /\ current_procs g' = []
  /\ state_var (status g') = "Stopped"
  /\ count_pdf (status g') = count_pdf (status g)
  /\ count_text (status g') = count_text (status g)
  /\ count_images (status g') = count_images (status g)
  /\ scrape_btn g' = scrape_btn g
  /\ stop_btn g' = stop_btn g
  /\ log_text g' = log_text g
  /\ after_calls g' = after_calls g.
Proof.
  cbv zeta. rewrite do_stop_eq.
  destruct g as [q cp cps st c lg sb tb ac dq tc sc].
  destruct cp; cbn; rewrite ?app_nil_r; repeat split.
Qed.

(** X3: [do_stop] never raises, whatever [terminate()] raises.  It asks
    every tracked parallel process to terminate, in order and once, then the
    registered sequential child if there is one; it empties the tracked
    list, sets the status to Stopped, and touches neither the buttons, the
    log, the scheduled callbacks nor the counters. *)
Theorem do_stop_effects (E : os) (g : gui) :
  let g' := fst (do_stop E g) in
  snd (do_stop E g) = Ret tt
  /\ terminate_calls g'
     = (terminate_calls g ++ current_procs g
        ++ match current_proc g with Some p => [p] | None => [] end)%list
  /\ current_procs g' = []
  /\ state_var (status g') = "Stopped"
  /\ count_pdf (status g') = count_pdf (status g)
  /\ count_text (status g') = count_text (status g)
  /\ count_images (status g') = count_images (status g)
  /\ scrape_btn g' = scrape_btn g
  /\ stop_btn g' = stop_btn g
  /\ log_text g' = log_text g
  /\ after_calls g' = after_calls g.
Proof. exact (do_stop_changes E g). Qed.

(** X4: once no sequential child is registered, as in a parallel run, a
    second [do_stop] changes nothing: it yields the state and result of the
    first. *)
Theorem do_stop_idempotent_unregistered (E : os) (g : gui) :
  current_proc g = None ->
  do_stop E (fst (do_stop E g)) = do_stop E g.
Proof. apply do_stop_twice_unregistered. Qed.

Lemma do_stop_idempotent_unregistered_witness :
  current_proc (with_current_procs [3%nat; 4%nat] fresh_gui) = None
  /\ do_stop sample_os
       (fst (do_stop sample_os (with_current_procs [3%nat; 4%nat] fresh_gui)))
     = do_stop sample_os (with_current_procs [3%nat; 4%nat] fresh_gui).
Proof.
  split; [reflexivity |].
  apply (do_stop_idempotent_unregistered sample_os
           (with_current_procs [3%nat; 4%nat] fresh_gui)).
  reflexivity.
Defined.

(** X5: Stop unblocks the sequential poll loop only through the registered
    child.  If a child is registered and the queue holds no sentinel, the
    poll after [do_stop] takes the queued lines, reports the run done and
    empties the queue, without any further action of the worker.  If no
    child is registered yet, [do_stop] puts nothing and terminates no
    sequential child, and the poll schedules itself again. *)
Theorem stop_unblocks_poll (E : os) (g : gui) (ls : list string) :
  output_queue g = map Some ls ->
  (forall p,
      current_proc g = Some p ->
      poll_queue (fst (do_stop E g))
      = (with_dequeued (dequeued g ++ map Some ls ++ [None])
           (with_queue []
              (with_after (after_calls g ++ map CbLine ls ++ [CbButtons])
                 (fst (do_stop E g)))), Ret tt))
  /\ (current_proc g = None ->
      output_queue (fst (do_stop E g)) = map Some ls
      /\ terminate_calls (fst (do_stop E g))
         = (terminate_calls g ++ current_procs g)%list
      /\ after_calls (fst (poll_queue (fst (do_stop E g))))
         = (after_calls g ++ map CbLine ls ++ [CbPoll])%list).
Proof.
  intros Hq. split.
  - intros p Hp.
    assert (H : output_queue (fst (do_stop E g)) = (map Some ls ++ None :: [])%list)
      by (rewrite do_stop_queue, Hp, Hq; reflexivity).
    rewrite (poll_queue_sees_sentinel ls [] _ H).
    destruct (do_stop_frame E g) as (Ha & Hd & _).
    rewrite Ha, Hd. reflexivity.
  - intros Hp.
    assert (H : output_queue (fst (do_stop E g)) = map Some ls)
      by (rewrite do_stop_queue, Hp, Hq, app_nil_r; reflexivity).
    split; [exact H |]. split.
    + destruct (do_stop_changes E g) as (_ & Ht & _). rewrite Ht, Hp, app_nil_r.
      reflexivity.
    + unfold poll_queue. rewrite H, poll_loop_no_sentinel.
      destruct (do_stop_frame E g) as (Ha & _).
      cbn [fst after with_after with_dequeued with_queue after_calls].
      rewrite Ha, <- app_assoc. reflexivity.
Qed.

Lemma stop_unblocks_poll_witness :
  let g := with_current_proc (Some 7%nat) (with_queue [Some "a"] fresh_gui) in
  output_queue g = map Some ["a"]
  /\ after_calls (fst (poll_queue (fst (do_stop sample_os g))))
     = [CbLine "a"; CbButtons].
Proof.
  cbv zeta. split; [reflexivity |].
  rewrite (proj1 (stop_unblocks_poll sample_os
                    (with_current_proc (Some 7%nat) (with_queue [Some "a"] fresh_gui))
                    ["a"] eq_refl) 7%nat eq_refl).
  reflexivity.
Defined.

(** ** Decimal renderings *)

Lemma string_of_uint_digits (d : Decimal.uint) :
  all_chars Py.isdigit (NilEmpty.string_of_uint d) = true.
Proof. induction d; cbn; try reflexivity; exact IHd. Qed.

Lemma nilzero_string_of_uint_digits (d : Decimal.uint) :
  all_chars Py.isdigit (NilZero.string_of_uint d) = true.
Proof. destruct d; try reflexivity; apply (string_of_uint_digits (_ d)). Qed.

Lemma all_chars_weaken (P Q : ascii -> bool) (s : string) :
  (forall c, P c = true -> Q c = true) ->
  all_chars P s = true -> all_chars Q s = true.
Proof.
  intros H. induction s as [| c s IH]; cbn; [reflexivity |].
  intros Hs. apply andb_prop in Hs. destruct Hs as [Hc Hs].
  rewrite (H c Hc), (IH Hs). reflexivity.
Qed.

Lemma str_decimal_chars (n : Z) : all_chars is_decimal_char (Py.str n) = true.
Proof.
  unfold Py.str. destruct (Z.to_int n) as [d | d]; cbn [NilZero.string_of_int].
  - apply (all_chars_weaken Py.isdigit); [| apply nilzero_string_of_uint_digits].
    intros c Hc. unfold is_decimal_char. rewrite Hc. reflexivity.
  - cbn [all_chars]. apply andb_true_intro. split; [reflexivity |].
    apply (all_chars_weaken Py.isdigit); [| apply nilzero_string_of_uint_digits].
    intros c Hc. unfold is_decimal_char. rewrite Hc. reflexivity.
Qed.

Lemma str_not_flag (n : Z) (f : string) :
  all_chars is_decimal_char f = false -> Py.str n <> f.
Proof.
  intros Hf Heq. rewrite <- Heq, str_decimal_chars in Hf. discriminate Hf.
Qed.

Lemma str_injective (a b : Z) : Py.str a = Py.str b -> a = b.
Proof.
  unfold Py.str. intros H. apply DecimalZ.to_int_inj.
  assert (Hnn : forall n, Z.to_int n <> Decimal.Pos Decimal.Nil
                          /\ Z.to_int n <> Decimal.Neg Decimal.Nil).
  { intros n. destruct n as [| p | p]; cbn; split; try discriminate;
      intros Hp; injection Hp as Hp;
      apply (DecimalPos.Unsigned.to_uint_nonnil p Hp). }
  assert (Ha := NilZero.isi (Z.to_int a) (proj1 (Hnn a)) (proj2 (Hnn a))).
  assert (Hb := NilZero.isi (Z.to_int b) (proj1 (Hnn b)) (proj2 (Hnn b))).
  rewrite H, Hb in Ha. injection Ha as Ha. symmetry. exact Ha.
Qed.

(** ** The labels of the parallel workers *)

Lemma string_app_assoc (a b c : string) : (a ++ b) ++ c = a ++ (b ++ c).
Proof. induction a as [| x a IH]; cbn; [reflexivity | rewrite IH; reflexivity]. Qed.

Lemma string_app_inv_head (a x y : string) : a ++ x = a ++ y -> x = y.
Proof.
  induction a as [| c a IH]; cbn; intros H; [exact H |].
  injection H as H. apply IH. exact H.
Qed.

(** Two decimal renderings followed by the same separator, which is no
    decimal character, can be told apart from what follows them. *)
Lemma decimal_prefix_split (sep : ascii) (a b x y : string) :
  is_decimal_char sep = false ->
  all_chars is_decimal_char a = true ->
  all_chars is_decimal_char b = true ->
  a ++ String sep x = b ++ String sep y ->
  a = b /\ x = y.
Proof.
  intros Hsep. revert b. induction a as [| c a IH]; intros b Ha Hb H.
  - destruct b as [| d b]; cbn in H.
    + injection H as H. split; [reflexivity | exact H].
    + injection H as Hc _. cbn in Hb. rewrite <- Hc, Hsep in Hb. discriminate Hb.
  - destruct b as [| d b]; cbn in H.
    + injection H as Hc _. cbn in Ha. rewrite Hc, Hsep in Ha. discriminate Ha.
    + injection H as -> H. cbn in Ha, Hb.
      apply andb_prop in Ha. apply andb_prop in Hb.
      destruct (IH b (proj2 Ha) (proj2 Hb) H) as [-> ->]. split; reflexivity.
Qed.

(** X6: the label of a parallel worker is uniquely decodable: a labelled
    line determines the worker index, the URL count and the line that the
    child wrote.  So no line put by one worker of a run is a line put by
    another. *)
Theorem label_decodable :
  (forall i j n m l1 l2,
      label i n ++ l1 = label j m ++ l2 -> i = j /\ n = m /\ l1 = l2)
  /\ forall E n i j cmd1 cmd2 line,
      In (Some line) (puts (fst (parallel_worker E n i cmd1))) ->
      In (Some line) (puts (fst (parallel_worker E n j cmd2))) ->
      i = j.
Proof.
  assert (Hdec : forall i j n m l1 l2,
             label i n ++ l1 = label j m ++ l2 -> i = j /\ n = m /\ l1 = l2).
  { intros i j n m l1 l2 H. unfold label in H.
    rewrite !string_app_assoc in H. cbn [append] in H. injection H as H.
    apply (decimal_prefix_split "/") in H;
      [| reflexivity | apply str_decimal_chars | apply str_decimal_chars].
    destruct H as [Hi H]. apply str_injective in Hi.
    apply (decimal_prefix_split "]") in H;
      [| reflexivity | apply str_decimal_chars | apply str_decimal_chars].
    destruct H as [Hn H]. apply str_injective in Hn.
    cbn [append] in H. injection H as H.
    split; [lia |]. split; assumption. }
  split; [exact Hdec |].
  intros E n i j cmd1 cmd2 line H1 H2.
  destruct (parallel_worker_labels E n i cmd1 line H1) as [r1 ->].
  destruct (parallel_worker_labels E n j cmd2 _ H2) as [r2 Hr].
  apply (Hdec i j n n r1 r2 Hr).
Qed.

Lemma label_decodable_witness :
  label 0 2 ++ "x" = label 0 2 ++ "x" /\ (0 = 0 /\ 2 = 2 /\ "x" = "x").
Proof.
  split; [reflexivity |].
  exact (proj1 label_decodable 0 0 2 2 "x" "x" eq_refl).
Defined.

(** ** The crawl arguments of [common_args] *)

Lemma in_common_args_crawl (w : widgets) (sz : list string) (f : string) :
  In f crawl_flags ->
  ~ In f (base_cmd w) ->
  ~ In f sz ->
  Py.strip (flaresolverr_url_var w) <> f ->
  In f (common_args_with w sz)
  <-> In f (if crawl_var w
            then ["--crawl"; "--max-depth"; Py.str (depth_of w)]
                 ++ match workers_var w with
                    | Some n => ["--workers"; Py.str (Z.max 1 (Z.min 12 n))]
                    | None => []
                    end
                 ++ (if same_domain_var w then ["--same-domain-only"] else [])
            else [])%list.
Proof.
  intros Hf Hb Hs Hu. unfold common_args_with. rewrite !in_app_iff.
  split; [| intros H; right; right; right; right; left; exact H].
  intros [H | [H | [H | [H | [H | H]]]]]; try contradiction; try exact H; exfalso.
  - destruct (js_var w); [| destruct H].
    destruct H as [<- | []]. cbn in Hf. intuition discriminate.
  - destruct (flaresolverr_var w); [| destruct H].
    destruct (nonblank (Py.strip (flaresolverr_url_var w))).
    + destruct H as [<- | [H | []]]; [cbn in Hf; intuition discriminate |].
      apply Hu. exact H.
    + destruct H as [<- | []]. cbn in Hf. intuition discriminate.
  - destruct (keep_awake_var w); [| destruct H].
    destruct H as [<- | []]. cbn in Hf. intuition discriminate.
Qed.

Ltac not_a_number :=
  match goal with
  | H : Py.str _ = _ |- _ =>
      exfalso; revert H; apply str_not_flag; reflexivity
  end.

(** X7: when neither the interpreter prefix, the size arguments nor the
    FlareSolverr URL is itself a crawl flag, the argv carries [--crawl] and
    [--max-depth] exactly when crawling is on, [--same-domain-only] exactly
    when crawling and the same-domain box are both on, and [--workers]
    exactly when crawling is on and the worker count is readable; the count
    passed is the entered one clamped to 1..12. *)
Theorem crawl_arguments (w : widgets) (sz : list string) :
  (forall f, In f crawl_flags ->
             ~ In f (base_cmd w) /\ ~ In f sz
             /\ Py.strip (flaresolverr_url_var w) <> f) ->
  (In "--crawl" (common_args_with w sz) <-> crawl_var w = true)
  /\ (In "--max-depth" (common_args_with w sz) <-> crawl_var w = true)
  /\ (In "--same-domain-only" (common_args_with w sz)
      <-> crawl_var w = true /\ same_domain_var w = true)
  /\ (In "--workers" (common_args_with w sz)
      <-> crawl_var w = true /\ workers_var w <> None)
  /\ forall n,
      crawl_var w = true ->
      workers_var w = Some n ->
      exists pre post k,
        common_args_with w sz = (pre ++ ["--workers"; Py.str k] ++ post)%list
        /\ 1 <= k <= 12
        /\ (1 <= n <= 12 -> k = n)
        /\ (n < 1 -> k = 1)
        /\ (12 < n -> k = 12).
Proof.
  intros H.
  assert (Hin : forall f, In f crawl_flags ->
                  In f (common_args_with w sz)
                  <-> In f (if crawl_var w
                            then ["--crawl"; "--max-depth"; Py.str (depth_of w)]
                                 ++ match workers_var w with
                                    | Some n =>
                                        ["--workers"; Py.str (Z.max 1 (Z.min 12 n))]
                                    | None => []
                                    end
                                 ++ (if same_domain_var w
                                     then ["--same-domain-only"] else [])
                            else [])%list).
  { intros f Hf. destruct (H f Hf) as (Hb & Hs & Hu).
    apply in_common_args_crawl; assumption. }
  split; [| split; [| split; [| split]]].
  - rewrite (Hin "--crawl") by (cbn; tauto).
    destruct (crawl_var w); cbn; intuition discriminate.
  - rewrite (Hin "--max-depth") by (cbn; tauto).
    destruct (crawl_var w); cbn; intuition discriminate.
  - rewrite (Hin "--same-domain-only") by (cbn; tauto).
    destruct (crawl_var w); [| cbn; intuition discriminate].
    destruct (workers_var w), (same_domain_var w); cbn;
      (split; [intros Hor | intros [_ Hs]; try discriminate Hs; tauto]);
      repeat (destruct Hor as [Hor | Hor]; try discriminate Hor;
              try not_a_number);
      try contradiction; try (split; reflexivity).
  - rewrite (Hin "--workers") by (cbn; tauto).
    destruct (crawl_var w); [| cbn; intuition discriminate].
    destruct (workers_var w), (same_domain_var w); cbn;
      (split; [intros Hor | intros [_ Hs]; try congruence; tauto]);
      repeat (destruct Hor as [Hor | Hor]; try discriminate Hor;
              try not_a_number);
      try contradiction; try (split; [reflexivity | discriminate]).
  - intros n Hc Hw. unfold common_args_with. rewrite Hc, Hw.
    exists (base_cmd w ++ sz ++ (if js_var w then ["--js"] else [])
            ++ (if flaresolverr_var w
                then if nonblank (Py.strip (flaresolverr_url_var w))
                     then ["--flaresolverr"; Py.strip (flaresolverr_url_var w)]
                     else ["--flaresolverr"]
                else [])
            ++ ["--crawl"; "--max-depth"; Py.str (depth_of w)])%list.
    exists ((if same_domain_var w then ["--same-domain-only"] else [])
            ++ (if keep_awake_var w then ["--keep-awake"] else []))%list.
    exists (Z.max 1 (Z.min 12 n)).
    split; [rewrite <- !app_assoc; reflexivity |]. lia.
Qed.

Lemma crawl_arguments_witness :
  (forall f, In f crawl_flags ->
             ~ In f (base_cmd sample_widgets) /\ ~ In f ["--min-image-size"; "100k"]
             /\ Py.strip (flaresolverr_url_var sample_widgets) <> f)
  /\ In "--same-domain-only"
       (common_args_with sample_widgets ["--min-image-size"; "100k"]).
Proof.
  assert (H : forall f, In f crawl_flags ->
                ~ In f (base_cmd sample_widgets)
                /\ ~ In f ["--min-image-size"; "100k"]
                /\ Py.strip (flaresolverr_url_var sample_widgets) <> f).
  { intros f Hf. cbn in Hf.
    destruct Hf as [<- | [<- | [<- | [<- | []]]]]; cbn;
      repeat split; intuition discriminate. }
  split; [exact H |].
  apply (proj1 (proj2 (proj2 (crawl_arguments sample_widgets _ H)))).
  split; reflexivity.
Defined.

(** ** The counter token of [update_status] *)

Lemma prefix_app (a s : string) :
  String.prefix a s = true <-> exists rest, s = a ++ rest.
Proof.
  revert s. induction a as [| c a IH]; intros s.
  - split; [intros _; exists s; reflexivity | intros _; destruct s; reflexivity].
  - destruct s as [| d s]; cbn.
    + split; [discriminate | intros [rest H]; discriminate H].
    + destruct (Ascii.ascii_dec c d) as [-> | Hne].
      * rewrite IH. split; intros [rest H]; exists rest.
        -- rewrite H. reflexivity.
        -- injection H as H. exact H.
      * split; [discriminate |]. intros [rest H]. injection H as H _.
        destruct (Hne (eq_sym H)).
Qed.

Lemma contains_app (sub s : string) :
  Py.contains sub s = true <-> exists pre post, s = pre ++ sub ++ post.
Proof.
  induction s as [| c s IH]; cbn [Py.contains].
  - rewrite orb_false_r, prefix_app. split.
    + intros [rest H]. exists EmptyString, rest. exact H.
    + intros (pre & post & H). destruct pre; cbn in H; [| discriminate H].
      exists post. exact H.
  - rewrite orb_true_iff, prefix_app, IH. split.
    + intros [[rest H] | (pre & post & H)].
      * exists EmptyString, rest. exact H.
      * exists (String c pre), post. rewrite H. reflexivity.
    + intros (pre & post & H). destruct pre as [| d pre]; cbn in H.
      * left. exists post. exact H.
      * injection H as _ H. right. exists pre, post. exact H.
Qed.

Lemma string_app_nil_r (s : string) : s ++ "" = s.
Proof. induction s as [| c s IH]; cbn; [reflexivity | rewrite IH; reflexivity]. Qed.

Lemma string_length_app (a b : string) :
  String.length (a ++ b) = (String.length a + String.length b)%nat.
Proof. induction a as [| c a IH]; cbn; [reflexivity | rewrite IH; reflexivity]. Qed.

(** [utf8_head] reads the bytes of the first code point only. *)
Lemma utf8_head_split (s : string) (cp : Z) (n : nat) :
  Py.utf8_head s = Some (cp, n) ->
  exists d r,
    s = d ++ r /\ String.length d = n /\ n <> O
    /\ forall r', Py.utf8_head (d ++ r') = Some (cp, n).
Proof.
  unfold Py.utf8_head. destruct s as [| c0 s0]; [discriminate |]. cbv zeta.
  destruct (Py.byte c0 <? 128) eqn:H0.
  { intros H. injection H as <- <-. exists (String c0 ""), s0.
    repeat split; try discriminate. intros r'. cbn [append]. rewrite H0. reflexivity. }
  destruct (Py.byte c0 <? 194) eqn:H1; [discriminate |].
  destruct s0 as [| c1 s1]; [discriminate |].
  destruct (Py.continuation c1) eqn:C1; cbn [negb]; [| discriminate].
  destruct (Py.byte c0 <? 224) eqn:H2.
  { intros H. injection H as <- <-. exists (String c0 (String c1 "")), s1.
    repeat split; try discriminate. intros r'. cbn [append].
    rewrite H0, H1, C1, H2. reflexivity. }
  destruct s1 as [| c2 s2]; [discriminate |].
  destruct (Py.continuation c2) eqn:C2; cbn [negb]; [| discriminate].
  destruct (Py.byte c0 <? 240) eqn:H3.
  { intros H. injection H as <- <-. exists (String c0 (String c1 (String c2 ""))), s2.
    repeat split; try discriminate. intros r'. cbn [append].
    rewrite H0, H1, C1, H2, C2, H3. reflexivity. }
  destruct s2 as [| c3 s3]; [discriminate |].
  destruct (Py.continuation c3 && (Py.byte c0 <? 245)) eqn:C3; [| discriminate].
  intros H. injection H as <- <-.
  exists (String c0 (String c1 (String c2 (String c3 "")))), s3.
  repeat split; try discriminate. intros r'. cbn [append].
  rewrite H0, H1, C1, H2, C2, H3, C3. reflexivity.
Qed.

(** A text that starts with a decimal digit is that digit and a rest. *)
Lemma digit_len_split (s : string) (k : nat) :
  Py.digit_len s = S k ->
  exists d r, s = d ++ r /\ String.length d = S k /\ is_digit d = true.
Proof.
  unfold Py.digit_len. destruct (Py.utf8_head s) as [[cp n] |] eqn:Hh; [| discriminate].
  destruct (Py.is_decimal cp) eqn:Hd; [| discriminate]. intros ->.
  destruct (utf8_head_split s cp (S k) Hh) as (d & r & Hs & Hl & _ & Hext).
  exists d, r. split; [exact Hs |]. split; [exact Hl |].
  unfold is_digit, Py.digit_len. specialize (Hext ""). rewrite string_app_nil_r in Hext.
  rewrite Hext, Hd, Hl. cbn [Nat.ltb Nat.leb andb]. apply Nat.eqb_refl.
Qed.

(** What follows a digit does not change it. *)
Lemma digit_len_app (d r : string) :
  is_digit d = true -> Py.digit_len (d ++ r) = String.length d.
Proof.
  unfold is_digit. intros H. apply andb_prop in H. destruct H as [Hpos Heq].
  apply Nat.eqb_eq in Heq. apply Nat.ltb_lt in Hpos.
  unfold Py.digit_len in *.
  destruct (Py.utf8_head d) as [[cp n] |] eqn:Hh; [| rewrite <- Heq in Hpos; lia].
  destruct (Py.is_decimal cp) eqn:Hd; [| rewrite <- Heq in Hpos; lia].
  subst n.
  destruct (utf8_head_split d cp _ Hh) as (d' & r' & Hs & Hl & _ & Hext).
  assert (Hr : r' = "").
  { apply (f_equal String.length) in Hs. rewrite string_length_app, Hl in Hs.
    destruct r'; [reflexivity | cbn in Hs; lia]. }
  subst r'. rewrite string_app_nil_r in Hs. subst d'.
  rewrite Hext, Hd. reflexivity.
Qed.

(** The bytes of a digit just recognised are taken as they are. *)
Lemma span_digits_skip (p s : string) :
  span_digits_from (String.length p) (p ++ s)
  = let (d, r) := span_digits s in (p ++ d, r).
Proof.
  induction p as [| c p IH].
  - cbn [String.length append]. unfold span_digits.
    destruct (span_digits_from 0 s). reflexivity.
  - cbn [String.length append span_digits_from]. rewrite IH.
    destruct (span_digits s). reflexivity.
Qed.

Lemma span_digits_none (s : string) :
  Py.digit_len s = O -> span_digits s = ("", s).
Proof.
  unfold span_digits. destruct s as [| c s]; [reflexivity |].
  cbn [span_digits_from]. intros ->. reflexivity.
Qed.

Lemma span_digits_digit (d s : string) :
  is_digit d = true ->
  span_digits (d ++ s) = let (ds, r) := span_digits s in (d ++ ds, r).
Proof.
  intros Hd. pose proof (digit_len_app d s Hd) as Hl.
  unfold is_digit in Hd. apply andb_prop in Hd. destruct Hd as [Hpos _].
  destruct d as [| c d]; [discriminate Hpos |].
  unfold span_digits at 1. cbn [append span_digits_from].
  cbn [append] in Hl. rewrite Hl. cbn [String.length].
  rewrite span_digits_skip. destruct (span_digits s). reflexivity.
Qed.

Lemma span_digits_spec (s d r : string) :
  span_digits s = (d, r) -> s = d ++ r /\ decimal_run d.
Proof.
  remember (String.length s) as n eqn:Hn. revert s d r Hn.
  induction n as [n IH] using lt_wf_ind. intros s d r Hn H.
  destruct (Py.digit_len s) as [| k] eqn:Hk.
  - rewrite (span_digits_none s Hk) in H. injection H as <- <-.
    split; [reflexivity | apply run_nil].
  - destruct (digit_len_split s k Hk) as (d0 & r0 & -> & Hl & Hd0).
    rewrite (span_digits_digit d0 r0 Hd0) in H.
    destruct (span_digits r0) as [d1 r1] eqn:H1. injection H as <- <-.
    destruct (IH (String.length r0)) with (s := r0) (d := d1) (r := r1)
      as [-> Hrun]; [| reflexivity | exact H1 |].
    + subst n. rewrite string_length_app, Hl. lia.
    + split; [symmetry; apply string_app_assoc | apply run_cons; assumption].
Qed.

Lemma span_digits_app (d r : string) :
  decimal_run d -> Py.digit_len r = O -> span_digits (d ++ r) = (d, r).
Proof.
  intros Hd Hr. induction Hd as [| d0 d1 H0 H1 IH].
  - cbn [append]. apply span_digits_none. exact Hr.
  - rewrite string_app_assoc, (span_digits_digit d0 _ H0), IH. reflexivity.
Qed.

Lemma match_counter_here_inv (s i n : string) :
  match_counter_here s = Some (i, n) ->
  exists s1, s = String " " (String " " (String "[" s1))
             /\ match_counter_here s
                = match span_digits s1 with
                  | (String a d1, String "/" s2) =>
                      match span_digits s2 with
                      | (String b d2, String "]" _) => Some (String a d1, String b d2)
                      | _ => None
                      end
                  | _ => None
                  end.
Proof.
  intros H.
  destruct s as [| c1 s]; [discriminate H |].
  destruct c1 as [[] [] [] [] [] [] [] []]; try discriminate H.
  destruct s as [| c2 s]; [discriminate H |].
  destruct c2 as [[] [] [] [] [] [] [] []]; try discriminate H.
  destruct s as [| c3 s]; [discriminate H |].
  destruct c3 as [[] [] [] [] [] [] [] []]; try discriminate H.
  exists s. split; reflexivity.
Qed.

Lemma match_counter_here_sound (s i n : string) :
  match_counter_here s = Some (i, n) ->
  i <> "" /\ n <> ""
  /\ decimal_run i /\ decimal_run n
  /\ exists rest, s = "  [" ++ i ++ "/" ++ n ++ "]" ++ rest.
Proof.
  intros H. destruct (match_counter_here_inv s i n H) as (s1 & -> & Heq).
  rewrite Heq in H. clear Heq.
  destruct (span_digits s1) as [d1 r1] eqn:H1.
  destruct d1 as [| a d1]; [discriminate H |].
  destruct r1 as [| c r1]; [discriminate H |].
  assert (Hc : c = "/"%char).
  { destruct c as [[] [] [] [] [] [] [] []]; try discriminate H. reflexivity. }
  subst c.
  destruct (span_digits r1) as [d2 r2] eqn:H2.
  destruct d2 as [| b d2]; [discriminate H |].
  destruct r2 as [| c r2]; [discriminate H |].
  assert (Hc : c = "]"%char).
  { destruct c as [[] [] [] [] [] [] [] []]; try discriminate H. reflexivity. }
  subst c. injection H as <- <-.
  destruct (span_digits_spec _ _ _ H1) as [-> Hd1].
  destruct (span_digits_spec _ _ _ H2) as [-> Hd2].
  split; [discriminate |]. split; [discriminate |].
  split; [exact Hd1 |]. split; [exact Hd2 |].
  exists r2. reflexivity.
Qed.

Lemma match_counter_here_complete (i n rest : string) :
  i <> "" -> n <> "" ->
  decimal_run i -> decimal_run n ->
  match_counter_here ("  [" ++ i ++ "/" ++ n ++ "]" ++ rest) = Some (i, n).
Proof.
  intros Hi Hn Hdi Hdn. cbn [append match_counter_here].
  rewrite (span_digits_app i (String "/" _) Hdi eq_refl).
  destruct i as [| a i]; [congruence |].
  rewrite (span_digits_app n (String "]" _) Hdn eq_refl).
  destruct n as [| b n]; [congruence |]. reflexivity.
Qed.

Lemma search_counter_hit (s : string) (m : string * string) :
  match_counter_here s = Some m -> search_counter s = Some m.
Proof. intros H. destruct s; cbn [search_counter]; rewrite H; reflexivity. Qed.

(** X8: the search for the counter token in [update_status] returns groups
    [i] and [n] only when both are non-empty runs of decimal digits, of
    any script, and the line contains the token ["  [i/n]"]; and it finds a
    match whenever the line contains such a token.  A token of ASCII digits
    and one of Arabic-Indic digits are both found. *)
Theorem search_counter_token :
  (forall line i n,
      search_counter line = Some (i, n) ->
      i <> "" /\ n <> ""
      /\ decimal_run i /\ decimal_run n
      /\ Py.contains ("  [" ++ i ++ "/" ++ n ++ "]") line = true)
  /\ (forall line i n,
         i <> "" -> n <> "" ->
         decimal_run i -> decimal_run n ->
         Py.contains ("  [" ++ i ++ "/" ++ n ++ "]") line = true ->
         search_counter line <> None)
  /\ search_counter "  [12/40] http://a/b.jpg" = Some ("12", "40")
  /\ search_counter "  [٣/٧] x" = Some ("٣", "٧").
Proof.
  split; [| split; [| split; vm_compute; reflexivity]].
  - intros line i n. induction line as [| c line IH]; intros H.
    + cbn in H. discriminate H.
    + cbn [search_counter] in H.
      destruct (match_counter_here (String c line)) as [[i' n'] |] eqn:Hm.
      * injection H as -> ->.
        destruct (match_counter_here_sound _ _ _ Hm)
          as (Hi & Hn & Hdi & Hdn & rest & Hs).
        split; [exact Hi |]. split; [exact Hn |].
        split; [exact Hdi |]. split; [exact Hdn |].
        apply contains_app. exists EmptyString, rest. rewrite Hs.
        cbn [append]. rewrite string_app_assoc. cbn [append].
        rewrite string_app_assoc. reflexivity.
      * destruct (IH H) as (Hi & Hn & Hdi & Hdn & Hc).
        split; [exact Hi |]. split; [exact Hn |].
        split; [exact Hdi |]. split; [exact Hdn |].
        cbn [Py.contains]. rewrite Hc. apply orb_true_r.
  - intros line i n Hi Hn Hdi Hdn Hc.
    apply contains_app in Hc. destruct Hc as (pre & post & ->).
    assert (Heq : ("  [" ++ i ++ "/" ++ n ++ "]") ++ post
                  = "  [" ++ i ++ "/" ++ n ++ "]" ++ post).
    { cbn [append]. rewrite string_app_assoc. cbn [append].
      rewrite string_app_assoc. reflexivity. }
    rewrite Heq. clear Heq.
    induction pre as [| c pre IH].
    + change ("" ++ ?t) with t.
      rewrite (search_counter_hit _ _
                 (match_counter_here_complete i n post Hi Hn Hdi Hdn)).
      discriminate.
    + change (String c pre ++ ?t) with (String c (pre ++ t)).
      cbn [search_counter].
      destruct (match_counter_here (String c (pre ++ _))); [discriminate | exact IH].
Qed.

Lemma search_counter_token_witness :
  search_counter "  [3/7] http://a/b.jpg" = Some ("3", "7")
  /\ Py.contains ("  [" ++ "3" ++ "/" ++ "7" ++ "]") "  [3/7] http://a/b.jpg" = true.
Proof.
  split; [reflexivity |].
  exact (proj2 (proj2 (proj2 (proj2
    (proj1 search_counter_token "  [3/7] http://a/b.jpg" "3" "7" eq_refl))))).
Defined.

(** ** The counters of the progress interpreter *)

Lemma update_status_step (line : string) (p : progress) :
  count_pdf p <= count_pdf (update_status line p)
  /\ count_text p <= count_text (update_status line p)
  /\ count_images p <= count_images (update_status line p)
  /\ total (update_status line p) <= total p + 1
  /\ (state_var (update_status line p) = "Finished" ->
      state_var p = "Finished" \/ Py.contains "Done." line = true).
Proof.
  unfold update_status, total.
  destruct (Py.contains "Running:" line || Py.contains "Scrape:" line
            || Py.contains "Iteration" line);
    [cbn; repeat split; try lia; discriminate |].
  destruct (Py.contains "Found:" line);
    [cbn; repeat split; try lia; discriminate |].
  destruct (Py.contains "→ Downloading" line);
    [cbn; repeat split; try lia; discriminate |].
  destruct (Py.contains "  [" line && Py.contains "/" line && Py.contains "] " line).
  { destruct (search_counter line) as [[i n] |]; cbn; repeat split; try lia;
      try discriminate. intros H. left. exact H. }
  destruct (Py.contains "  Text:" line);
    [cbn; repeat split; try lia; discriminate |].
  destruct (Py.contains "  Image:" line);
    [cbn; repeat split; try lia; discriminate |].
  destruct (Py.contains "  PDF:" line);
    [cbn; repeat split; try lia; discriminate |].
  destruct (Py.contains "Done." line); cbn; repeat split; try lia;
    intros H; auto.
Qed.

(** X9: [update_status] never decreases a counter and a line adds at most
    one to their sum, so after feeding lines the sum has grown by at most
    their number.  The status becomes Finished only on a line that contains
    ["Done."]. *)
Theorem update_status_counters :
  (forall line p,
      count_pdf p <= count_pdf (update_status line p)
      /\ count_text p <= count_text (update_status line p)
      /\ count_images p <= count_images (update_status line p)
      /\ total (update_status line p) <= total p + 1)
  /\ (forall lines p,
         total p <= total (feed lines p) <= total p + Z.of_nat (List.length lines))
  /\ forall lines p,
      state_var (feed lines p) = "Finished" ->
      state_var p = "Finished"
      \/ exists line, In line lines /\ Py.contains "Done." line = true.
Proof.
  split; [| split].
  - intros line p. destruct (update_status_step line p) as (H1 & H2 & H3 & H4 & _).
    repeat split; assumption.
  - intros lines. unfold feed. induction lines as [| l lines IH]; intros p.
    + cbn. lia.
    + cbn [fold_left List.length]. specialize (IH (update_status l p)).
      destruct (update_status_step l p) as (H1 & H2 & H3 & H4 & _).
      unfold total in *. lia.
  - intros lines. unfold feed. induction lines as [| l lines IH]; intros p H.
    + left. exact H.
    + cbn [fold_left] in H. destruct (IH _ H) as [Hf | (line & Hin & Hd)].
      * destruct (update_status_step l p) as (_ & _ & _ & _ & H5).
        destruct (H5 Hf) as [Hp | Hd]; [left; exact Hp |].
        right. exists l. split; [left; reflexivity | exact Hd].
      * right. exists line. split; [right; exact Hin | exact Hd].
Qed.

Lemma update_status_counters_witness :
  state_var (feed ["  PDF: a.pdf"; "Done."] progress0) = "Finished"
  /\ (state_var progress0 = "Finished"
      \/ exists line,
          In line ["  PDF: a.pdf"; "Done."] /\ Py.contains "Done." line = true).
Proof.
  split; [reflexivity |].
  exact (proj2 (proj2 update_status_counters)
           ["  PDF: a.pdf"; "Done."] progress0 eq_refl).
Defined.

(** ** The log of a sequential run *)











Section SequentialRun.

Variable E : os.
Variable R : run.
Variable log0 : list string.
Variable all : list string.






End SequentialRun.






(** A queue followed by what is still to be put, the sentinel being the
    last of all: the queue holds lines only, or everything. *)
Lemma queue_before_sentinel (q p : list (option string)) (pending : list string) :
  (q ++ p)%list = (map Some pending ++ [None])%list ->
  (exists qs pend, q = map Some qs /\ pending = (qs ++ pend)%list
                   /\ p = (map Some pend ++ [None])%list)
  \/ (q = (map Some pending ++ [None])%list /\ p = []).
Proof.
  revert pending. induction q as [| x q IH]; intros pending H.
  - left. exists [], pending. repeat split. exact H.
  - destruct pending as [| a pending]; cbn [map app] in H.
    + injection H as -> H. apply app_eq_nil in H. destruct H as [-> ->].
      right. split; reflexivity.
    + injection H as -> H.
      destruct (IH pending H) as [(qs & pend & -> & -> & ->) | [-> ->]].
      * left. exists (a :: qs), pend. repeat split.
      * right. split; reflexivity.
Qed.

Section UnattendedRun.

Variable E : os.
Variable R : run.
Variable log0 : list string.
Variable all : list string.








End UnattendedRun.




(** ** The last-used URLs file *)

Lemma all_chars_lstrip (P : ascii -> bool) (s : string) :
  all_chars P s = true -> all_chars P (Py.lstrip s) = true.
Proof.
  induction s as [| c s IH]; cbn; [reflexivity |]. intros H.
  apply andb_prop in H. destruct H as [Hc Hs].
  destruct (Py.isspace c); [apply IH; exact Hs |].
  cbn. rewrite Hc, Hs. reflexivity.
Qed.

Lemma all_chars_rstrip (P : ascii -> bool) (s : string) :
  all_chars P s = true -> all_chars P (Py.rstrip s) = true.
Proof.
  induction s as [| c s IH]; cbn; [reflexivity |]. intros H.
  apply andb_prop in H. destruct H as [Hc Hs]. specialize (IH Hs).
  destruct (Py.rstrip s) as [| a r].
  - destruct (Py.isspace c); [reflexivity |]. cbn. rewrite Hc. reflexivity.
  - cbn in *. rewrite Hc, IH. reflexivity.
Qed.

Lemma all_chars_strip (P : ascii -> bool) (s : string) :
  all_chars P s = true -> all_chars P (Py.strip s) = true.
Proof. intros H. apply all_chars_rstrip, all_chars_lstrip, H. Qed.

Lemma newlines_round_trip (windows : bool) (t : string) :
  all_chars LastUrls.no_cr t = true ->
  LastUrls.universal_newlines (LastUrls.encode_newlines windows t) = t.
Proof.
  induction t as [| c t IH]; cbn [all_chars]; [reflexivity |]. intros H.
  apply andb_prop in H. destruct H as [Hc Ht]. specialize (IH Ht).
  unfold LastUrls.no_cr in Hc. apply negb_true_iff in Hc.
  cbn [LastUrls.encode_newlines].
  destruct (windows && Ascii.eqb c LastUrls.LF) eqn:Hw.
  - apply andb_prop in Hw. destruct Hw as [_ Hlf]. apply Ascii.eqb_eq in Hlf.
    subst c. cbn [LastUrls.universal_newlines].
    change (Ascii.eqb LastUrls.CR LastUrls.CR) with true.
    change (Ascii.eqb LastUrls.LF LastUrls.LF) with true.
    cbn iota. rewrite IH. reflexivity.
  - cbn [LastUrls.universal_newlines]. rewrite Hc, IH. reflexivity.
Qed.

Lemma strip_nonblank (s : string) : nonblank (Py.strip s) = true -> nonblank s = true.
Proof. destruct s; [discriminate | reflexivity]. Qed.

(** X12: saving and loading the URL box is a round trip: after
    [_save_last_urls] has written a text that is not blank and contains no
    carriage return, [_load_last_urls] returns that text stripped, on
    either platform and whatever the file held before. *)
Theorem last_urls_round_trip (windows : bool) (text : string)
    (f : LastUrls.file_state) :
  nonblank (Py.strip text) = true ->
  all_chars LastUrls.no_cr text = true ->
  LastUrls._load_last_urls
    (LastUrls._save_last_urls windows LastUrls.WriteOk text f)
  = Ret (Py.strip text).
Proof.
  intros Hn Hcr. unfold LastUrls._save_last_urls.
  rewrite Hn, (strip_nonblank _ Hn). cbn [negb orb LastUrls._load_last_urls].
  rewrite (newlines_round_trip windows _ (all_chars_strip _ _ Hcr)).
  rewrite strip_idempotent, Hn. reflexivity.
Qed.

Lemma last_urls_round_trip_witness :
  nonblank (Py.strip (" http://a" ++ Py.nl ++ "http://b" ++ Py.nl)) = true
  /\ all_chars LastUrls.no_cr (" http://a" ++ Py.nl ++ "http://b" ++ Py.nl) = true
  /\ LastUrls._load_last_urls
       (LastUrls._save_last_urls true LastUrls.WriteOk
          (" http://a" ++ Py.nl ++ "http://b" ++ Py.nl) LastUrls.Undecodable)
     = Ret ("http://a" ++ Py.nl ++ "http://b").
Proof.
  split; [reflexivity |]. split; [reflexivity |].
  exact (last_urls_round_trip true (" http://a" ++ Py.nl ++ "http://b" ++ Py.nl)
           LastUrls.Undecodable eq_refl eq_refl).
Defined.

(** X13: [_load_last_urls] never returns a blank text: it returns the
    default URL when the file is absent, cannot be read or holds only
    white space, and raises only when the file is not UTF-8.
    [_save_last_urls] leaves the file as it is when the text is blank, so a
    blank URL box never erases the saved URLs; and when writing fails with
    [OSError] nothing is raised. *)
Theorem last_urls_fallback :
  (forall f,
      f <> LastUrls.Undecodable ->
      exists s, LastUrls._load_last_urls f = Ret s /\ s <> "")
  /\ (forall f,
         f = LastUrls.Absent \/ f = LastUrls.Unreadable
         \/ (exists c, f = LastUrls.Present c
                       /\ Py.strip (LastUrls.universal_newlines c) = "") ->
         LastUrls._load_last_urls f = Ret LastUrls.default_url)
  /\ (forall windows wr text f,
         Py.strip text = "" -> LastUrls._save_last_urls windows wr text f = f)
  /\ forall windows text f left,
      Py.strip text <> "" ->
      LastUrls._save_last_urls windows (LastUrls.WriteFails left) text f = left.
Proof.
  split; [| split; [| split]].
  - intros f Hf. destruct f as [| | | c]; try (eexists; split; [reflexivity | discriminate]).
    + congruence.
    + cbn. destruct (Py.strip (LastUrls.universal_newlines c)) eqn:Hs; cbn.
      * eexists. split; [reflexivity | discriminate].
      * eexists. split; [reflexivity | discriminate].
  - intros f [-> | [-> | (c & -> & Hc)]]; [reflexivity | reflexivity |].
    cbn. rewrite Hc. reflexivity.
  - intros windows wr text f H. unfold LastUrls._save_last_urls.
    rewrite H. cbn. rewrite orb_true_r. reflexivity.
  - intros windows text f left H. unfold LastUrls._save_last_urls.
    destruct (Py.strip text) eqn:Hs; [congruence |].
    assert (Hn : nonblank text = true) by (apply strip_nonblank; rewrite Hs; reflexivity).
    rewrite Hn. reflexivity.
Qed.

Lemma last_urls_fallback_witness :
  LastUrls.Present "  " <> LastUrls.Undecodable
  /\ (exists s, LastUrls._load_last_urls (LastUrls.Present "  ") = Ret s /\ s <> "")
  /\ LastUrls._save_last_urls false LastUrls.WriteOk "   " (LastUrls.Present "http://a")
     = LastUrls.Present "http://a".
Proof.
  split; [discriminate |]. split.
  - apply (proj1 last_urls_fallback). discriminate.
  - apply (proj1 (proj2 (proj2 last_urls_fallback))). reflexivity.
Defined.

(** ** The suggested choices *)

(** X14: after "Suggest likely choices", whatever was selected before, the
    command carries no [--types], filters images below 100 KiB only,
    renders JavaScript and crawls to depth 2 within the domain, with the
    delay 0.5; the FlareSolverr, worker and keep-awake settings are kept.
    Applying the suggestion twice is the same as once, and the callback
    does nothing while the box is unchecked. *)
Theorem suggested_command (w : widgets) :
  types_args_of (apply_suggested true w) = []
  /\ delay_of (apply_suggested true w) = "0.5"
  /\ common_args (apply_suggested true w)
     = Some (base_cmd w
             ++ ["--min-image-size"; "100k"; "--js"]
             ++ (if flaresolverr_var w
                 then if nonblank (Py.strip (flaresolverr_url_var w))
                      then ["--flaresolverr"; Py.strip (flaresolverr_url_var w)]
                      else ["--flaresolverr"]
                 else [])
             ++ ["--crawl"; "--max-depth"; "2"]
             ++ match workers_var w with
                | Some n => ["--workers"; Py.str (Z.max 1 (Z.min 12 n))]
                | None => []
                end
             ++ ["--same-domain-only"]
             ++ (if keep_awake_var w then ["--keep-awake"] else []))%list
  /\ apply_suggested true (apply_suggested true w) = apply_suggested true w
  /\ apply_suggested false w = w.
Proof.
  split; [reflexivity |]. split; [reflexivity |].
  split; [| split; reflexivity].
  unfold common_args, common_args_with, depth_of.
  cbn [apply_suggested negb base_cmd js_var flaresolverr_var
       flaresolverr_url_var crawl_var same_domain_var keep_awake_var
       workers_var depth_var size_small_var size_medium_var size_large_var].
  destruct (flaresolverr_var w), (workers_var w), (keep_awake_var w);
    try destruct (nonblank (Py.strip (flaresolverr_url_var w)));
    reflexivity.
Qed.

(** ** Dependency checks *)

Lemma missing_of_nil (E : Deps.env) (table : list (string * string)) :
  Deps.missing_of E table = []
  <-> forall m p, In (m, p) table -> Deps.importable E m = true.
Proof.
  unfold Deps.missing_of. induction table as [| [m p] table IH]; cbn.
  - split; [intros _ m p [] | reflexivity].
  - destruct (Deps.importable E m) eqn:Hm; cbn.
    + rewrite IH. split.
      * intros H m' p' [Heq | Hin]; [injection Heq as <- <-; exact Hm |].
        apply (H m' p' Hin).
      * intros H m' p' Hin. apply (H m' p'). right. exact Hin.
    + split; [discriminate |]. intros H.
      rewrite (H m p (or_introl eq_refl)) in Hm. discriminate Hm.
Qed.

Ltac deps_run :=
  cbv [Deps.check_required Deps._try_auto_install Deps.ensure_optional
       Deps._try_auto_install_optional Deps.bind Deps.print Deps.ret
       Deps.exit Deps.raise Deps.try_except Deps.run_checked
       Deps.run_with_timeout Deps.started Deps.is_install_failure
       Deps.is_browser_failure Deps.stderr Deps.ran negb truthy].

(** X15: [check_required] returns only [True], and exactly when every
    required module can be imported; it then prints and runs nothing.
    Otherwise it leaves through [sys.exit] or an exception of the
    installer.  It runs a process only when the environment variable opts
    in, and then only the one [pip install] of the missing packages; it
    exits with status 0 only after that command succeeded.  Without the
    opt-in it exits with status 1 after a message whose last line lists
    the missing packages. *)
Theorem check_required_outcomes (E : Deps.env) (t : Deps.trace) :
  let missing := Deps.missing_of E Deps.REQUIRED in
  exists t' r,
    Deps.check_required E t = (t', r)
    /\ (r = Deps.Returns true
        <-> forall m p, In (m, p) Deps.REQUIRED -> Deps.importable E m = true)
    /\ r <> Deps.Returns false
    /\ (r = Deps.Returns true -> t' = t)
    /\ (Deps.opted_in E = false -> Deps.ran t' = Deps.ran t)
    /\ (forall c, In c (Deps.ran t') ->
                  In c (Deps.ran t) \/ c = Deps.pip_install E missing)
    /\ (r = Deps.Raises (Deps.SystemExit 0)
        <-> missing <> [] /\ Deps.opted_in E = true
            /\ Deps.run_process E (Deps.pip_install E missing) = Deps.Exit0)
    /\ (missing <> [] -> Deps.opted_in E = false ->
        r = Deps.Raises (Deps.SystemExit 1)
        /\ last (Deps.stderr t') "" = "  Missing: " ++ Py.join ", " missing).
Proof.
  intros missing. pose proof (missing_of_nil E Deps.REQUIRED) as Hnil.
  fold missing in Hnil. unfold Deps.check_required. fold missing.
  destruct missing as [| p0 ps] eqn:Hm.
  - exists t, (Deps.Returns true). deps_run.
    split; [reflexivity |]. split; [split; [intros _; apply Hnil; reflexivity | reflexivity] |].
    split; [discriminate |]. split; [reflexivity |]. split; [reflexivity |].
    split; [intros c Hc; left; exact Hc |].
    split; [split; [discriminate | intros [H _]; congruence] |].
    intros H. congruence.
  - assert (Hne : ~ (forall m p, In (m, p) Deps.REQUIRED -> Deps.importable E m = true)).
    { intros H. apply Hnil in H. discriminate H. }
    destruct t as [err rn].
    destruct (Deps.opted_in E) eqn:Ho.
    + deps_run. rewrite Ho. cbn [negb].
      destruct (Deps.run_process E (Deps.pip_install E (p0 :: ps))) eqn:Hr;
        eexists _, _; (split; [reflexivity |]); cbn [Deps.ran Deps.stderr];
        (split; [split; [discriminate | intros H; destruct (Hne H)] |]);
        (split; [discriminate |]); (split; [discriminate |]);
        (split; [discriminate |]);
        (split; [intros c Hc; apply in_app_or in Hc;
                 destruct Hc as [Hc | [<- | []]]; [left; exact Hc | right; reflexivity] |]);
        (split; [| intros _ H; discriminate H]).
      * split; [intros _; repeat split; discriminate | reflexivity].
      * split; [discriminate | intros (_ & _ & H); discriminate H].
      * split; [discriminate | intros (_ & _ & H); discriminate H].
      * split; [discriminate | intros (_ & _ & H); discriminate H].
    + deps_run. rewrite Ho. cbn [negb].
      eexists _, _. split; [reflexivity |]. cbn [Deps.ran Deps.stderr].
      split; [split; [discriminate | intros H; destruct (Hne H)] |].
      split; [discriminate |]. split; [discriminate |].
      split; [reflexivity |].
      split; [intros c Hc; left; exact Hc |].
      split; [split; [discriminate | intros (_ & H & _); discriminate H] |].
      intros _ _. split; [reflexivity |].
      apply last_last.
Qed.

Lemma existsb_eqb_in (x : string) (l : list string) :
  existsb (String.eqb x) l = true -> In x l.
Proof.
  intros H. apply existsb_exists in H. destruct H as (y & Hy & Heq).
  apply String.eqb_eq in Heq. subst y. exact Hy.
Qed.

Ltac ran_cases :=
  let c := fresh "c" in
  let Hc := fresh "Hc" in
  intros c Hc; cbn [Deps.ran] in Hc;
  repeat (apply in_app_or in Hc; destruct Hc as [Hc | Hc]);
  repeat match type of Hc with
         | In _ [_] => destruct Hc as [Hc | []]
         end;
  subst; auto.




(** ** The window of the basic scraper *)

Ltac window_eq :=
  repeat match goal with
         | g : WebScraper.window |- _ => destruct g
         end;
  cbv [WebScraper.put WebScraper.after WebScraper.append_log
       WebScraper.with_queue WebScraper.with_log WebScraper.with_button
       WebScraper.with_after WebScraper.output_queue WebScraper.log_text
       WebScraper.scrape_btn WebScraper.after_calls fst snd] in *;
  subst;
  rewrite <- ?app_assoc, ?app_nil_r; cbn [app];
  try reflexivity.

Lemma ws_worker_trace (E : os) (cmd : list string) :
  WebScraper.worker E cmd
  = (match popen E cmd with
     | PopenRaises e =>
         [Spawn cmd; Put (Some ("Error: " ++ e ++ Py.nl)%string); Put None]
     | PopenOk p out =>
         [Spawn cmd]
         ++ map (fun line => Put (Some line)) (lines out)
         ++ error_line "" (read_error out) ++ [Put None]
     end%list, Ret tt).
Proof.
  unfold WebScraper.worker, Thread.Popen, Thread.for_lines.
  destruct (popen E cmd) as [e | p out]; simpl; [reflexivity |].
  rewrite for_each_emit.
  destruct (read_error out) as [e |]; simpl;
    rewrite ?app_nil_r, <- ?app_assoc; reflexivity.
Qed.

Lemma ws_worker_puts (E : os) (cmd : list string) :
  puts (fst (WebScraper.worker E cmd))
  = (map Some (worker_lines "" (popen E cmd)) ++ [None])%list.
Proof.
  rewrite ws_worker_trace. simpl.
  destruct (popen E cmd) as [e | p out]; simpl; [reflexivity |].
  rewrite puts_app, (puts_map_put (fun line => line)), puts_app.
  rewrite map_app, <- app_assoc, !map_id.
  destruct (read_error out); reflexivity.
Qed.

Lemma ws_poll_loop_lines (ls : list string) (rest : list (option string))
    (g : WebScraper.window) :
  WebScraper.output_queue g = (map Some ls ++ rest)%list ->
  WebScraper.poll_loop (map Some ls ++ rest) g
  = WebScraper.poll_loop rest
      (WebScraper.with_queue rest
         (WebScraper.with_after
            (WebScraper.after_calls g ++ map WebScraper.CbLine ls) g)).
Proof.
  revert g. induction ls as [| l ls IH]; intros g Hq.
  - cbn [map app] in *. f_equal. window_eq.
  - cbn [map app WebScraper.poll_loop]. rewrite IH; [| reflexivity].
    f_equal. window_eq.
Qed.

Lemma ws_poll_queue_lines (ls : list string) (g : WebScraper.window) :
  WebScraper.output_queue g = map Some ls ->
  WebScraper.poll_queue g
  = WebScraper.with_queue []
      (WebScraper.with_after
         (WebScraper.after_calls g ++ map WebScraper.CbLine ls ++ [WebScraper.CbPoll]) g).
Proof.
  intros Hq. unfold WebScraper.poll_queue.
  pose proof (ws_poll_loop_lines ls [] g) as H. rewrite app_nil_r in H.
  rewrite Hq, (H Hq). cbn [WebScraper.poll_loop]. window_eq.
Qed.

Lemma ws_poll_queue_sentinel (ls : list string) (rest : list (option string))
    (g : WebScraper.window) :
  WebScraper.output_queue g = (map Some ls ++ None :: rest)%list ->
  WebScraper.poll_queue g
  = WebScraper.with_queue rest
      (WebScraper.with_after
         (WebScraper.after_calls g ++ map WebScraper.CbLine ls ++ [WebScraper.CbButton])
         g).
Proof.
  intros Hq. unfold WebScraper.poll_queue.
  rewrite Hq, (ws_poll_loop_lines ls (None :: rest) g Hq).
  cbn [WebScraper.poll_loop]. window_eq.
Qed.

Lemma ws_apply_op_frame (o : op) (rest : list op) (g : WebScraper.window) :
  WebScraper.log_text (WebScraper.apply_op o g) = WebScraper.log_text g
  /\ WebScraper.after_calls (WebScraper.apply_op o g) = WebScraper.after_calls g
  /\ WebScraper.scrape_btn (WebScraper.apply_op o g) = WebScraper.scrape_btn g
  /\ (WebScraper.output_queue (WebScraper.apply_op o g) ++ puts rest)%list
     = (WebScraper.output_queue g ++ puts (o :: rest))%list.
Proof.
  destruct o; cbn; repeat split. rewrite <- app_assoc. reflexivity.
Qed.

Lemma ws_apply_op_no_put (o : op) (rest : list op) (g : WebScraper.window) :
  puts (o :: rest) = [] -> WebScraper.apply_op o g = g /\ puts rest = [].
Proof. destruct o; cbn; intros H; try discriminate H; split; auto. Qed.

Lemma ws_run_phase_step (log0 all : list string) (s s' : WebScraper.sys) :
  WebScraper.step s s' ->
  WebScraper.run_phase log0 all s -> WebScraper.run_phase log0 all s'.
Proof.
  intros Hstep Hinv. destruct Hstep as [g o rest | g t cb cs Hac].
  - (* the worker acts *)
    destruct (ws_apply_op_frame o rest g) as (Fl & Fa & Fb & Fq).
    destruct Hinv as [logged ls pending Hlog Hcs Hq Hall Hb
                     | logged ls Hlog Hcs Hq Hp Hall Hb
                     | Hlog Hcs Hq Hp Hb];
      cbn [WebScraper.ui_st WebScraper.worker_st] in *.
    + apply (WebScraper.Polling _ _ _ logged ls pending);
        cbn [WebScraper.ui_st WebScraper.worker_st]; congruence.
    + destruct (ws_apply_op_no_put o rest g Hp) as [Hg Hr].
      apply (WebScraper.Draining _ _ _ logged ls);
        cbn [WebScraper.ui_st WebScraper.worker_st]; congruence.
    + destruct (ws_apply_op_no_put o rest g Hp) as [Hg Hr].
      apply WebScraper.Finished;
        cbn [WebScraper.ui_st WebScraper.worker_st]; congruence.
  - (* a callback runs *)
    destruct Hinv as [logged ls pending Hlog Hcs Hq Hall Hb
                     | logged ls Hlog Hcs Hq Hp Hall Hb
                     | Hlog Hcs Hq Hp Hb];
      cbn [WebScraper.ui_st WebScraper.worker_st] in *; rewrite Hac in Hcs.
    + destruct ls as [| l ls]; cbn [map app] in Hcs; injection Hcs as -> ->.
      * (* a poll *)
        cbn [WebScraper.run_callback].
        destruct (queue_before_sentinel _ _ _ Hq) as [(qs & pend & Hqs & -> & Hp) | [Hqs Hp]].
        -- rewrite (ws_poll_queue_lines qs (WebScraper.with_after [] g) Hqs).
           apply (WebScraper.Polling _ _ _ logged qs pend);
             cbn [WebScraper.ui_st WebScraper.worker_st]; cbn; auto.
        -- rewrite (ws_poll_queue_sentinel pending [] (WebScraper.with_after [] g) Hqs).
           apply (WebScraper.Draining _ _ _ logged pending);
             cbn [WebScraper.ui_st WebScraper.worker_st]; cbn; auto.
      * (* a line reaches the log *)
        apply (WebScraper.Polling _ _ _ (logged ++ [l])%list ls pending);
          cbn [WebScraper.ui_st WebScraper.worker_st]; cbn; auto.
        -- rewrite Hlog, <- app_assoc. reflexivity.
        -- rewrite <- Hall, <- !app_assoc. reflexivity.
    + destruct ls as [| l ls]; cbn [map app] in Hcs; injection Hcs as -> ->.
      * (* the button is enabled again *)
        rewrite app_nil_r in Hall. subst all.
        apply WebScraper.Finished; cbn [WebScraper.ui_st WebScraper.worker_st]; cbn; auto.
      * apply (WebScraper.Draining _ _ _ (logged ++ [l])%list ls);
          cbn [WebScraper.ui_st WebScraper.worker_st]; cbn; auto.
        -- rewrite Hlog, <- app_assoc. reflexivity.
        -- rewrite <- Hall, <- !app_assoc. reflexivity.
    + discriminate Hcs.
Qed.

Lemma ws_run_phase_steps (log0 all : list string) (s s' : WebScraper.sys) :
  WebScraper.steps s s' ->
  WebScraper.run_phase log0 all s -> WebScraper.run_phase log0 all s'.
Proof.
  induction 1 as [s | s s' s'' Hsteps IH Hstep]; intros Hinv; [exact Hinv |].
  apply (ws_run_phase_step log0 all s' s'' Hstep). apply IH. exact Hinv.
Qed.

Lemma ws_steps_trans (s1 s2 s3 : WebScraper.sys) :
  WebScraper.steps s1 s2 -> WebScraper.steps s2 s3 -> WebScraper.steps s1 s3.
Proof.
  intros H12 H23. induction H23 as [s | s s' s'' H IH Hstep]; [exact H12 |].
  apply (WebScraper.steps_snoc s1 s' s''); [apply IH; exact H12 | exact Hstep].
Qed.

Lemma ws_steps_one (s s' : WebScraper.sys) :
  WebScraper.step s s' -> WebScraper.steps s s'.
Proof. intros H. apply (WebScraper.steps_snoc s s s'); [apply WebScraper.steps_refl | exact H]. Qed.

(** The worker can always run to its end. *)
Lemma ws_steps_worker (t : list op) (g : WebScraper.window) :
  exists g',
    WebScraper.steps {| WebScraper.ui_st := g; WebScraper.worker_st := t |}
                     {| WebScraper.ui_st := g'; WebScraper.worker_st := [] |}
    /\ WebScraper.output_queue g' = (WebScraper.output_queue g ++ puts t)%list
    /\ WebScraper.log_text g' = WebScraper.log_text g
    /\ WebScraper.after_calls g' = WebScraper.after_calls g
    /\ WebScraper.scrape_btn g' = WebScraper.scrape_btn g.
Proof.
  revert g. induction t as [| o t IH]; intros g.
  - exists g. split; [apply WebScraper.steps_refl |]. cbn [puts].
    rewrite app_nil_r. repeat split.
  - destruct (IH (WebScraper.apply_op o g)) as (g' & Hsteps & Hq & Hl & Ha & Hb).
    destruct (ws_apply_op_frame o t g) as (Fl & Fa & Fb & Fq).
    exists g'. split.
    + eapply ws_steps_trans; [| exact Hsteps].
      apply ws_steps_one. apply WebScraper.step_worker.
    + repeat split; congruence.
Qed.

(** The scheduled lines at the head of the callbacks reach the log one by
    one. *)
Lemma ws_steps_drain (t : list op) (ls : list string)
    (cs : list WebScraper.callback) (g : WebScraper.window) :
  WebScraper.after_calls g = (map WebScraper.CbLine ls ++ cs)%list ->
  exists g',
    WebScraper.steps {| WebScraper.ui_st := g; WebScraper.worker_st := t |}
                     {| WebScraper.ui_st := g'; WebScraper.worker_st := t |}
    /\ WebScraper.after_calls g' = cs
    /\ WebScraper.log_text g' = (WebScraper.log_text g ++ ls)%list
    /\ WebScraper.output_queue g' = WebScraper.output_queue g
    /\ WebScraper.scrape_btn g' = WebScraper.scrape_btn g.
Proof.
  revert g. induction ls as [| l ls IH]; intros g Hac.
  - exists g. split; [apply WebScraper.steps_refl |]. rewrite app_nil_r.
    repeat split. exact Hac.
  - cbn [map app] in Hac.
    destruct (IH (WebScraper.run_callback (WebScraper.CbLine l)
                    (WebScraper.with_after (map WebScraper.CbLine ls ++ cs) g)))
      as (g' & Hsteps & H1 & H2 & H3 & H4); [reflexivity |].
    exists g'. split.
    + eapply ws_steps_trans; [| exact Hsteps].
      apply ws_steps_one. apply (WebScraper.step_callback g t _ _ Hac).
    + split; [exact H1 |].
      split; [rewrite H2; cbn; rewrite <- app_assoc; reflexivity |].
      split; [rewrite H3; reflexivity | rewrite H4; reflexivity].
Qed.

(** From every state of a run, the run can be brought to its end. *)
Lemma ws_run_phase_completes (log0 all : list string) (s : WebScraper.sys) :
  WebScraper.run_phase log0 all s ->
  exists s',
    WebScraper.steps s s'
    /\ WebScraper.log_text (WebScraper.ui_st s') = (log0 ++ all)%list
    /\ WebScraper.after_calls (WebScraper.ui_st s') = []
    /\ WebScraper.output_queue (WebScraper.ui_st s') = []
    /\ WebScraper.scrape_btn (WebScraper.ui_st s') = true.
Proof.
  assert (Hdrain : forall g t logged ls,
             WebScraper.log_text g = (log0 ++ logged)%list ->
             WebScraper.after_calls g
             = (map WebScraper.CbLine ls ++ [WebScraper.CbButton])%list ->
             WebScraper.output_queue g = [] ->
             (logged ++ ls)%list = all ->
             exists s',
               WebScraper.steps {| WebScraper.ui_st := g; WebScraper.worker_st := t |} s'
               /\ WebScraper.log_text (WebScraper.ui_st s') = (log0 ++ all)%list
               /\ WebScraper.after_calls (WebScraper.ui_st s') = []
               /\ WebScraper.output_queue (WebScraper.ui_st s') = []
               /\ WebScraper.scrape_btn (WebScraper.ui_st s') = true).
  { intros g t logged ls Hlog Hcs Hq Hall.
    destruct (ws_steps_drain t ls [WebScraper.CbButton] g Hcs)
      as (g' & Hsteps & H1 & H2 & H3 & H4).
    exists {| WebScraper.ui_st :=
                WebScraper.run_callback WebScraper.CbButton
                  (WebScraper.with_after [] g');
              WebScraper.worker_st := t |}.
    split.
    - eapply ws_steps_trans; [exact Hsteps |].
      apply ws_steps_one. apply (WebScraper.step_callback g' t _ _ H1).
    - cbn. rewrite H2, H3, Hlog, Hq, <- Hall, <- app_assoc. repeat split. }
  intros [logged ls pending Hlog Hcs Hq Hall Hb
         | logged ls Hlog Hcs Hq Hp Hall Hb
         | Hlog Hcs Hq Hp Hb].
  - destruct s as [g t]. cbn [WebScraper.ui_st WebScraper.worker_st] in *.
    destruct (ws_steps_worker t g) as (g1 & S1 & Q1 & L1 & A1 & B1).
    rewrite Hq in Q1. rewrite Hcs in A1. rewrite Hlog in L1.
    destruct (ws_steps_drain [] ls [WebScraper.CbPoll] g1 A1)
      as (g2 & S2 & A2 & L2 & Q2 & B2).
    rewrite Q1 in Q2. rewrite L1 in L2.
    set (g3 := WebScraper.run_callback WebScraper.CbPoll (WebScraper.with_after [] g2)).
    assert (Hg3 : g3 = WebScraper.with_queue []
                         (WebScraper.with_after
                            (map WebScraper.CbLine pending ++ [WebScraper.CbButton])
                            g2)).
    { unfold g3. cbn [WebScraper.run_callback].
      rewrite (ws_poll_queue_sentinel pending [] (WebScraper.with_after [] g2) Q2).
      clear. window_eq. }
    destruct (Hdrain g3 [] (logged ++ ls)%list pending) as (s' & S3 & R).
    + rewrite Hg3. cbn. rewrite L2, <- app_assoc. reflexivity.
    + rewrite Hg3. reflexivity.
    + rewrite Hg3. reflexivity.
    + rewrite <- Hall, <- app_assoc. reflexivity.
    + exists s'. split; [| exact R].
      eapply ws_steps_trans; [exact S1 |].
      eapply ws_steps_trans; [exact S2 |].
      eapply ws_steps_trans; [| exact S3].
      apply ws_steps_one. apply (WebScraper.step_callback g2 [] _ _ A2).
  - destruct s as [g t]. cbn [WebScraper.ui_st WebScraper.worker_st] in *.
    apply (Hdrain g t logged ls); assumption.
  - exists s. split; [apply WebScraper.steps_refl |]. repeat split; assumption.
Qed.

Lemma ws_size_args_total (small medium large : bool) :
  web_scraper_size_args small medium large = _image_size_args small medium large.
Proof. reflexivity. Qed.

(** What [run_scrape] does once the URL and the types are accepted. *)
Lemma ws_run_scrape_accepted (E : os) (w : WebScraper.widgets) (g : WebScraper.window) :
  nonblank (WebScraper.url_of w) = true ->
  selected_types (WebScraper.type_pdf_var w) (WebScraper.type_text_var w)
                 (WebScraper.type_images_var w) <> [] ->
  exists sizes,
    _image_size_args (WebScraper.size_small_var w) (WebScraper.size_medium_var w)
                     (WebScraper.size_large_var w) = Some sizes
    /\ let cmd := (WebScraper.cmd_head w
                   ++ types_args (selected_types (WebScraper.type_pdf_var w)
                                    (WebScraper.type_text_var w)
                                    (WebScraper.type_images_var w))
                   ++ sizes ++ WebScraper.crawl_args w)%list in
       WebScraper.run_scrape E w g
       = (WebScraper.with_after (WebScraper.CbPoll :: WebScraper.after_calls g)
            (WebScraper.append_log
               ("Running: " ++ Py.join " " cmd ++ Py.nl ++ Py.nl)
               (WebScraper.with_button false g)),
          Ret [WebScraper.worker E cmd]).
Proof.
  intros Hu Hsel.
  destruct (image_size_args_total (WebScraper.size_small_var w)
              (WebScraper.size_medium_var w) (WebScraper.size_large_var w))
    as [sizes Hs].
  exists sizes. split; [exact Hs |]. cbv zeta.
  unfold WebScraper.run_scrape.
  rewrite Hu, (web_scraper_types_args_same _ Hsel), ws_size_args_total, Hs.
  reflexivity.
Qed.


(** X18: in a run of the basic scraper started with an empty queue and no
    pending callback, however the worker and the callbacks of the UI thread
    interleave, what is logged since the launch is a prefix of the lines
    the child wrote (then the error line, if any), in order and without
    repetition; and the button is enabled again only when all of them are
    logged, the queue is empty and no callback is pending. *)
Theorem web_scraper_log_prefix (E : os) (w : WebScraper.widgets)
    (g : WebScraper.window) :
  nonblank (WebScraper.url_of w) = true ->
  selected_types (WebScraper.type_pdf_var w) (WebScraper.type_text_var w)
                 (WebScraper.type_images_var w) <> [] ->
  WebScraper.after_calls g = [] ->
  WebScraper.output_queue g = [] ->
  exists cmd g1,
    WebScraper.run_scrape E w g = (g1, Ret [WebScraper.worker E cmd])
    /\ forall s,
        WebScraper.steps
          {| WebScraper.ui_st := g1;
             WebScraper.worker_st := fst (WebScraper.worker E cmd) |} s ->
        exists logged rest,
          WebScraper.log_text (WebScraper.ui_st s)
          = (WebScraper.log_text g1 ++ logged)%list
          /\ worker_lines "" (popen E cmd) = (logged ++ rest)%list
          /\ (WebScraper.scrape_btn (WebScraper.ui_st s) = true ->
              rest = []
              /\ WebScraper.output_queue (WebScraper.ui_st s) = []
              /\ WebScraper.after_calls (WebScraper.ui_st s) = []).
Proof.
  intros Hu Hsel Hac Hq.
  destruct (ws_run_scrape_accepted E w g Hu Hsel) as (sizes & _ & Hrun).
  cbv zeta in Hrun.
  set (cmd := (WebScraper.cmd_head w ++ _)%list) in Hrun.
  exists cmd. eexists. split; [exact Hrun |].
  intros s Hsteps.
  match type of Hsteps with
  | WebScraper.steps {| WebScraper.ui_st := ?g1; WebScraper.worker_st := _ |} _ =>
      assert (Hinv : WebScraper.run_phase (WebScraper.log_text g1)
                       (worker_lines "" (popen E cmd))
                       {| WebScraper.ui_st := g1;
                          WebScraper.worker_st := fst (WebScraper.worker E cmd) |})
  end.
  { apply (WebScraper.Polling _ _ _ [] [] (worker_lines "" (popen E cmd)));
      cbn [WebScraper.ui_st WebScraper.worker_st].
    - rewrite app_nil_r. reflexivity.
    - cbn. rewrite Hac. reflexivity.
    - cbn. rewrite Hq. apply ws_worker_puts.
    - reflexivity.
    - reflexivity. }
  destruct (ws_run_phase_steps _ _ _ _ Hsteps Hinv)
    as [logged ls pending Hlog Hcs Hqs Hall Hb
       | logged ls Hlog Hcs Hqs Hp Hall Hb
       | Hlog Hcs Hqs Hp Hb].
  - exists logged, (ls ++ pending)%list. split; [exact Hlog |].
    split; [symmetry; exact Hall |]. intros H. rewrite Hb in H. discriminate H.
  - exists logged, ls. split; [exact Hlog |].
    split; [symmetry; exact Hall |]. intros H. rewrite Hb in H. discriminate H.
  - eexists _, []. split; [exact Hlog |].
    split; [rewrite app_nil_r; reflexivity |]. intros _. repeat split; assumption.
Qed.

Lemma ws_steps_worker_ended (s s' : WebScraper.sys) :
  WebScraper.steps s s' ->
  WebScraper.worker_st s = [] -> WebScraper.worker_st s' = [].
Proof.
  induction 1 as [s | s s' s'' Hsteps IH Hstep]; intros Hw; [exact Hw |].
  specialize (IH Hw). destruct Hstep as [g o rest | g t cb cs Hac].
  - discriminate IH.
  - exact IH.
Qed.

(** X19: a run of the basic scraper ends through the worker's last item
    only.  In every state that the worker and the UI thread can reach after
    the launch, the button is disabled as long as the worker thread has
    still something to put: this window has no Stop, so it stays disabled
    for ever when the child never closes its output and the worker never
    gets to its sentinel.  And in every such state in which the worker
    thread has ended, the callbacks of the UI thread alone bring every line
    of the child (and the error line, if any) into the log, in order, empty
    the queue and enable the button again. *)
Theorem web_scraper_run_ends_with_worker (E : os) (w : WebScraper.widgets)
    (g : WebScraper.window) :
  nonblank (WebScraper.url_of w) = true ->
  selected_types (WebScraper.type_pdf_var w) (WebScraper.type_text_var w)
                 (WebScraper.type_images_var w) <> [] ->
  WebScraper.after_calls g = [] ->
  WebScraper.output_queue g = [] ->
  exists cmd g1,
    WebScraper.run_scrape E w g = (g1, Ret [WebScraper.worker E cmd])
    /\ forall s,
        WebScraper.steps
          {| WebScraper.ui_st := g1;
             WebScraper.worker_st := fst (WebScraper.worker E cmd) |} s ->
        (puts (WebScraper.worker_st s) <> [] ->
         WebScraper.scrape_btn (WebScraper.ui_st s) = false)
        /\ (WebScraper.worker_st s = [] ->
            exists s',
              WebScraper.steps s s'
              /\ WebScraper.worker_st s' = []
              /\ WebScraper.log_text (WebScraper.ui_st s')
                 = (WebScraper.log_text g1 ++ worker_lines "" (popen E cmd))%list
              /\ WebScraper.after_calls (WebScraper.ui_st s') = []
              /\ WebScraper.output_queue (WebScraper.ui_st s') = []
              /\ WebScraper.scrape_btn (WebScraper.ui_st s') = true).
Proof.
  intros Hu Hsel Hac Hq.
  destruct (ws_run_scrape_accepted E w g Hu Hsel) as (sizes & _ & Hrun).
  cbv zeta in Hrun.
  set (cmd := (WebScraper.cmd_head w ++ _)%list) in Hrun.
  exists cmd. eexists. split; [exact Hrun |].
  intros s Hsteps.
  match type of Hsteps with
  | WebScraper.steps {| WebScraper.ui_st := ?g1; WebScraper.worker_st := _ |} _ =>
      assert (Hinv : WebScraper.run_phase (WebScraper.log_text g1)
                       (worker_lines "" (popen E cmd)) s)
  end.
  { refine (ws_run_phase_steps _ _ _ _ Hsteps _).
    apply (WebScraper.Polling _ _ _ [] [] (worker_lines "" (popen E cmd)));
      cbn [WebScraper.ui_st WebScraper.worker_st].
    - rewrite app_nil_r. reflexivity.
    - cbn. rewrite Hac. reflexivity.
    - cbn. rewrite Hq. apply ws_worker_puts.
    - reflexivity.
    - reflexivity. }
  split.
  - intros Hp.
    destruct Hinv as [logged ls pending Hlog Hcs Hqs Hall Hb
                     | logged ls Hlog Hcs Hqs Hp' Hall Hb
                     | Hlog Hcs Hqs Hp' Hb]; auto; contradiction.
  - intros Hw.
    destruct (ws_run_phase_completes _ _ _ Hinv) as (s' & Hs' & R).
    exists s'. split; [exact Hs' |].
    split; [exact (ws_steps_worker_ended _ _ Hs' Hw) | exact R].
Qed.

Lemma web_scraper_log_prefix_witness :
  exists cmd g1,
    WebScraper.run_scrape sample_os WebScraper.sample_widgets WebScraper.fresh_window
    = (g1, Ret [WebScraper.worker sample_os cmd]).
Proof.
  destruct (web_scraper_log_prefix sample_os WebScraper.sample_widgets
              WebScraper.fresh_window eq_refl ltac:(discriminate) eq_refl eq_refl)
    as (cmd & g1 & H & _).
  exists cmd, g1. exact H.
Defined.

Lemma web_scraper_run_ends_with_worker_witness :
  exists cmd g1,
    WebScraper.run_scrape sample_os WebScraper.sample_widgets WebScraper.fresh_window
    = (g1, Ret [WebScraper.worker sample_os cmd])
    /\ WebScraper.scrape_btn g1 = false.
Proof.
  destruct (web_scraper_run_ends_with_worker sample_os WebScraper.sample_widgets
              WebScraper.fresh_window eq_refl ltac:(discriminate) eq_refl eq_refl)
    as (cmd & g1 & Hrun & H).
  exists cmd, g1. split; [exact Hrun |].
  apply (proj1 (H _ (WebScraper.steps_refl _))).
  cbn [WebScraper.worker_st]. rewrite ws_worker_puts.
  intros Hnil. apply app_eq_nil in Hnil. destruct Hnil as [_ Hnil]. discriminate Hnil.
Defined.
